(** * Facolos data pipelines: the ETL engine, embedded and verified

    A shallow embedding of the extraction, flattening, loading and
    orchestration code of the repository
    (src/extractors, src/transformers, src/loaders, src/orchestrators),
    with the properties of its specification stated over that embedding.

    Python values are an inductive type, dictionaries are finite maps with
    string keys, exceptions are an explicit result type, and the mutable
    objects (extractor, network, clock, database) are threaded as state. *)

From Stdlib Require Import ZArith Lia Ascii.
From stdpp Require Import base strings gmap list fin_maps.

Local Open Scope Z_scope.
Local Set Warnings "-register-all".

(** * The program *)

(** ** Python values and exceptions *)

Module Py.

(** The values that travel through the pipeline: decoded JSON, plus the
    objects the code itself creates (missing-value marker, datetimes). *)
Inductive pyval : Type :=
| VNone
| VBool (b : bool)
| VInt (n : Z)
| VFloat (mantissa exponent : Z)
| VNaN
| VStr (s : string)
| VDatetime (seconds : Z) (utcoffset : option Z)
| VList (l : list pyval)
| VDict (d : gmap string pyval).

Inductive exn : Type :=
| AttributeError
| TypeError
| KeyError
| ValueError
| RequestException
| JSONDecodeError
| DatabaseError
| OtherError (msg : string).

(** The outcome of a call that may raise. *)
Inductive res (A : Type) : Type :=
| Ok (a : A)
| Raise (e : exn).
Arguments Ok {A} a.
Arguments Raise {A} e.

Definition bind {A B} (r : res A) (k : A -> res B) : res B :=
  match r with
  | Ok a => k a
  | Raise e => Raise e
  end.

(** [for x in xs: ys.append(f x)] where [f] may raise. *)
Fixpoint for_each {A B} (f : A -> res B) (xs : list A) : res (list B) :=
  match xs with
  | [] => Ok []
  | x :: rest =>
      bind (f x) (fun y => bind (for_each f rest) (fun ys => Ok (y :: ys)))
  end.

(** Python truthiness, as used by [if x:] and [not x]. *)
Definition truthy (v : pyval) : bool :=
  match v with
  | VNone => false
  | VBool b => b
  | VInt n => negb (n =? 0)
  | VFloat m _ => negb (m =? 0)
  | VNaN => true
  | VStr s => negb (String.eqb s "")
  | VDatetime _ _ => true
  | VList l => match l with [] => false | _ => true end
  | VDict d => negb (bool_decide (d = ∅))
  end.

(** [pd.isna] on a scalar. *)
Definition isna (v : pyval) : bool :=
  match v with
  | VNone | VNaN => true
  | _ => false
  end.

(** Values accepted as dictionary or set keys ([hash(v)] does not raise). *)
Definition hashable (v : pyval) : bool :=
  match v with
  | VList _ | VDict _ => false
  | _ => true
  end.

(** [d.get(key)] on a dictionary. *)
Definition dict_get (d : gmap string pyval) (key : string) : pyval :=
  default VNone (d !! key).

(** [d.get(key, dflt)]. *)
Definition dict_get_default (d : gmap string pyval) (key : string)
    (dflt : pyval) : pyval :=
  default dflt (d !! key).

(** [v.get(key)] on an arbitrary value: only dictionaries have [get]. *)
Definition py_get (v : pyval) (key : string) : res pyval :=
  match v with
  | VDict d => Ok (dict_get d key)
  | _ => Raise AttributeError
  end.

Definition py_get_default (v : pyval) (key : string) (dflt : pyval)
  : res pyval :=
  match v with
  | VDict d => Ok (dict_get_default d key dflt)
  | _ => Raise AttributeError
  end.

End Py.
Export Py.

Notation "x <- r ;; k" := (bind r (fun x => k))
  (at level 100, r at next level, right associativity, only parsing).

(** ** Data frames *)

Module Pandas.

Abbreviation row := (gmap string pyval).

(** A frame is its column index and its rows; a cell a row does not define
    is missing. *)
Record DataFrame : Type := mkDataFrame {
  columns : gset string;
  rows : list row
}.

(** [pd.DataFrame()] *)
Definition DataFrame_new : DataFrame := mkDataFrame ∅ [].

(** [pd.DataFrame(records)] for a list of dictionaries. *)
Definition DataFrame_from_records (records : list row) : DataFrame :=
  mkDataFrame (⋃ (dom <$> records)) records.

(** [df.empty]: no rows or no columns. *)
Definition empty (df : DataFrame) : bool :=
  bool_decide (rows df = []) || bool_decide (columns df = ∅).

(** [len(df)] *)
Definition len (df : DataFrame) : nat := length (rows df).

(** [col in df.columns] *)
Definition has_column (df : DataFrame) (col : string) : bool :=
  bool_decide (col ∈ columns df).

Definition cell (r : row) (col : string) : pyval := default VNaN (r !! col).

(** [df[col]] *)
Definition series (df : DataFrame) (col : string) : list pyval :=
  (fun r => cell r col) <$> rows df.

(** [df[col] = values] for a series over the same index. *)
Definition set_series (df : DataFrame) (col : string) (values : list pyval)
  : DataFrame :=
  mkDataFrame ({[col]} ∪ columns df)
    (zip_with (fun r v => <[col := v]> r) (rows df) values).

(** [df[col] = scalar] *)
Definition set_scalar (df : DataFrame) (col : string) (v : pyval)
  : DataFrame :=
  mkDataFrame ({[col]} ∪ columns df) (<[col := v]> <$> rows df).

(** [df[col].isnull().sum()] *)
Definition isnull_sum (df : DataFrame) (col : string) : nat :=
  length (filter (fun v => isna v = true) (series df col)).

(** The column conversions of pandas that the transformers call. They are
    library code: the interface fixes only that a conversion returns a
    series over the same index. *)
Class Conversions : Type := {
  to_numeric_coerce : list pyval -> list pyval;
  to_datetime_coerce : list pyval -> list pyval;
  astype_bool_ignore : list pyval -> list pyval;
  to_numeric_coerce_length :
    forall s, length (to_numeric_coerce s) = length s;
  to_datetime_coerce_length :
    forall s, length (to_datetime_coerce s) = length s;
  astype_bool_ignore_length :
    forall s, length (astype_bool_ignore s) = length s
}.

(** [for col in cols: if col in df.columns: df[col] = conv(df[col])] *)
Definition convert_columns (conv : list pyval -> list pyval)
    (cols : list string) (df : DataFrame) : DataFrame :=
  foldl (fun df col =>
           if has_column df col
           then set_series df col (conv (series df col))
           else df) df cols.

End Pandas.
Export Pandas.

(** ** MISA CRM transformer (src/transformers/misa_crm_transformer.py) *)

Module MisaTransformer.

(** [for key, value in src.items(): flattened_row[prefix + key] = value] *)
Definition add_prefixed (prefix : string) (src : gmap string pyval)
    (flattened_row : row) : row :=
  map_fold (fun key value r => <[prefix +:+ key := value]> r)
    flattened_row src.

(** [{k: v for k, v in order.items() if k != 'sale_order_product_mappings'}] *)
Definition order_main (order : gmap string pyval) : gmap string pyval :=
  filter (fun kv => kv.1 ≠ "sale_order_product_mappings") order.

Definition item_fields : list string :=
  ["id"; "product_code"; "unit"; "price"; "amount"; "total";
   "tax_percent"; "discount_percent"; "stock_name"; "description"].

(** The row emitted for one product item of an order. *)
Definition item_row (main : gmap string pyval) (n_items : nat)
    (item : pyval) : res row :=
  let flattened_row := add_prefixed "order_" main ∅ in
  match item with
  | VDict i =>
      let flattened_row := add_prefixed "item_" i flattened_row in
      let flattened_row :=
        <["has_multiple_items" := VBool (1 <? Z.of_nat n_items)]>
          flattened_row in
      Ok (<["total_items_in_order" := VInt (Z.of_nat n_items)]>
            flattened_row)
  | _ => Raise AttributeError
  end.

(** The row emitted for an order without product items. *)
Definition no_item_row (main : gmap string pyval) : row :=
  let flattened_row := add_prefixed "order_" main ∅ in
  let flattened_row :=
    foldl (fun r field => <["item_" +:+ field := VNone]> r)
      flattened_row item_fields in
  let flattened_row := <["has_multiple_items" := VBool false]> flattened_row in
  <["total_items_in_order" := VInt 0]> flattened_row.

(** The body of [for order in sale_orders_data]: the rows appended for one
    order. Iterating a string or a dictionary yields strings, which have no
    [items]; other truthy values are not iterable. *)
Definition flatten_order (order : pyval) : res (list row) :=
  match order with
  | VDict o =>
      let main := order_main o in
      let product_mappings :=
        dict_get_default o "sale_order_product_mappings" (VList []) in
      if truthy product_mappings then
        match product_mappings with
        | VList items => for_each (item_row main (length items)) items
        | VStr _ | VDict _ => Raise AttributeError
        | _ => Raise TypeError
        end
      else Ok [no_item_row main]
  | _ => Raise AttributeError
  end.

(** The flattening loop: [flattened_rows] after all orders. *)
Fixpoint flatten_orders (sale_orders_data : list pyval)
    (flattened_rows : list row) : res (list row) :=
  match sale_orders_data with
  | [] => Ok flattened_rows
  | order :: rest =>
      new_rows <- flatten_order order ;;
      flatten_orders rest (flattened_rows ++ new_rows)
  end.

Definition order_numeric_columns : list string :=
  ["order_sale_order_amount"; "order_total_summary"; "order_tax_summary";
   "order_discount_summary"; "order_to_currency_summary";
   "order_total_receipted_amount"; "order_balance_receipt_amount";
   "order_invoiced_amount"; "order_un_invoiced_amount";
   "order_exchange_rate"].

Definition item_numeric_columns : list string :=
  ["item_price"; "item_amount"; "item_usage_unit_amount";
   "item_usage_unit_price"; "item_total"; "item_to_currency";
   "item_discount"; "item_tax"; "item_discount_percent";
   "item_price_after_tax"; "item_price_after_discount";
   "item_to_currency_after_discount"; "item_height"; "item_width";
   "item_length"; "item_radius"; "item_mass"; "item_exist_amount";
   "item_shipping_amount"; "item_ratio"; "item_custom_field1";
   "item_produced_quantity"; "item_quantity_ordered"].

Definition order_date_columns : list string :=
  ["order_sale_order_date"; "order_due_date"; "order_book_date";
   "order_deadline_date"; "order_delivery_date"; "order_paid_date";
   "order_invoice_date"; "order_production_date"].

Definition item_date_columns : list string := ["item_expire_date"].

Definition boolean_columns : list string :=
  ["order_is_use_currency"; "item_is_promotion"].

(** [_add_etl_metadata]; [batch_id] is [self.batch_id] and [now] the clock
    reading of the call. *)
Definition _add_etl_metadata (batch_id : pyval) (now : Z) (df : DataFrame)
  : DataFrame :=
  let df := set_scalar df "etl_batch_id" batch_id in
  let df := set_scalar df "etl_created_at" (VDatetime now None) in
  let df := set_scalar df "etl_updated_at" (VDatetime now None) in
  set_scalar df "etl_source" (VStr "misa_crm_api").

Section Transform.
Context `{Conversions}.

Definition transform_sale_orders_flattened (batch_id : pyval) (now : Z)
    (sale_orders_data : list pyval) : res DataFrame :=
  match sale_orders_data with
  | [] => Ok DataFrame_new
  | _ =>
      flattened_rows <- flatten_orders sale_orders_data [] ;;
      let df := DataFrame_from_records flattened_rows in
      if empty df then Ok df
      else
        let df := convert_columns to_numeric_coerce order_numeric_columns df in
        let df := convert_columns to_numeric_coerce item_numeric_columns df in
        let df := convert_columns to_datetime_coerce order_date_columns df in
        let df := convert_columns to_datetime_coerce item_date_columns df in
        let df := convert_columns astype_bool_ignore boolean_columns df in
        Ok (_add_etl_metadata batch_id now df)
  end.

End Transform.

(** The nested child items of a record, and the records the transformer is
    written for: a dictionary whose child collection, when present, is
    null or a list of dictionaries. *)
Definition children (order : pyval) : list pyval :=
  match order with
  | VDict o =>
      match o !! "sale_order_product_mappings" with
      | Some (VList items) => items
      | _ => []
      end
  | _ => []
  end.

Definition is_dict (v : pyval) : bool :=
  match v with VDict _ => true | _ => false end.

Definition well_formed_order (order : pyval) : bool :=
  match order with
  | VDict o =>
      match o !! "sale_order_product_mappings" with
      | None | Some VNone => true
      | Some (VList items) => forallb is_dict items
      | Some _ => false
      end
  | _ => false
  end.

End MisaTransformer.

(** ** TikTok Shop transformer (src/transformers/tiktok_shop_transformer.py) *)

Module TikTokTransformer.

(** The Python built-ins the transformer calls; they are library code and
    may raise. *)
Class Builtins : Type := {
  py_float : pyval -> res pyval;
  py_int : pyval -> res pyval;
  json_dumps : pyval -> res string
}.

Definition is_empty_str (v : pyval) : bool :=
  match v with VStr s => String.eqb s "" | _ => false end.

Section Transformer.
Context `{Builtins}.

(** [except (ValueError, TypeError): return None]; any other exception
    propagates. *)
Definition none_on_value_or_type_error (r : res pyval) : res pyval :=
  match r with
  | Ok v => Ok v
  | Raise ValueError | Raise TypeError => Ok VNone
  | Raise e => Raise e
  end.

Definition _safe_float (value : pyval) : res pyval :=
  match value with
  | VNone => Ok VNone
  | _ => if is_empty_str value then Ok VNone
         else none_on_value_or_type_error (py_float value)
  end.

Definition _safe_int (value : pyval) : res pyval :=
  match value with
  | VNone => Ok VNone
  | _ => if is_empty_str value then Ok VNone
         else none_on_value_or_type_error (py_int value)
  end.

Definition order_fields : list string :=
  ["order_id"; "order_status"; "buyer_message"; "cancel_reason";
   "cancel_user"; "collection_time"; "create_time"; "delivery_due_time";
   "delivery_time"; "fulfillment_type"; "order_line_type";
   "payment_method"; "payment_method_name"; "remark";
   "request_cancel_reason"; "split_or_combine_tag"; "update_time";
   "warehouse_id"].

Definition amount_fields : list string :=
  ["original_shipping_fee"; "original_total_product_price";
   "seller_discount"; "shipping_fee"; "shipping_fee_platform_discount";
   "shipping_fee_seller_discount"; "subtotal_after_seller_discounts";
   "tax_amount"; "total_amount"].

Definition _extract_order_info (order : pyval) : res row :=
  match order with
  | VDict o =>
      match dict_get_default o "order_amount" (VDict ∅) with
      | VDict order_amount =>
          amounts <- for_each
            (fun k => f <- _safe_float (dict_get order_amount k) ;; Ok (k, f))
            amount_fields ;;
          Ok (list_to_map
                (((fun k => (k, dict_get o k)) <$> order_fields) ++
                 ("currency", dict_get order_amount "currency") :: amounts))
      | _ => Raise AttributeError
      end
  | _ => Raise AttributeError
  end.

(** Output column and the recipient field it is read from. *)
Definition recipient_fields : list (string * string) :=
  [("recipient_address_detail", "detail");
   ("recipient_address_region_code", "region_code");
   ("recipient_address_state", "state");
   ("recipient_address_city", "city");
   ("recipient_address_town", "town");
   ("recipient_address_district", "district");
   ("recipient_address_zipcode", "zipcode");
   ("recipient_name", "name");
   ("recipient_phone", "phone");
   ("recipient_phone_number", "phone_number")].

Definition _extract_recipient_info (order : pyval) : res row :=
  match order with
  | VDict o =>
      match dict_get_default o "recipient_address" (VDict ∅) with
      | VDict recipient =>
          Ok (list_to_map
                ((fun kf => (kf.1, dict_get recipient kf.2))
                   <$> recipient_fields))
      | _ => Raise AttributeError
      end
  | _ => Raise AttributeError
  end.

Definition _extract_item_info (item : pyval) : res row :=
  match item with
  | VDict i =>
      match dict_get_default i "sku_info" (VDict ∅) with
      | VDict sku_info =>
          let sales_attributes :=
            dict_get_default sku_info "sales_attributes" (VList []) in
          sales_attributes_json <-
            (if truthy sales_attributes
             then s <- json_dumps sales_attributes ;; Ok (VStr s)
             else Ok VNone) ;;
          quantity <- _safe_int (dict_get i "quantity") ;;
          unit_price <- _safe_float (dict_get i "unit_price") ;;
          platform_discount <- _safe_float (dict_get i "platform_discount") ;;
          seller_discount <- _safe_float (dict_get i "seller_discount") ;;
          Ok (list_to_map
                [("item_id", dict_get i "product_id");
                 ("item_name", dict_get i "product_name");
                 ("item_sku_id", dict_get i "sku_id");
                 ("item_sku_image", dict_get sku_info "sku_image");
                 ("item_sku_name", dict_get sku_info "sku_name");
                 ("item_quantity", quantity);
                 ("item_unit_price", unit_price);
                 ("item_currency", dict_get i "currency");
                 ("item_is_gift", dict_get i "is_gift");
                 ("item_platform_discount", platform_discount);
                 ("item_seller_discount", seller_discount);
                 ("item_sku_sales_attributes", sales_attributes_json)])
      | _ => Raise AttributeError
      end
  | _ => Raise AttributeError
  end.

Definition _get_empty_item_fields : row :=
  list_to_map
    ((fun k => (k, VNone)) <$>
       ["item_id"; "item_name"; "item_sku_id"; "item_sku_image";
        "item_sku_name"; "item_quantity"; "item_unit_price";
        "item_currency"; "item_is_gift"; "item_platform_discount";
        "item_seller_discount"; "item_sku_sales_attributes"]).

(** The body of [for order in orders]: the rows appended for one order.
    A dictionary display [{**a, **b}] keeps the later binding of a key. *)
Definition flatten_order (order : pyval) : res (list row) :=
  order_info <- _extract_order_info order ;;
  recipient_info <- _extract_recipient_info order ;;
  line_items <- py_get_default order "line_items" (VList []) ;;
  if negb (truthy line_items) then
    let row := recipient_info ∪ order_info in
    Ok [_get_empty_item_fields ∪ row]
  else
    match line_items with
    | VList items =>
        for_each (fun item =>
                    item_info <- _extract_item_info item ;;
                    Ok (item_info ∪ recipient_info ∪ order_info)) items
    | VStr _ | VDict _ => Raise AttributeError
    | _ => Raise TypeError
    end.

Fixpoint flatten_orders (orders : list pyval) (flattened_rows : list row)
  : res (list row) :=
  match orders with
  | [] => Ok flattened_rows
  | order :: rest =>
      new_rows <- flatten_order order ;;
      flatten_orders rest (flattened_rows ++ new_rows)
  end.

(** [_add_etl_metadata]; [batch_id] is [self.batch_id], [now] the reading
    of [datetime.utcnow()]. *)
Definition _add_etl_metadata (batch_id : pyval) (now : Z) (df : DataFrame)
  : DataFrame :=
  let df := set_scalar df "etl_batch_id" batch_id in
  let df := set_scalar df "etl_created_at" (VDatetime now None) in
  set_scalar df "etl_updated_at" (VDatetime now None).

(** The whole call: the [try] body raises, the [except] clause returns an
    empty frame. *)
Definition transform_orders_body (batch_id : pyval) (now : Z)
    (orders : list pyval) : res DataFrame :=
  match orders with
  | [] => Ok DataFrame_new
  | _ =>
      flattened_rows <- flatten_orders orders [] ;;
      let df := DataFrame_from_records flattened_rows in
      Ok (_add_etl_metadata batch_id now df)
  end.

Definition transform_orders_to_dataframe (batch_id : pyval) (now : Z)
    (orders : list pyval) : DataFrame :=
  match transform_orders_body batch_id now orders with
  | Ok df => df
  | Raise _ => DataFrame_new
  end.

End Transformer.



(** [validate_dataframe]: every failure, raised or not, yields [False].
    The count of null order ids is only logged; [nunique] hashes the cells
    of the column and raises on an unhashable one. *)
Definition validate_dataframe (df : DataFrame) : bool :=
  if empty df then false
  else
    let required_columns := ["order_id"; "etl_batch_id"] in
    let missing_columns :=
      filter (fun col => has_column df col = false) required_columns in
    match missing_columns with
    | _ :: _ => false
    | [] =>
        let null_order_ids := isnull_sum df "order_id" in
        let unique_orders := forallb hashable (series df "order_id") in
        if unique_orders then true else false
    end.

End TikTokTransformer.

(** ** Stateful computations that may raise *)

Module Effects.

(** A computation reads and updates a state of type [S] and either
    returns or raises; the state survives an exception. *)
Definition Eff (S A : Type) : Type := S -> res A * S.

Definition ret {S A} (a : A) : Eff S A := fun s => (Ok a, s).
Definition throw {S A} (e : exn) : Eff S A := fun s => (Raise e, s).
Definition lift {S A} (r : res A) : Eff S A := fun s => (r, s).

Definition mbind {S A B} (m : Eff S A) (k : A -> Eff S B) : Eff S B :=
  fun s =>
    match m s with
    | (Ok a, s') => k a s'
    | (Raise e, s') => (Raise e, s')
    end.

(** [try: m  except Exception as e: handler e] *)
Definition try_except {S A} (m : Eff S A) (handler : exn -> Eff S A)
  : Eff S A :=
  fun s =>
    match m s with
    | (Ok a, s') => (Ok a, s')
    | (Raise e, s') => handler e s'
    end.

End Effects.
Export Effects.

Notation "x <~ m ;; k" := (mbind m (fun x => k))
  (at level 100, m at next level, right associativity, only parsing).

(** ** MISA CRM extractor (src/extractors/misa_crm_extractor.py) *)

Module Extractor.

(** The settings the extractor reads. *)
Record Settings : Type := {
  api_timeout : Z;
  api_retry_attempts : Z;
  api_retry_delay : Z;
  misa_crm_page_size : Z;
  misa_crm_max_page_size : Z;
  misa_crm_token_refresh_buffer : Z;
  misa_crm_incremental_lookback_hours : Z;
  etl_rate_limit_delay : Z
}.

(** A [datetime]: seconds on the wall clock, and the UTC offset when the
    value is timezone-aware. *)
Record datetime : Type := mkDatetime {
  dt_seconds : Z;
  dt_utcoffset : option Z
}.

(** Library functions the extractor calls. *)
Class Libraries : Type := {
  jwt_decode : pyval -> res pyval;
  datetime_fromtimestamp : pyval -> res Z;
  datetime_fromisoformat : string -> res datetime
}.

(** *** The network, the clock and the extractor object *)

Record request : Type := mkRequest {
  req_method : string;
  req_url : string;
  req_params : gmap string pyval;
  req_token : pyval;
  req_timeout : Z
}.

(** What a call of [requests] yields: an exception, or a response with a
    status code and what [response.json()] will return. *)
Inductive http_outcome : Type :=
| ConnectionFailed
| Response (status_code : Z) (json : res pyval).

Record response : Type := mkResponse {
  status_code : Z;
  json : res pyval
}.

Inductive event : Type :=
| Posted (r : request)
| Requested (r : request)
| Slept (seconds : Z).

(** The token endpoint and the data endpoints answer the n-th call they
    receive; the log records every call and every pause. *)
Record world : Type := mkWorld {
  now : Z;
  auth_server : nat -> request -> http_outcome;
  api_server : nat -> request -> http_outcome;
  posts : nat;
  gets : nat;
  log : list event
}.

Record extractor : Type := mkExtractor {
  client_id : string;
  client_secret : string;
  base_url : string;
  access_token : pyval;
  token_expires_at : option Z;
  endpoints : gmap string string
}.

Definition default_endpoints : gmap string string :=
  list_to_map
    [("customers", "/Customers"); ("sale_orders", "/SaleOrders");
     ("contacts", "/Contacts"); ("stocks", "/Stocks");
     ("products", "/Products")]%string.

Record state : Type := mkState {
  self : extractor;
  env : world
}.

(** Computations on the extractor and its world. *)
Abbreviation M := (Eff state).

Definition datetime_now : M Z := fun s => (Ok (now (env s)), s).

Definition set_env (w : world) : M unit :=
  fun s => (Ok tt, mkState (self s) w).

Definition set_self (e : extractor) : M unit :=
  fun s => (Ok tt, mkState e (env s)).

(** The world after a pause, a call to the token endpoint and a call to a
    data endpoint. *)
Definition slept (seconds : Z) (s : state) : state :=
  let w := env s in
  mkState (self s)
    (mkWorld (now w + seconds) (auth_server w) (api_server w)
       (posts w) (gets w) (log w ++ [Slept seconds])).

Definition posted (r : request) (s : state) : state :=
  let w := env s in
  mkState (self s)
    (mkWorld (now w) (auth_server w) (api_server w)
       (S (posts w)) (gets w) (log w ++ [Posted r])).

Definition requested (r : request) (s : state) : state :=
  let w := env s in
  mkState (self s)
    (mkWorld (now w) (auth_server w) (api_server w)
       (posts w) (S (gets w)) (log w ++ [Requested r])).

Definition outcome_result (o : http_outcome) : res response :=
  match o with
  | ConnectionFailed => Raise RequestException
  | Response code body => Ok (mkResponse code body)
  end.

(** [time.sleep(seconds)] *)
Definition time_sleep (seconds : Z) : M unit :=
  fun s =>
    if seconds <? 0 then (Raise ValueError, s) else (Ok tt, slept seconds s).

(** [requests.post(url, ...)] to the token endpoint. *)
Definition requests_post (r : request) : M response :=
  fun s =>
    (outcome_result (auth_server (env s) (posts (env s)) r), posted r s).

(** [requests.request(method, url, ...)] to a data endpoint. *)
Definition requests_request (r : request) : M response :=
  fun s =>
    (outcome_result (api_server (env s) (gets (env s)) r), requested r s).

Section WithSettings.
Context `{Libraries} (settings : Settings).

(** *** Token management *)

Definition _decode_token_expiry (token : pyval) : M Z :=
  try_except
    (decoded <~ lift (jwt_decode token) ;;
     exp_timestamp <~ lift (py_get decoded "exp") ;;
     if truthy exp_timestamp
     then lift (datetime_fromtimestamp exp_timestamp)
     else (t <~ datetime_now ;; ret (t + 3600)))
    (fun _ => t <~ datetime_now ;; ret (t + 3600)).

Definition _is_token_expired : M bool :=
  fun s =>
    match token_expires_at (self s) with
    | Some expires_at =>
        if truthy (access_token (self s)) then
          let buffer_time :=
            now (env s) + misa_crm_token_refresh_buffer settings in
          (Ok (expires_at <=? buffer_time), s)
        else (Ok true, s)
    | None => (Ok true, s)
    end.

Definition token_request (e : extractor) : request :=
  mkRequest "POST" (base_url e +:+ "/Account")
    (<["client_id" := VStr (client_id e)]>
       (<["client_secret" := VStr (client_secret e)]> ∅))
    VNone (api_timeout settings).

Definition store_token (token : pyval) (expires_at : option Z) : M unit :=
  fun s =>
    let e := self s in
    (Ok tt, mkState (mkExtractor (client_id e) (client_secret e) (base_url e)
                       token expires_at (endpoints e)) (env s)).

(** The part of [get_access_token] that asks for a new token. *)
Definition request_new_token : M pyval :=
  try_except
    (e <~ (fun s => (Ok (self s), s)) ;;
     response <~ requests_post (token_request e) ;;
     if status_code response =? 200 then
       result <~ lift (json response) ;;
       success <~ lift (py_get result "success") ;;
       match result with
       | VDict d =>
           if truthy success && bool_decide (is_Some (d !! "data")) then
             let token := dict_get d "data" in
             _ <~ store_token token (token_expires_at e) ;;
             expires_at <~ _decode_token_expiry token ;;
             _ <~ store_token token (Some expires_at) ;;
             ret token
           else ret VNone
       | _ => ret VNone
       end
     else ret VNone)
    (fun _ => ret VNone).

Definition get_access_token (force_refresh : bool) : M pyval :=
  if force_refresh then request_new_token
  else
    expired <~ _is_token_expired ;;
    if negb expired then (fun s => (Ok (access_token (self s)), s))
    else request_new_token.

(** [_get_headers]: the token that goes into the Authorization header. *)
Definition _get_headers : M pyval :=
  token <~ get_access_token false ;;
  if truthy token then ret token else throw ValueError.

(** *** Requests with retry *)

Inductive attempt_result : Type :=
| Return (r : option response)
| Continue.

(** One iteration of [for attempt in range(settings.api_retry_attempts)]. *)
Definition request_attempt (attempt : Z) (method url : string)
    (params : gmap string pyval) : M attempt_result :=
  try_except
    (token <~ _get_headers ;;
     response <~ requests_request
       (mkRequest method url params token (api_timeout settings)) ;;
     if status_code response =? 200 then ret (Return (Some response))
     else if status_code response =? 401 then
       _ <~ get_access_token true ;;
       if attempt <? api_retry_attempts settings - 1 then
         _ <~ time_sleep (api_retry_delay settings) ;; ret Continue
       else ret Continue
     else ret (Return None))
    (fun _ =>
       if attempt <? api_retry_attempts settings - 1 then
         _ <~ time_sleep (api_retry_delay settings * (attempt + 1)) ;;
         ret Continue
       else ret (Return None)).

Fixpoint request_attempts (attempts : list Z) (method url : string)
    (params : gmap string pyval) : M (option response) :=
  match attempts with
  | [] => ret None
  | attempt :: rest =>
      r <~ request_attempt attempt method url params ;;
      match r with
      | Return resp => ret resp
      | Continue => request_attempts rest method url params
      end
  end.

(** [range(n)] *)
Definition range (n : Z) : list Z := Z.of_nat <$> seq 0 (Z.to_nat n).

Definition _make_request_with_retry (method url : string)
    (params : gmap string pyval) : M (option response) :=
  request_attempts (range (api_retry_attempts settings)) method url params.

(** *** Pages *)

(** The query parameters of a page request; [stocks] is not paginated. *)
Definition request_params_for (endpoint_name : string) (page page_size : Z)
    (params : gmap string pyval) : gmap string pyval :=
  let request_params :=
    params ∪
    (<["page" := VInt page]>
       (<["pageSize" :=
            VInt (Z.min page_size (misa_crm_max_page_size settings))]> ∅)) in
  if String.eqb endpoint_name "stocks" then ∅ else request_params.

Definition extract_endpoint_data (endpoint_name : string) (page : Z)
    (page_size : option Z) (params : gmap string pyval) : M pyval :=
  e <~ (fun s => (Ok (self s), s)) ;;
  match endpoints e !! endpoint_name with
  | None => ret VNone
  | Some path =>
      let page_size := default (misa_crm_page_size settings) page_size in
      let url := base_url e +:+ path in
      let request_params :=
        request_params_for endpoint_name page page_size params in
      response <~ _make_request_with_retry "GET" url request_params ;;
      match response with
      | Some r =>
          if status_code r <? 400 then lift (json r) else ret VNone
      | None => ret VNone
      end
  end.

(** [not result or 'data' not in result or not result['data']]; membership
    and subscripting raise on values that do not support them. *)
Definition contains_data (result : pyval) : res bool :=
  match result with
  | VDict d => Ok (bool_decide (is_Some (d !! "data")))
  | VList l =>
      Ok (existsb (fun v => match v with
                            | VStr s => String.eqb s "data"
                            | _ => false
                            end) l)
  | VStr s => Ok (match String.index 0 "data" s with
                  | Some _ => true
                  | None => false
                  end)
  | _ => Raise TypeError
  end.

Definition subscript_data (result : pyval) : res pyval :=
  match result with
  | VDict d => match d !! "data" with
               | Some v => Ok v
               | None => Raise KeyError
               end
  | _ => Raise TypeError
  end.

Definition page_has_no_data (result : pyval) : res bool :=
  if negb (truthy result) then Ok true
  else
    has <- contains_data result ;;
    if negb has then Ok true
    else
      batch_data <- subscript_data result ;;
      Ok (negb (truthy batch_data)).

(** The elements [all_data.extend(batch_data)] appends. *)
Fixpoint characters (s : string) : list pyval :=
  match s with
  | EmptyString => []
  | String c rest => VStr (String c EmptyString) :: characters rest
  end.

Definition batch_items (batch_data : pyval) : res (list pyval) :=
  match batch_data with
  | VList l => Ok l
  | VStr s => Ok (characters s)
  | VDict d => Ok ((fun kv => VStr kv.1) <$> map_to_list d)
  | _ => Raise TypeError
  end.

(** [max_pages and page >= max_pages]: a limit of [None] or [0] is no
    limit. *)
Definition limit_reached (max_pages : option Z) (page : Z) : bool :=
  match max_pages with
  | Some m => negb (m =? 0) && (m <=? page)
  | None => false
  end.

(** The [while True] loop of [extract_all_data_from_endpoint], from the
    given page on. The loop need not terminate; [fuel] bounds the number of
    iterations and [None] reports that it ran out. *)
Fixpoint extract_all_loop (fuel : nat) (endpoint_name : string)
    (max_pages : option Z) (page : Z) (all_data : list pyval)
  : M (option (list pyval)) :=
  match fuel with
  | O => ret None
  | S fuel =>
      if limit_reached max_pages page then ret (Some all_data)
      else
        result <~ extract_endpoint_data endpoint_name page
                    (Some (misa_crm_page_size settings)) ∅ ;;
        no_data <~ lift (page_has_no_data result) ;;
        if no_data then ret (Some all_data)
        else
          batch_data <~ lift (subscript_data result) ;;
          items <~ lift (batch_items batch_data) ;;
          let all_data := all_data ++ items in
          if Z.of_nat (length items) <? misa_crm_page_size settings
          then ret (Some all_data)
          else
            _ <~ time_sleep (etl_rate_limit_delay settings) ;;
            extract_all_loop fuel endpoint_name max_pages (page + 1) all_data
  end.

Definition extract_all_data_from_endpoint (fuel : nat)
    (endpoint_name : string) (max_pages : option Z)
  : M (option (list pyval)) :=
  extract_all_loop fuel endpoint_name max_pages 0 [].

(** *** Incremental extraction *)

(** [s.replace('Z', '+00:00')] *)
Fixpoint replace_Z (s : string) : string :=
  match s with
  | EmptyString => EmptyString
  | String c rest =>
      if Ascii.eqb c "Z"%char then "+00:00" +:+ replace_Z rest
      else String c (replace_Z rest)
  end.

(** [a >= b] on datetimes: a naive and an aware value do not compare. *)
Definition datetime_ge (a b : datetime) : res bool :=
  match dt_utcoffset a, dt_utcoffset b with
  | None, None => Ok (dt_seconds b <=? dt_seconds a)
  | Some oa, Some ob => Ok (dt_seconds b - ob <=? dt_seconds a - oa)
  | _, _ => Raise TypeError
  end.

(** The body of [for record in all_data]: whether the record is appended
    to [filtered_data]. The bare [except] covers the parse and the
    comparison. *)
Definition keep_record (cutoff_time : datetime) (record : pyval) : res bool :=
  modified_date_str <- py_get record "modified_date" ;;
  if truthy modified_date_str then
    match
      (match modified_date_str with
       | VStr s =>
           modified_date <- datetime_fromisoformat (replace_Z s) ;;
           datetime_ge modified_date cutoff_time
       | _ => Raise AttributeError
       end)
    with
    | Ok appended => Ok appended
    | Raise _ => Ok true
    end
  else Ok true.

Fixpoint filter_records (cutoff_time : datetime) (all_data : list pyval)
    (filtered_data : list pyval) : res (list pyval) :=
  match all_data with
  | [] => Ok filtered_data
  | record :: rest =>
      appended <- keep_record cutoff_time record ;;
      filter_records cutoff_time rest
        (if appended : bool then filtered_data ++ [record] else filtered_data)
  end.

Definition extract_incremental_data (fuel : nat) (endpoint_name : string)
    (lookback_hours : option Z) : M (option (list pyval)) :=
  let lookback_hours :=
    default (misa_crm_incremental_lookback_hours settings) lookback_hours in
  all_data <~ extract_all_data_from_endpoint fuel endpoint_name (Some 10) ;;
  match all_data with
  | None => ret None
  | Some [] => ret (Some [])
  | Some all_data =>
      t <~ datetime_now ;;
      let cutoff_time := mkDatetime (t - lookback_hours * 3600) None in
      filtered_data <~ lift (filter_records cutoff_time all_data []) ;;
      ret (Some filtered_data)
  end.

End WithSettings.

End Extractor.

(** ** Loaders (src/loaders, src/utils/database.py) *)

Module Loaders.

(** The database as the loaders reach it: SQLAlchemy's engine behind
    [DataFrame.to_sql] and [execute], and a pyodbc connection. Each call
    either succeeds or raises, and may change the database. *)
Class Database (DB : Type) : Type := {
  engine_ready : DB -> bool;
  initialize : DB -> bool * DB;
  to_sql : DataFrame -> string -> string -> string -> option Z -> DB
           -> res unit * DB;
  execute : string -> DB -> res unit * DB;
  pyodbc_connect : DB -> res unit * DB;
  pyodbc_table_columns : string -> string -> DB -> res (list string) * DB;
  pyodbc_executemany : string -> string -> list string -> list (list pyval)
                       -> DB -> res unit * DB
}.

(** Pandas operations the loaders call. *)
Class FrameOps : Type := {
  astype_str : pyval -> string;
  any_negative : list pyval -> res bool
}.

(** The settings the loaders read. *)
Record Settings : Type := {
  staging_schema : string;
  staging_table_orders : string;
  misa_crm_etl_batch_size : Z;
  table_mappings : gmap string string
}.

Section WithDatabase.
Context {DB : Type} `{Database DB} `{FrameOps} (settings : Settings).

(** *** [DatabaseManager] *)

Definition truncate_table (table_name schema : string) (db : DB)
  : bool * DB :=
  let full_table_name := "[" +:+ schema +:+ "].[" +:+ table_name +:+ "]" in
  let sql := "TRUNCATE TABLE " +:+ full_table_name in
  (* [get_connection] initializes the engine on first use *)
  let '(ready, db) :=
    if engine_ready db then (true, db) else initialize db in
  if ready then
    match execute sql db with
    | (Ok _, db) => (true, db)
    | (Raise _, db) => (false, db)
    end
  else (false, db).

Definition insert_dataframe (df : DataFrame) (table_name schema : string)
    (if_exists : string) (db : DB) : bool * DB :=
  let '(ready, db) :=
    if engine_ready db then (true, db) else initialize db in
  if ready then
    match to_sql df table_name schema if_exists None db with
    | (Ok _, db) => (true, db)
    | (Raise _, db) => (false, db)
    end
  else (false, db).

(** *** TikTok Shop staging loader *)

(** [_validate_dataframe]: the checks run inside [try]; an exception
    yields [False]. *)
Definition _validate_dataframe (df : DataFrame) : bool :=
  let required_columns :=
    ["order_id"; "etl_batch_id"; "etl_created_at"; "etl_updated_at"] in
  let missing_columns :=
    filter (fun col => has_column df col = false) required_columns in
  match missing_columns with
  | _ :: _ => false
  | [] =>
      let null_order_ids := isnull_sum df "order_id" in
      if (0 <? null_order_ids)%nat then false
      else
        (* of the numeric columns only item_quantity is inspected *)
        if has_column df "item_quantity" then
          match any_negative (series df "item_quantity") with
          | Ok _ => true
          | Raise _ => false
          end
        else true
  end.

Definition string_columns : list (string * nat) :=
  [("order_id", 50); ("order_status", 50); ("currency", 10);
   ("item_id", 50); ("item_sku_id", 50); ("item_name", 500);
   ("item_sku_name", 500)]%nat.

(** [_prepare_dataframe_for_load]: string columns are cut to their
    maximal length, missing values become [None]. *)
Definition _prepare_dataframe_for_load (df : DataFrame) : DataFrame :=
  let df_prepared :=
    foldl (fun df '(col, max_length) =>
             if has_column df col
             then set_series df col
                    ((fun v => VStr (String.substring 0 max_length
                                       (astype_str v)))
                       <$> series df col)
             else df) df string_columns in
  mkDataFrame (columns df_prepared)
    ((fun r : row => (fun v => if isna v then VNone else v) <$> r)
       <$> rows df_prepared).

Definition load_orders (df : DataFrame) (load_mode : string)
    (validate_before_load : bool) (db : DB) : bool * DB :=
  if empty df then (true, db)
  else if validate_before_load && negb (_validate_dataframe df)
  then (false, db)
  else
    let df_prepared := _prepare_dataframe_for_load df in
    let insert (load_mode : string) (db : DB) :=
      insert_dataframe df_prepared (staging_table_orders settings)
        (staging_schema settings) load_mode db in
    if String.eqb load_mode "truncate_insert" then
      match truncate_table (staging_table_orders settings)
              (staging_schema settings) db with
      | (true, db) => insert "append" db
      | (false, db) => (false, db)
      end
    else if String.eqb load_mode "replace" then insert load_mode db
    else if String.eqb load_mode "append" then insert load_mode db
    else (false, db).

Definition load_incremental_orders (df : DataFrame) (db : DB) : bool * DB :=
  if empty df then (true, db)
  else load_orders df "append" true db.

(** *** MISA CRM loader *)

(** [table_full_name.split('.')] *)
Fixpoint split_dot (s : string) (current : string) : list string :=
  match s with
  | EmptyString => [current]
  | String c rest =>
      if Ascii.eqb c "."%char then current :: split_dot rest EmptyString
      else split_dot rest (current +:+ String c EmptyString)
  end.

Definition _get_table_info (table_full_name : string) : string * string :=
  match split_dot table_full_name EmptyString with
  | [schema; table] => (schema, table)
  | _ => ("staging"%string, table_full_name)
  end.

(** [df.iloc[i:i+batch_size]] for [i] in [range(0, len(df), batch_size)];
    [fuel] bounds the number of batches. *)
Fixpoint batches {A} (fuel : nat) (batch_size : nat) (l : list A)
  : list (list A) :=
  match fuel, l with
  | O, _ | _, [] => []
  | S fuel, _ => take batch_size l :: batches fuel batch_size (drop batch_size l)
  end.

Fixpoint insert_batches (schema table : string) (matching : list string)
    (bs : list (list row)) (db : DB) : res unit * DB :=
  match bs with
  | [] => (Ok tt, db)
  | batch_df :: rest =>
      let batch_data :=
        (fun r : row => (fun col => let value := cell r col in
                              if isna value then VNone else value)
                    <$> matching) <$> batch_df in
      match pyodbc_executemany schema table matching batch_data db with
      | (Ok _, db) => insert_batches schema table matching rest db
      | (Raise e, db) => (Raise e, db)
      end
  end.

Definition _load_with_pyodbc (df : DataFrame) (table_full_name : string)
    (db : DB) : bool * DB :=
  match pyodbc_connect db with
  | (Raise _, db) => (false, db)
  | (Ok _, db) =>
      let '(schema, table) := _get_table_info table_full_name in
      match pyodbc_table_columns schema table db with
      | (Raise _, db) => (false, db)
      | (Ok db_columns, db) =>
          let matching_columns :=
            filter (fun col => has_column df col = true) db_columns in
          match matching_columns with
          | [] => (false, db)
          | _ =>
              match insert_batches schema table matching_columns
                      (batches (len df) 1000 (rows df)) db with
              | (Ok _, db) => (true, db)
              | (Raise _, db) => (false, db)
              end
          end
      end
  end.

Definition load_dataframe_to_staging (df : DataFrame) (endpoint : string)
    (if_exists : string) (db : DB) : bool * DB :=
  if empty df then (true, db)
  else
    match table_mappings settings !! endpoint with
    | None => (false, db)
    | Some table_full_name =>
        let '(schema, table) := _get_table_info table_full_name in
        match to_sql df table schema if_exists
                (Some (misa_crm_etl_batch_size settings)) db with
        | (Ok _, db) => (true, db)
        | (Raise _, db) => _load_with_pyodbc df table_full_name db
        end
    end.

End WithDatabase.

End Loaders.

(** ** Production orchestrator
    (src/orchestrators/production_etl_orchestrator.py) *)

Module Orchestrator.

(** config/production.py *)
Definition MISA_MAX_PAGES_PER_CYCLE : Z := 2.

(** The dictionary recorded for one endpoint. *)
Record endpoint_result : Type := mkResult {
  status : string;
  records : nat;
  extracted : option nat;
  transformed : option nat;
  error : option exn
}.

Record endpoint : Type := mkEndpoint {
  name : string;
  table : string;
  priority : Z
}.

Record quality_results : Type := mkQuality {
  quality_total_records : Z;
  tables_with_data : nat;
  table_counts : gmap string Z;
  quality_check_passed : bool;
  quality_error : option exn
}.

(** An entry of the [errors] list of a cycle. *)
Inductive cycle_error : Type :=
| ComponentInitializationFailed
| CycleException (e : exn).

Record cycle_results : Type := mkCycle {
  cycle_number : nat;
  start_time : Z;
  execution_context : pyval;
  misa_crm : gmap string endpoint_result;
  tiktok_shop : gmap string endpoint_result;
  data_quality : option quality_results;
  total_records : nat;
  duration_seconds : Z;
  success : bool;
  errors : list cycle_error;
  end_time : option Z;
  metrics : option pyval
}.

(** The components the orchestrator drives, over the state [S] they share
    (extractor tokens, network, database, monitor). Calls into a component
    may raise; the component set-up reports by value. *)
Class Components (S : Type) : Type := {
  clock : S -> Z;
  misa_extractor_set : S -> bool;
  initialize_components : S -> bool * S;
  extract_all_data_from_endpoint : string -> Z -> Eff S (list pyval);
  transform_sale_orders_flattened : list pyval -> Eff S DataFrame;
  transform_by_name : string -> list pyval -> Eff S DataFrame;
  load_dataframe_to_staging : DataFrame -> string -> Eff S bool;
  extract_recent_orders : Z -> Eff S (list pyval);
  transform_orders_to_dataframe : list pyval -> Eff S DataFrame;
  load_incremental_orders : DataFrame -> Eff S bool;
  quality_connect : Eff S unit;
  quality_count : string -> Eff S Z;
  record_cycle_metrics : cycle_results -> Eff S pyval
}.

(** The orchestrator object: its counters and the components. *)
Record state (S : Type) : Type := mkState {
  cycle_count : nat;
  self_start_time : Z;
  components : S
}.
Arguments mkState {S} _ _ _.
Arguments cycle_count {S} _.
Arguments self_start_time {S} _.
Arguments components {S} _.




Definition no_data_result : endpoint_result :=
  mkResult "no_data" 0 (Some 0%nat) (Some 0%nat) None.

Definition error_result (e : exn) : endpoint_result :=
  mkResult "error" 0 None None (Some e).

Section WithComponents.
Context {S : Type} `{Components S}.

(** *** MISA CRM endpoints *)

(** The [try] body for one endpoint. *)
Definition endpoint_pipeline (endpoint : endpoint) : Eff S endpoint_result :=
  raw_data <~ extract_all_data_from_endpoint (name endpoint)
                MISA_MAX_PAGES_PER_CYCLE ;;
  match raw_data with
  | [] => ret no_data_result
  | _ =>
      transformed_data <~
        (if String.eqb (name endpoint) "sale_orders"
         then transform_sale_orders_flattened raw_data
         else transform_by_name ("transform_" +:+ name endpoint) raw_data) ;;
      let df := transformed_data in
      success <~ load_dataframe_to_staging df (table endpoint) ;;
      if success : bool then
        let records_count := len df in
        ret (mkResult "success" records_count (Some (length raw_data))
               (Some (len df)) None)
      else
        ret (mkResult "duplicate_skipped" 0 (Some (length raw_data))
               (Some (len df)) None)
  end.

(** One iteration of [for endpoint in endpoints], with its [except]. *)
Definition process_endpoint (endpoint : endpoint)
    (misa_results : gmap string endpoint_result) (s : S)
  : gmap string endpoint_result * S :=
  match endpoint_pipeline endpoint s with
  | (Ok result, s) => (<[name endpoint := result]> misa_results, s)
  | (Raise e, s) => (<[name endpoint := error_result e]> misa_results, s)
  end.

Fixpoint process_endpoints (endpoints : list endpoint)
    (misa_results : gmap string endpoint_result) (s : S)
  : gmap string endpoint_result * S :=
  match endpoints with
  | [] => (misa_results, s)
  | endpoint :: rest =>
      let '(misa_results, s) := process_endpoint endpoint misa_results s in
      process_endpoints rest misa_results s
  end.


(** *** TikTok Shop *)



(** *** Data quality *)




(** *** Totals and the cycle *)







End WithComponents.

End Orchestrator.

(** ** Dictionaries in insertion order *)

Module OrderedDict.

(** A dictionary whose order of insertion matters, as the list of its
    items: assigning to a key it holds keeps the key's place, a new key
    goes last. *)
Fixpoint od_insert {A} (key : string) (v : A) (d : list (string * A))
  : list (string * A) :=
  match d with
  | [] => [(key, v)]
  | (k, x) :: rest =>
      if String.eqb k key then (k, v) :: rest
      else (k, x) :: od_insert key v rest
  end.

End OrderedDict.

(** ** MISA CRM extractor: health check
    (src/extractors/misa_crm_extractor.py) *)

Module HealthCheck.
Import Extractor OrderedDict.

(** The status texts of the report, by what they say. *)
Inductive token_health : Type :=
| TokenUnknown
| TokenHealthy
| TokenUnhealthy.

Inductive endpoint_health : Type :=
| Healthy
| Unhealthy
| EndpointError (e : exn).

Inductive overall_health : Type :=
| OverallUnknown
| OverallHealthy
| OverallUnhealthy
| Degraded (unhealthy_endpoints : list string)
| OverallError (e : exn).

Definition is_healthy (h : endpoint_health) : bool :=
  match h with Healthy => true | _ => false end.

(** The report; [token_expires_at] is absent until the token was found
    healthy. *)
Record health_status : Type := mkHealth {
  timestamp : Z;
  token_status : token_health;
  health_token_expires_at : option (option Z);
  endpoints_status : list (string * endpoint_health);
  overall_status : overall_health
}.

(** The keys of [self.endpoints], in the order [__init__] gives them. *)
Definition endpoint_names : list string :=
  ["customers"; "sale_orders"; "contacts"; "stocks"; "products"].

Section WithSettings.
Context `{Libraries} (settings : Settings).

(** The probe of one endpoint, with its [try] and [except]. *)
Definition check_endpoint (endpoint_name : string) (s : state)
  : endpoint_health * state :=
  match
    (result <~ extract_endpoint_data settings endpoint_name 0 (Some 1) ∅ ;;
     if truthy result then
       has_data <~ lift (contains_data result) ;;
       ret (if has_data : bool then Healthy else Unhealthy)
     else ret Unhealthy) s
  with
  | (Ok status, s) => (status, s)
  | (Raise e, s) => (EndpointError e, s)
  end.

Fixpoint check_endpoints (names : list string)
    (status : list (string * endpoint_health)) (s : state)
  : list (string * endpoint_health) * state :=
  match names with
  | [] => (status, s)
  | endpoint_name :: rest =>
      let '(h, s) := check_endpoint endpoint_name s in
      check_endpoints rest (od_insert endpoint_name h status) s
  end.

Definition health_check (s : state) : health_status * state :=
  let t := now (env s) in
  match get_access_token settings false s with
  | (Raise e, s) => (mkHealth t TokenUnknown None [] (OverallError e), s)
  | (Ok token, s) =>
      if truthy token then
        let expires_at := token_expires_at (self s) in
        let '(status, s) := check_endpoints endpoint_names [] s in
        let unhealthy_endpoints :=
          (filter (fun kv => is_healthy kv.2 = false) status).*1 in
        (mkHealth t TokenHealthy (Some expires_at) status
           (match unhealthy_endpoints with
            | [] => OverallHealthy
            | _ => Degraded unhealthy_endpoints
            end),
         s)
      else (mkHealth t TokenUnhealthy None [] OverallUnhealthy, s)
  end.

End WithSettings.

End HealthCheck.

(** ** MISA CRM transformer: the other endpoints and the validation
    (src/transformers/misa_crm_transformer.py) *)

Module MisaEndpoints.
Import MisaTransformer.

(** [pd.DataFrame(data)] on a list taken from the API. It is library
    code; the interface fixes its result on a list of dictionaries. *)
Class FrameConstructor : Type := {
  DataFrame_of_list : list pyval -> res DataFrame;
  DataFrame_of_dicts :
    forall records : list row,
      DataFrame_of_list (VDict <$> records) =
        Ok (DataFrame_from_records records)
}.

(** The identifiers the validation counts: integers and strings. *)
Definition id_key (v : pyval) : option (Z + string) :=
  match v with
  | VInt n => Some (inl n)
  | VStr s => Some (inr s)
  | _ => None
  end.

(** [Series.nunique()]: the number of distinct values that are not null.
    It is library code; the interface fixes its result on a series whose
    values, nulls apart, are integers and strings. *)
Class SeriesOps : Type := {
  nunique : list pyval -> res nat;
  nunique_ids :
    forall (values : list pyval) (keys : list (Z + string)),
      mapM id_key (filter (fun v => isna v = false) values) = Some keys ->
      nunique values = Ok (length (remove_dups keys))
}.

(** [len(v)] *)
Definition py_len (v : pyval) : res nat :=
  match v with
  | VList l => Ok (length l)
  | VStr s => Ok (String.length s)
  | VDict d => Ok (size d)
  | _ => Raise TypeError
  end.

(** [df[col]]: a column the frame does not have is a [KeyError]. *)
Definition column (df : DataFrame) (col : string) : res (list pyval) :=
  if has_column df col then Ok (series df col) else Raise KeyError.

Definition customers_numeric_columns : list string :=
  ["annual_revenue"; "debt"; "debt_limit"; "number_of_days_owed";
   "number_orders"; "order_sales"; "average_order_value";
   "average_number_of_days_between_purchases";
   "number_days_without_purchase"; "billing_long"; "billing_lat";
   "shipping_long"; "shipping_lat"; "total_score"].

Definition customers_date_columns : list string :=
  ["purchase_date_recent"; "purchase_date_first"; "customer_since_date";
   "last_interaction_date"; "last_visit_date"; "last_call_date";
   "issued_on"; "celebrate_date"; "created_date"; "modified_date";
   "last_modified_date"].

Definition customers_boolean_columns : list string :=
  ["is_personal"; "inactive"; "is_public"; "is_distributor";
   "is_portal_access"].

Definition contacts_numeric_columns : list string :=
  ["mailing_long"; "mailing_lat"; "shipping_long"; "shipping_lat";
   "total_score"; "number_days_not_interacted"].

Definition contacts_date_columns : list string :=
  ["date_of_birth"; "customer_since_date"; "last_interaction_date";
   "last_visit_date"; "last_call_date"; "created_date"; "modified_date"].

Definition contacts_boolean_columns : list string :=
  ["email_opt_out"; "phone_opt_out"; "inactive"; "is_public"].

Definition stocks_date_columns : list string :=
  ["created_date"; "modified_date"].

Definition stocks_boolean_columns : list string := ["inactive"].

Definition products_numeric_columns : list string :=
  ["unit_price"; "purchased_price"; "unit_cost"; "unit_price1";
   "unit_price2"; "unit_price_fixed"].

Definition products_date_columns : list string :=
  ["created_date"; "modified_date"].

Definition products_boolean_columns : list string :=
  ["price_after_tax"; "is_use_tax"; "is_follow_serial_number";
   "is_set_product"; "inactive"; "is_public"].

(** What [validate_flattened_data] returns. *)
Record flattened_validation : Type := mkFlattenedValidation {
  total_original_orders : nat;
  total_flattened_rows : nat;
  unique_orders_in_flattened : nat;
  orders_with_multiple_items : nat;
  orders_without_items : nat;
  total_items_original : nat;
  total_items_flattened : nat;
  validation_passed : bool
}.

Section Transform.
Context `{Conversions} `{FrameConstructor} `{SeriesOps}.

(** The three conversion loops and the metadata, common to the four
    transformations; [batch_id] is [self.batch_id], [now] the clock reading
    of the call. *)
Definition convert_and_stamp (numeric_columns date_columns
    boolean_columns : list string) (batch_id : pyval) (now : Z)
    (df : DataFrame) : DataFrame :=
  let df := convert_columns to_numeric_coerce numeric_columns df in
  let df := convert_columns to_datetime_coerce date_columns df in
  let df := convert_columns astype_bool_ignore boolean_columns df in
  _add_etl_metadata batch_id now df.

Definition transform_customers (batch_id : pyval) (now : Z)
    (customers_data : list pyval) : res DataFrame :=
  match customers_data with
  | [] => Ok DataFrame_new
  | _ =>
      df <- DataFrame_of_list customers_data ;;
      Ok (convert_and_stamp customers_numeric_columns customers_date_columns
            customers_boolean_columns batch_id now df)
  end.

Definition transform_contacts (batch_id : pyval) (now : Z)
    (contacts_data : list pyval) : res DataFrame :=
  match contacts_data with
  | [] => Ok DataFrame_new
  | _ =>
      df <- DataFrame_of_list contacts_data ;;
      Ok (convert_and_stamp contacts_numeric_columns contacts_date_columns
            contacts_boolean_columns batch_id now df)
  end.

Definition transform_stocks (batch_id : pyval) (now : Z)
    (stocks_data : list pyval) : res DataFrame :=
  match stocks_data with
  | [] => Ok DataFrame_new
  | _ =>
      df <- DataFrame_of_list stocks_data ;;
      Ok (convert_and_stamp [] stocks_date_columns stocks_boolean_columns
            batch_id now df)
  end.

Definition transform_products (batch_id : pyval) (now : Z)
    (products_data : list pyval) : res DataFrame :=
  match products_data with
  | [] => Ok DataFrame_new
  | _ =>
      df <- DataFrame_of_list products_data ;;
      Ok (convert_and_stamp products_numeric_columns products_date_columns
            products_boolean_columns batch_id now df)
  end.

(** One step of [transform_all_endpoints]:
    [if key in raw_data and raw_data[key]: transformed_data[out] = f(...)] *)
Definition transform_if_present (key out : string)
    (transform : list pyval -> res DataFrame)
    (raw_data : gmap string (list pyval))
    (transformed_data : gmap string DataFrame) : res (gmap string DataFrame) :=
  match raw_data !! key with
  | Some (record :: records) =>
      df <- transform (record :: records) ;;
      Ok (<[out := df]> transformed_data)
  | _ => Ok transformed_data
  end.

(** [transform_all_endpoints]; [now] gives the clock reading of the
    transformation of each endpoint. *)
Definition transform_all_endpoints (now : string -> Z)
    (raw_data : gmap string (list pyval)) (batch_id : pyval)
  : res (gmap string DataFrame) :=
  let transformed_data := ∅ in
  transformed_data <-
    transform_if_present "customers" "customers"
      (transform_customers batch_id (now "customers"))
      raw_data transformed_data ;;
  transformed_data <-
    transform_if_present "sale_orders" "sale_orders_flattened"
      (transform_sale_orders_flattened batch_id (now "sale_orders"))
      raw_data transformed_data ;;
  transformed_data <-
    transform_if_present "contacts" "contacts"
      (transform_contacts batch_id (now "contacts"))
      raw_data transformed_data ;;
  transformed_data <-
    transform_if_present "stocks" "stocks"
      (transform_stocks batch_id (now "stocks"))
      raw_data transformed_data ;;
  transform_if_present "products" "products"
    (transform_products batch_id (now "products"))
    raw_data transformed_data.

(** The loop of [validate_flattened_data] over the original orders: the
    counters [total_items_original], [orders_with_multiple_items] and
    [orders_without_items]. *)
Fixpoint count_items (original_orders : list pyval) (total multiple
    without : nat) : res (nat * nat * nat) :=
  match original_orders with
  | [] => Ok (total, multiple, without)
  | order :: rest =>
      items <- py_get_default order "sale_order_product_mappings" (VList []) ;;
      n <- py_len items ;;
      count_items rest (total + n)%nat
        (if (1 <? n)%nat then S multiple else multiple)
        (if (1 <? n)%nat then without
         else if (n =? 0)%nat then S without else without)
  end.

Definition validate_flattened_data (flattened_df : DataFrame)
    (original_orders : list pyval) : res flattened_validation :=
  let total_orders := length original_orders in
  if empty flattened_df then
    Ok (mkFlattenedValidation total_orders (len flattened_df) 0 0 0 0 0 false)
  else
    order_ids <- column flattened_df "order_id" ;;
    unique_orders <- nunique order_ids ;;
    counts <- count_items original_orders 0 0 0 ;;
    let '(total_items, multiple, without) := counts in
    item_ids <- column flattened_df "item_id" ;;
    let items_flattened :=
      length (filter (fun v => isna v = false) item_ids) in
    Ok (mkFlattenedValidation total_orders (len flattened_df) unique_orders
          multiple without total_items items_flattened
          ((unique_orders =? total_orders)%nat &&
           (items_flattened =? total_items)%nat)).

End Transform.

End MisaEndpoints.

(** ** MISA CRM loader: all endpoints (src/loaders/misa_crm_loader.py) *)

Module MisaLoader.
Import Loaders OrderedDict.

(** The two queries of [validate_loaded_data] and the clock it reads. *)
Class Queries (DB : Type) : Type := {
  select_count : string -> DB -> res Z * DB;
  select_max_etl_created_at : string -> DB -> res (option Z) * DB;
  datetime_now : DB -> Z
}.




Section WithDatabase.
Context {DB : Type} `{Database DB} `{FrameOps} `{Queries DB}
  (settings : Settings).

(** [MISACRMLoader.truncate_table] *)
Definition truncate_table (endpoint : string) (db : DB) : bool * DB :=
  match table_mappings settings !! endpoint with
  | None => (false, db)
  | Some table_full_name =>
      match execute ("TRUNCATE TABLE " +:+ table_full_name) db with
      | (Ok _, db) => (true, db)
      | (Raise _, db) => (false, db)
      end
  end.

(** One iteration of [for endpoint, df in transformed_data.items()]. The
    calls inside its [try] report failure by value, so the [except] clause
    has nothing to catch. *)
Definition load_endpoint (truncate_first : bool) (endpoint : string)
    (df : DataFrame) (loaded_counts : list (string * nat)) (db : DB)
  : list (string * nat) * DB :=
  if empty df then (od_insert endpoint 0%nat loaded_counts, db)
  else
    let db := if truncate_first then (truncate_table endpoint db).2 else db in
    let '(success, db) :=
      load_dataframe_to_staging settings df endpoint "append" db in
    (od_insert endpoint (if success then len df else 0%nat) loaded_counts, db).

Fixpoint load_endpoints (truncate_first : bool)
    (items : list (string * DataFrame)) (loaded_counts : list (string * nat))
    (db : DB) : list (string * nat) * DB :=
  match items with
  | [] => (loaded_counts, db)
  | (endpoint, df) :: rest =>
      let '(loaded_counts, db) :=
        load_endpoint truncate_first endpoint df loaded_counts db in
      load_endpoints truncate_first rest loaded_counts db
  end.

(** [load_all_data_to_staging]; [transformed_data] is given by its items,
    in order. *)
Definition load_all_data_to_staging
    (transformed_data : list (string * DataFrame)) (truncate_first : bool)
    (db : DB) : list (string * nat) * DB :=
  load_endpoints truncate_first transformed_data [] db.




End WithDatabase.

End MisaLoader.

(** * Properties *)

(** ** Frames *)

Module PandasFacts.

(** Rows after column assignments: which cells can differ. *)
Definition same_except (cols : list string) (r r' : row) : Prop :=
  forall c, c ∉ cols -> r' !! c = r !! c.

Lemma same_except_refl (cols : list string) (rs : list row) :
  Forall2 (same_except cols) rs rs.
Proof. induction rs; constructor; [by intros c _|done]. Qed.

Lemma same_except_trans (c1 c2 : list string) (rs1 rs2 rs3 : list row) :
  Forall2 (same_except c1) rs1 rs2 ->
  Forall2 (same_except c2) rs2 rs3 ->
  Forall2 (same_except (c1 ++ c2)) rs1 rs3.
Proof.
  intros H12. revert rs3. induction H12 as [|r1 r2 rs1 rs2 Hr _ IH];
    intros rs3 H23; inversion H23; subst; constructor; [|by apply IH].
  intros c Hc. rewrite not_elem_of_app in Hc. destruct Hc as [Hc1 Hc2].
  rewrite <- (Hr c Hc1). auto.
Qed.

Lemma same_except_weaken (c1 c2 : list string) (rs1 rs2 : list row) :
  c1 ⊆ c2 ->
  Forall2 (same_except c1) rs1 rs2 -> Forall2 (same_except c2) rs1 rs2.
Proof.
  intros Hsub H12. eapply Forall2_impl; [exact H12|].
  intros r r' Hr c Hc. apply Hr. intros Hin. apply Hc. by apply Hsub.
Qed.

Lemma set_series_rows (df : DataFrame) (col : string) (values : list pyval) :
  length values = length (rows df) ->
  Forall2 (same_except [col]) (rows df) (rows (set_series df col values)).
Proof.
  unfold set_series. cbn [rows]. generalize (rows df) as rs.
  intros rs. revert values. induction rs as [|r rs IH];
    intros [|v values] Hlen; try discriminate; [constructor|].
  cbn [zip_with]. constructor; [|apply IH; simpl in Hlen; lia].
  intros c Hc. rewrite lookup_insert_ne; [done|].
  intros ->. apply Hc. by apply list_elem_of_singleton.
Qed.

Lemma set_scalar_rows (df : DataFrame) (col : string) (v : pyval) :
  Forall2 (fun r r' => r' !! col = Some v /\ same_except [col] r r')
    (rows df) (rows (set_scalar df col v)).
Proof.
  unfold set_scalar. cbn [rows]. induction (rows df) as [|r rs IH];
    [constructor|].
  rewrite fmap_cons. constructor; [|done]. split.
  - by rewrite lookup_insert_eq.
  - intros c Hc. rewrite lookup_insert_ne; [done|].
    intros ->. apply Hc. by apply list_elem_of_singleton.
Qed.

Lemma convert_columns_rows (conv : list pyval -> list pyval)
    (cols : list string) (df : DataFrame) :
  (forall s, length (conv s) = length s) ->
  Forall2 (same_except cols) (rows df) (rows (convert_columns conv cols df)).
Proof.
  intros Hconv. unfold convert_columns. revert df.
  induction cols as [|col cols IH]; intros df; [apply same_except_refl|].
  cbn [foldl]. change (col :: cols) with ([col] ++ cols).
  eapply same_except_trans; [|apply IH].
  destruct (has_column df col); [|apply same_except_refl].
  apply set_series_rows. rewrite Hconv. unfold series.
  by rewrite length_fmap.
Qed.

Lemma from_records_not_empty (rs : list row) (col : string) :
  rs <> [] -> Forall (fun r => is_Some (r !! col)) rs ->
  empty (DataFrame_from_records rs) = false.
Proof.
  intros Hne Hcol. unfold empty, DataFrame_from_records. cbn [rows columns].
  rewrite bool_decide_eq_false_2 by done.
  rewrite bool_decide_eq_false_2; [done|].
  destruct rs as [|r rs]; [done|]. inversion Hcol as [|? ? Hr _]; subst.
  intros Hempty.
  assert (col ∈ ⋃ (dom <$> r :: rs)) as Hin.
  { apply elem_of_union_list. exists (dom r). split.
    - rewrite fmap_cons. apply list_elem_of_here.
    - by apply elem_of_dom. }
  rewrite Hempty in Hin. by apply not_elem_of_empty in Hin.
Qed.

End PandasFacts.
Export PandasFacts.

(** ** The MISA CRM flattening loop *)

Module MisaTransformerProofs.
Import MisaTransformer.

Lemma append_inj_r (p a b : string) : p +:+ a = p +:+ b -> a = b.
Proof.
  induction p as [|c p IH]; simpl; [done|].
  intros Heq. injection Heq as Heq. by apply IH.
Qed.

Lemma add_prefixed_lookup (p : string) (src : gmap string pyval) (r : row)
    (k : string) :
  add_prefixed p src r !! (p +:+ k) =
    match src !! k with Some v => Some v | None => r !! (p +:+ k) end.
Proof.
  unfold add_prefixed.
  apply (map_fold_weak_ind
    (fun acc m => acc !! (p +:+ k) =
       match m !! k with Some v => Some v | None => r !! (p +:+ k) end)).
  - by rewrite lookup_empty.
  - intros i x m acc Hi IH.
    destruct (decide (i = k)) as [->|Hne].
    + by rewrite !lookup_insert_eq.
    + rewrite lookup_insert_ne; [|intros Heq; by apply append_inj_r in Heq].
      by rewrite lookup_insert_ne.
Qed.

Lemma add_prefixed_lookup_inv (p : string) (src : gmap string pyval)
    (r : row) (key : string) (v : pyval) :
  add_prefixed p src r !! key = Some v ->
  (exists k, key = p +:+ k /\ src !! k = Some v) \/ r !! key = Some v.
Proof.
  unfold add_prefixed.
  apply (map_fold_weak_ind
    (fun acc m => acc !! key = Some v ->
       (exists k, key = p +:+ k /\ m !! k = Some v) \/ r !! key = Some v)).
  - by right.
  - intros i x m acc Hi IH Hl.
    destruct (decide (p +:+ i = key)) as [<-|Hne].
    + rewrite lookup_insert_eq in Hl. injection Hl as ->.
      left. exists i. by rewrite lookup_insert_eq.
    + rewrite lookup_insert_ne in Hl by done.
      destruct (IH Hl) as [(k & -> & Hk)|Hr]; [|by right].
      left. exists k. split; [done|].
      rewrite lookup_insert_ne; [done|]. by intros ->.
Qed.

Lemma order_main_lookup (o : gmap string pyval) (key : string) (v : pyval) :
  key <> "sale_order_product_mappings" ->
  o !! key = Some v -> order_main o !! key = Some v.
Proof.
  intros Hne Hl. unfold order_main. by apply map_lookup_filter_Some.
Qed.

(** What the rows of one record must look like. *)
Definition parent_fields_on (o : gmap string pyval) (r : row) : Prop :=
  forall key v, key <> "sale_order_product_mappings" ->
    o !! key = Some v -> r !! ("order_" +:+ key) = Some v.

Definition child_fields_null (r : row) : Prop :=
  forall field v, r !! ("item_" +:+ field) = Some v -> v = VNone.

Definition child_fields_on (item : pyval) (r : row) : Prop :=
  exists i, item = VDict i /\
    forall key v, i !! key = Some v -> r !! ("item_" +:+ key) = Some v.

Definition childless_row (r : row) : Prop :=
  child_fields_null r /\
  r !! "has_multiple_items" = Some (VBool false) /\
  r !! "total_items_in_order" = Some (VInt 0).

Definition child_row (k : nat) (item : pyval) (r : row) : Prop :=
  child_fields_on item r /\
  r !! "has_multiple_items" = Some (VBool (1 <? Z.of_nat k)) /\
  r !! "total_items_in_order" = Some (VInt (Z.of_nat k)).

Definition rows_of_record (order : pyval) (g : list row) : Prop :=
  exists o, order = VDict o /\
    length g = Nat.max 1 (length (children order)) /\
    Forall (parent_fields_on o) g /\
    match children order with
    | [] => Forall childless_row g
    | items => Forall2 (child_row (length items)) items g
    end.

Lemma null_fields_lookup_inv (fields : list string) (r : row)
    (key : string) (v : pyval) :
  foldl (fun r field => <["item_" +:+ field := VNone]> r) r fields !! key
    = Some v ->
  v = VNone \/ r !! key = Some v.
Proof.
  revert r. induction fields as [|f fields IH]; intros r Hl; [by right|].
  simpl in Hl. destruct (IH _ Hl) as [->|Hr]; [by left|].
  destruct (decide ("item_" +:+ f = key)) as [<-|Hne].
  - rewrite lookup_insert_eq in Hr. left. congruence.
  - rewrite lookup_insert_ne in Hr by done. by right.
Qed.

Lemma null_fields_lookup_other (fields : list string) (r : row)
    (key : string) :
  (forall f, key <> "item_" +:+ f) ->
  foldl (fun r field => <["item_" +:+ field := VNone]> r) r fields !! key
    = r !! key.
Proof.
  intros Hkey. revert r. induction fields as [|f fields IH]; intros r; [done|].
  simpl. rewrite IH. rewrite lookup_insert_ne; [done|].
  intros Heq. by apply (Hkey f).
Qed.

Lemma no_item_row_parent (o : gmap string pyval) :
  parent_fields_on o (no_item_row (order_main o)).
Proof.
  intros key v Hne Hl. unfold no_item_row.
  rewrite lookup_insert_ne by (simpl; discriminate).
  rewrite lookup_insert_ne by (simpl; discriminate).
  rewrite null_fields_lookup_other by (intros f; simpl; discriminate).
  rewrite add_prefixed_lookup. by rewrite (order_main_lookup _ _ _ Hne Hl).
Qed.

Lemma no_item_row_childless (main : gmap string pyval) :
  childless_row (no_item_row main).
Proof.
  unfold childless_row, no_item_row. split; [|split].
  - intros field v.
    rewrite lookup_insert_ne by (simpl; discriminate).
    rewrite lookup_insert_ne by (simpl; discriminate).
    intros Hl. apply null_fields_lookup_inv in Hl as [->|Hl]; [done|].
    apply add_prefixed_lookup_inv in Hl as [(k & Hk & _)|Hl].
    + simpl in Hk. discriminate.
    + by rewrite lookup_empty in Hl.
  - rewrite lookup_insert_ne by (simpl; discriminate).
    by rewrite lookup_insert_eq.
  - by rewrite lookup_insert_eq.
Qed.

Lemma item_row_spec (o : gmap string pyval) (k : nat) (i : gmap string pyval) :
  exists r, item_row (order_main o) k (VDict i) = Ok r /\
    parent_fields_on o r /\ child_row k (VDict i) r.
Proof.
  eexists. split; [reflexivity|]. split.
  - intros key v Hne Hl.
    rewrite lookup_insert_ne by (simpl; discriminate).
    rewrite lookup_insert_ne by (simpl; discriminate).
    destruct (add_prefixed "item_" i (add_prefixed "order_" (order_main o) ∅)
                !! ("order_" +:+ key)) as [w|] eqn:Hw.
    + apply add_prefixed_lookup_inv in Hw as [(k' & Hk' & _)|Hw].
      * simpl in Hk'. discriminate.
      * rewrite add_prefixed_lookup in Hw.
        rewrite (order_main_lookup _ _ _ Hne Hl) in Hw. done.
    + exfalso. revert Hw. unfold add_prefixed at 1.
      apply (map_fold_weak_ind (fun acc _ => acc !! ("order_" +:+ key) <> None)).
      * rewrite add_prefixed_lookup.
        by rewrite (order_main_lookup _ _ _ Hne Hl).
      * intros j x m acc _ IH.
        rewrite lookup_insert_ne by (simpl; discriminate). done.
  - split; [|split].
    + exists i. split; [done|]. intros key v Hl.
      rewrite lookup_insert_ne by (simpl; discriminate).
      rewrite lookup_insert_ne by (simpl; discriminate).
      rewrite add_prefixed_lookup. by rewrite Hl.
    + rewrite lookup_insert_ne by (simpl; discriminate).
      by rewrite lookup_insert_eq.
    + by rewrite lookup_insert_eq.
Qed.

Lemma for_each_item_rows (o : gmap string pyval) (k : nat)
    (items : list pyval) :
  forallb is_dict items = true ->
  exists g, for_each (item_row (order_main o) k) items = Ok g /\
    Forall (parent_fields_on o) g /\ Forall2 (child_row k) items g.
Proof.
  induction items as [|item items IH]; intros Hd.
  - exists []. by repeat split; constructor.
  - simpl in Hd. apply andb_prop in Hd as [Hi Hd].
    destruct item as [| | | | | | | |i]; try discriminate.
    destruct (item_row_spec o k i) as (r & Hr & Hp & Hc).
    destruct (IH Hd) as (g & Hg & Hps & Hcs).
    exists (r :: g). cbn [for_each]. rewrite Hr. cbn [bind]. rewrite Hg.
    cbn [bind]. repeat split; by constructor.
Qed.

Lemma flatten_order_spec (order : pyval) :
  well_formed_order order = true ->
  exists g, flatten_order order = Ok g /\ rows_of_record order g.
Proof.
  destruct order as [| | | | | | | |o]; try discriminate.
  cbn [well_formed_order flatten_order children].
  unfold dict_get_default, rows_of_record. cbn [children].
  destruct (o !! "sale_order_product_mappings") as [pm|] eqn:Hpm; cbn [default].
  - destruct pm as [| | | | | | |items|]; try discriminate.
    + intros _. exists [no_item_row (order_main o)]. split; [done|].
      exists o. repeat split; auto.
      * constructor; [apply no_item_row_parent|constructor].
      * constructor; [apply no_item_row_childless|constructor].
    + intros Hd. destruct items as [|item items].
      * exists [no_item_row (order_main o)]. split; [done|].
        exists o. repeat split; auto.
        -- constructor; [apply no_item_row_parent|constructor].
        -- constructor; [apply no_item_row_childless|constructor].
      * destruct (for_each_item_rows o (length (item :: items)) _ Hd)
          as (g & Hg & Hps & Hcs).
        exists g. cbn [truthy]. split; [done|].
        exists o. repeat split; auto.
        apply Forall2_length in Hcs. rewrite <- Hcs. cbn [length]. lia.
  - intros _. exists [no_item_row (order_main o)]. split; [done|].
    exists o. repeat split; auto.
    + constructor; [apply no_item_row_parent|constructor].
    + constructor; [apply no_item_row_childless|constructor].
Qed.

Lemma flatten_orders_spec (orders : list pyval) (acc : list row) :
  Forall (fun o => well_formed_order o = true) orders ->
  exists groups, flatten_orders orders acc = Ok (acc ++ concat groups) /\
    Forall2 rows_of_record orders groups.
Proof.
  intros Hwf. revert acc. induction Hwf as [|order orders Ho _ IH]; intros acc.
  - exists []. simpl. rewrite app_nil_r. split; [done|constructor].
  - destruct (flatten_order_spec order Ho) as (g & Hg & Hspec).
    destruct (IH (acc ++ g)) as (groups & Hgs & Hspecs).
    exists (g :: groups). cbn [flatten_orders]. rewrite Hg. cbn [bind].
    rewrite Hgs. simpl. rewrite <- app_assoc. split; [done|by constructor].
Qed.


Definition converted_columns : list string :=
  order_numeric_columns ++ item_numeric_columns ++ order_date_columns ++
  item_date_columns ++ boolean_columns.

Definition etl_columns : list string :=
  ["etl_batch_id"; "etl_created_at"; "etl_updated_at"; "etl_source"].

Lemma add_etl_metadata_rows (batch_id : pyval) (now : Z) (df : DataFrame) :
  Forall2 (fun r r' => r' !! "etl_batch_id" = Some batch_id /\
                       same_except etl_columns r r')
    (rows df) (rows (_add_etl_metadata batch_id now df)).
Proof.
  unfold _add_etl_metadata, set_scalar. cbn [rows].
  induction (rows df) as [|r rs IH]; [constructor|].
  rewrite !fmap_cons. constructor; [|done]. split.
  - rewrite !lookup_insert_ne by done. by rewrite lookup_insert_eq.
  - intros c Hc. unfold etl_columns in Hc.
    rewrite !not_elem_of_cons in Hc. destruct Hc as (?&?&?&?&_).
    by rewrite !lookup_insert_ne by done.
Qed.

Lemma rows_of_record_nonempty (order : pyval) (g : list row) :
  rows_of_record order g ->
  g <> [] /\ Forall (fun r => is_Some (r !! "has_multiple_items")) g.
Proof.
  intros (o & _ & Hlen & _ & Hrows). split.
  - intros ->. simpl in Hlen. lia.
  - destruct (children order) as [|item items].
    + eapply Forall_impl; [exact Hrows|]. by intros r (_ & -> & _).
    + clear Hlen. induction Hrows as [|? ? ? ? (_ & Hr & _) _ IH];
        constructor; [by rewrite Hr|done].
Qed.



Definition stamped (batch_id : pyval) (emitted final : row) : Prop :=
  final !! "etl_batch_id" = Some batch_id /\
  same_except (converted_columns ++ etl_columns) emitted final.

Lemma flatten_nonempty (orders : list pyval) (groups : list (list row)) :
  orders <> [] -> Forall2 rows_of_record orders groups ->
  concat groups <> [] /\
  Forall (fun r => is_Some (r !! "has_multiple_items")) (concat groups).
Proof.
  intros Hne Hspec. split.
  - destruct Hspec as [|o g ? ? Hg _]; [done|].
    apply rows_of_record_nonempty in Hg as [Hg _].
    simpl. destruct g; [done|]. done.
  - clear Hne. induction Hspec as [|o g ? ? Hg _ IH]; [constructor|].
    simpl. apply Forall_app. split; [|done].
    by apply rows_of_record_nonempty in Hg as [_ Hg].
Qed.

Lemma transform_sale_orders_flattened_spec `{Conversions}
    (batch_id : pyval) (now : Z) (orders : list pyval) :
  Forall (fun o => well_formed_order o = true) orders ->
  exists groups df,
    flatten_orders orders [] = Ok (concat groups) /\
    Forall2 rows_of_record orders groups /\
    transform_sale_orders_flattened batch_id now orders = Ok df /\
    Forall2 (stamped batch_id) (concat groups) (rows df).
Proof.
  intros Hwf.
  destruct (flatten_orders_spec orders [] Hwf) as (groups & Hflat & Hspec).
  rewrite app_nil_l in Hflat. exists groups.
  destruct orders as [|order orders].
  { inversion Hspec; subst. exists DataFrame_new. repeat split; try done. }
  set (os := order :: orders) in *.
  assert (os <> []) as Hne by done.
  destruct (flatten_nonempty os groups Hne Hspec) as [Hrows Hcol].
  eexists. split; [done|]. split; [done|]. split.
  - unfold transform_sale_orders_flattened. subst os. cbv beta iota.
    rewrite Hflat. cbn [bind].
    rewrite (from_records_not_empty _ "has_multiple_items" Hrows Hcol).
    reflexivity.
  - set (df0 := DataFrame_from_records (concat groups)).
    change (concat groups) with (rows df0).
    match goal with |- Forall2 _ _ (rows (_add_etl_metadata _ _ ?d)) =>
      set (df5 := d) end.
    assert (Forall2 (same_except converted_columns) (rows df0) (rows df5))
      as Hconv.
    { unfold converted_columns, df5.
      eapply same_except_trans;
        [apply (convert_columns_rows to_numeric_coerce),
           to_numeric_coerce_length|].
      eapply same_except_trans;
        [apply (convert_columns_rows to_numeric_coerce),
           to_numeric_coerce_length|].
      eapply same_except_trans;
        [apply (convert_columns_rows to_datetime_coerce),
           to_datetime_coerce_length|].
      eapply same_except_trans;
        [apply (convert_columns_rows to_datetime_coerce),
           to_datetime_coerce_length|].
      apply convert_columns_rows, astype_bool_ignore_length. }
    pose proof (add_etl_metadata_rows batch_id now df5) as Hetl.
    revert Hconv Hetl.
    generalize (rows (_add_etl_metadata batch_id now df5)) as rs3.
    generalize (rows df5) as rs2. generalize (rows df0) as rs1.
    intros rs1 rs2 rs3 H12. revert rs3.
    induction H12 as [|r1 r2 rs1 rs2 Hr _ IH]; intros rs3 H23;
      inversion H23 as [|? r3 ? rs3' [Hb Hr3] H23']; subst; constructor;
      [|by apply IH].
    split; [done|]. intros c Hc. rewrite not_elem_of_app in Hc.
    destruct Hc as [Hc1 Hc2]. rewrite (Hr3 c Hc2). by apply Hr.
Qed.

End MisaTransformerProofs.

(** ** The TikTok Shop flattening loop *)

Module TikTokTransformerProofs.
Import TikTokTransformer.


Definition etl_columns : list string :=
  ["etl_batch_id"; "etl_created_at"; "etl_updated_at"].

Definition stamped (batch_id : pyval) (emitted final : row) : Prop :=
  final !! "etl_batch_id" = Some batch_id /\
  same_except etl_columns emitted final.

Section WithBuiltins.
Context `{Builtins}.





(** When the loop body raises on some order, the whole call yields an
    empty frame. *)
Lemma transform_orders_raise (batch_id : pyval) (now : Z)
    (orders : list pyval) (e : exn) :
  flatten_orders orders [] = Raise e ->
  transform_orders_to_dataframe batch_id now orders = DataFrame_new.
Proof.
  intros Hraise. unfold transform_orders_to_dataframe, transform_orders_body.
  destruct orders; [done|]. by rewrite Hraise.
Qed.

End WithBuiltins.


End TikTokTransformerProofs.

(** ** Rows per record *)

Module Flattening.
Import MisaTransformerProofs TikTokTransformerProofs.

(** A stand-in for the library conversions and built-ins, for running the
    transformers on sample data: conversions leave the series as it is and
    only numbers convert to numbers. *)
#[local] Instance sample_conversions : Conversions :=
  {| to_numeric_coerce := id; to_datetime_coerce := id;
     astype_bool_ignore := id;
     to_numeric_coerce_length := fun _ => eq_refl;
     to_datetime_coerce_length := fun _ => eq_refl;
     astype_bool_ignore_length := fun _ => eq_refl |}.

Definition sample_number (v : pyval) : res pyval :=
  match v with
  | VInt _ | VFloat _ _ => Ok v
  | VStr _ => Raise ValueError
  | _ => Raise TypeError
  end.

#[local] Instance sample_builtins : TikTokTransformer.Builtins :=
  {| TikTokTransformer.py_float := sample_number;
     TikTokTransformer.py_int := sample_number;
     TikTokTransformer.json_dumps := fun _ => Ok "[]"%string |}.





End Flattening.

(** ** Running a computation *)

Module EffectsFacts.

(** Running the sequencing and the handler. *)
Lemma mbind_ok {S A B} (m : Eff S A) (k : A -> Eff S B) (s s' : S) (a : A) :
  m s = (Ok a, s') -> mbind m k s = k a s'.
Proof. intros Hm. unfold mbind. by rewrite Hm. Qed.

Lemma mbind_raise {S A B} (m : Eff S A) (k : A -> Eff S B) (s s' : S)
    (e : exn) :
  m s = (Raise e, s') -> mbind m k s = (Raise e, s').
Proof. intros Hm. unfold mbind. by rewrite Hm. Qed.

Lemma try_except_ok {S A} (m : Eff S A) (h : exn -> Eff S A) (s s' : S)
    (a : A) :
  m s = (Ok a, s') -> try_except m h s = (Ok a, s').
Proof. intros Hm. unfold try_except. by rewrite Hm. Qed.

Lemma try_except_raise {S A} (m : Eff S A) (h : exn -> Eff S A) (s s' : S)
    (e : exn) :
  m s = (Raise e, s') -> try_except m h s = h e s'.
Proof. intros Hm. unfold try_except. by rewrite Hm. Qed.

End EffectsFacts.
Export EffectsFacts.

(** ** A sample deployment of the extractor *)

Module Samples.
Import Extractor.

Definition sample_settings : Settings :=
  {| api_timeout := 30; api_retry_attempts := 3; api_retry_delay := 5;
     misa_crm_page_size := 50; misa_crm_max_page_size := 100;
     misa_crm_token_refresh_buffer := 300;
     misa_crm_incremental_lookback_hours := 24;
     etl_rate_limit_delay := 1 |}.

Definition digit_of (c : ascii) : option Z :=
  let n := Z.of_nat (nat_of_ascii c) in
  if (48 <=? n) && (n <=? 57) then Some (n - 48) else None.

Fixpoint digits_value (cs : list ascii) (acc : Z) : option Z :=
  match cs with
  | [] => Some acc
  | c :: rest =>
      match digit_of c with
      | Some d => digits_value rest (10 * acc + d)
      | None => None
      end
  end.

(** Days from 1970-01-01 to a civil date. *)
Definition days_from_civil (y m d : Z) : Z :=
  let y := if m <=? 2 then y - 1 else y in
  let era := y / 400 in
  let yoe := y - era * 400 in
  let mp := (m + 9) mod 12 in
  let doy := (153 * mp + 2) / 5 + d - 1 in
  let doe := yoe * 365 + yoe / 4 - yoe / 100 + doy in
  era * 146097 + doe - 719468.

(** A reader for timestamps written YYYY-MM-DDTHH:MM:SS with an optional
    offset of the form +HH:MM or -HH:MM; other texts are rejected. *)
Definition sample_fromisoformat (s : string) : res datetime :=
  match String.list_ascii_of_string s with
  | y1 :: y2 :: y3 :: y4 :: "-"%char :: m1 :: m2 :: "-"%char :: d1 :: d2 ::
    "T"%char :: h1 :: h2 :: ":"%char :: n1 :: n2 :: ":"%char :: s1 :: s2 ::
    rest =>
      match digits_value [y1; y2; y3; y4] 0, digits_value [m1; m2] 0,
            digits_value [d1; d2] 0, digits_value [h1; h2] 0,
            digits_value [n1; n2] 0, digits_value [s1; s2] 0 with
      | Some y, Some m, Some d, Some h, Some n, Some sec =>
          let t := days_from_civil y m d * 86400 + h * 3600 + n * 60 + sec in
          match rest with
          | [] => Ok (mkDatetime t None)
          | sign :: o1 :: o2 :: ":"%char :: o3 :: o4 :: [] =>
              match digits_value [o1; o2] 0, digits_value [o3; o4] 0 with
              | Some oh, Some om =>
                  if Ascii.eqb sign "+"%char
                  then Ok (mkDatetime t (Some (oh * 3600 + om * 60)))
                  else if Ascii.eqb sign "-"%char
                  then Ok (mkDatetime t (Some (- (oh * 3600 + om * 60))))
                  else Raise ValueError
              | _, _ => Raise ValueError
              end
          | _ => Raise ValueError
          end
      | _, _, _, _, _, _ => Raise ValueError
      end
  | _ => Raise ValueError
  end.

(** Tokens are opaque here: decoding yields no expiry claim, and
    timestamps are whole seconds. *)
#[export] Instance sample_libraries : Libraries :=
  {| jwt_decode := fun _ => Ok (VDict ∅);
     datetime_fromtimestamp :=
       fun v => match v with VInt n => Ok n | _ => Raise TypeError end;
     datetime_fromisoformat := sample_fromisoformat |}.

Definition sample_extractor (token : pyval) (expires_at : option Z)
  : extractor :=
  mkExtractor "client" "secret" "https://crm.example" token expires_at
    default_endpoints.

Definition records (n : nat) : pyval :=
  VList (replicate n (VDict {["id" := VInt 1]})).

Definition data_body (n : nat) : res pyval :=
  Ok (VDict (<["success" := VBool true]> {["data" := records n]})).

Definition data_response (n : nat) : http_outcome :=
  Response 200 (data_body n).

Definition token_response : http_outcome :=
  Response 200 (Ok (VDict (<["success" := VBool true]>
                             {["data" := VStr "token-2"]}))).

(** The data endpoint answers its calls in the given order and fails once
    the script is over; the token endpoint always grants a token. *)
Definition scripted_world (script : list http_outcome) : world :=
  mkWorld 1000 (fun _ _ => token_response)
    (fun n _ => default ConnectionFailed (script !! n)) 0 0 [].

Definition scripted (script : list http_outcome) : state :=
  mkState (sample_extractor (VStr "token-1") (Some 1000000))
    (scripted_world script).

Definition gets_after {A} (r : res A * state) : nat := gets (env r.2).
Definition posts_after {A} (r : res A * state) : nat := posts (env r.2).

Definition record_count (r : res (option (list pyval)) * state)
  : option nat :=
  match r.1 with
  | Ok (Some l) => Some (length l)
  | _ => None
  end.

End Samples.

(** ** Token acquisition and requests *)

Module ExtractorProofs.
Import Extractor Samples.

(** The cached credential and its remaining lifetime, in the words of the
    specification. *)
Definition cached_credential (s : state) : option (pyval * Z) :=
  match token_expires_at (self s) with
  | Some expires_at =>
      if truthy (access_token (self s))
      then Some (access_token (self s), expires_at - now (env s))
      else None
  | None => None
  end.

Definition credential_is_fresh (cfg : Settings) (s : state) : bool :=
  match cached_credential s with
  | Some (_, remaining) => misa_crm_token_refresh_buffer cfg <? remaining
  | None => false
  end.

(** The token endpoint answers the next call with a new credential. *)
Definition next_token_is `{Libraries} (cfg : Settings) (s : state)
    (token : pyval) : Prop :=
  exists d,
    auth_server (env s) (posts (env s)) (token_request cfg (self s)) =
      Response 200 (Ok (VDict d)) /\
    truthy (dict_get d "success") = true /\
    d !! "data" = Some token.

(** The expiry a token claims for itself: the [exp] field of its decoded
    payload, read as a timestamp. *)
Definition expiry_claim `{Libraries} (token : pyval) : option Z :=
  match jwt_decode token with
  | Ok (VDict claims) =>
      match claims !! "exp" with
      | Some exp =>
          if truthy exp then
            match datetime_fromtimestamp exp with
            | Ok expires_at => Some expires_at
            | Raise _ => None
            end
          else None
      | None => None
      end
  | _ => None
  end.

(** The expiry cached with a token received at time [t]: the one it
    claims, and one hour from [t] when it claims none. *)
Definition expiry_at `{Libraries} (t : Z) (token : pyval) : Z :=
  default (t + 3600) (expiry_claim token).

(** One round trip to the token endpoint and nothing else. *)
Definition one_token_round_trip `{Libraries} (cfg : Settings)
    (s s' : state) : Prop :=
  posts (env s') = S (posts (env s)) /\
  gets (env s') = gets (env s) /\
  log (env s') = log (env s) ++ [Posted (token_request cfg (self s))] /\
  now (env s') = now (env s) /\
  auth_server (env s') = auth_server (env s) /\
  api_server (env s') = api_server (env s).

Section Tokens.
Context `{Libraries} (cfg : Settings).

Lemma is_token_expired_spec (s : state) :
  _is_token_expired cfg s = (Ok (negb (credential_is_fresh cfg s)), s).
Proof.
  unfold _is_token_expired, credential_is_fresh, cached_credential.
  destruct (token_expires_at (self s)) as [e|]; [|done].
  destruct (truthy (access_token (self s))); [|done].
  do 2 f_equal. apply eq_iff_eq_true.
  rewrite negb_true_iff, Z.leb_le, Z.ltb_ge. lia.
Qed.

Lemma decode_token_expiry_total (token : pyval) (s : state) :
  exists expires_at, _decode_token_expiry token s = (Ok expires_at, s).
Proof.
  unfold _decode_token_expiry, try_except, mbind, lift, datetime_now, ret.
  destruct (jwt_decode token) as [decoded|]; [|eauto].
  destruct (py_get decoded "exp") as [exp|]; [|eauto].
  destruct (truthy exp); [|eauto].
  destruct (datetime_fromtimestamp exp); eauto.
Qed.

Lemma decode_token_expiry_spec (token : pyval) (s : state) :
  _decode_token_expiry token s = (Ok (expiry_at (now (env s)) token), s).
Proof.
  unfold _decode_token_expiry, expiry_at, expiry_claim, try_except, mbind,
    lift, datetime_now, ret.
  destruct (jwt_decode token) as [decoded|]; [|done].
  destruct decoded as [| | | | | | | |claims]; try done.
  cbn [py_get]. unfold dict_get.
  destruct (claims !! "exp") as [exp|]; cbn [default from_option]; [|done].
  unfold id. destruct (truthy exp); [|done].
  by destruct (datetime_fromtimestamp exp).
Qed.

Ltac token_failed :=
  do 2 eexists; split; [reflexivity|]; split; [by repeat split|]; by left.

(** Asking for a new token never raises and is exactly one round trip;
    the extractor changes only when a credential came back. *)
Lemma request_new_token_round_trip (s : state) :
  exists r s', request_new_token cfg s = (Ok r, s') /\
    one_token_round_trip cfg s s' /\
    (r = VNone /\ self s' = self s \/
     r = access_token (self s') /\ is_Some (token_expires_at (self s'))).
Proof.
  unfold request_new_token, try_except, mbind, requests_post, ret.
  destruct s as [e w]. cbn [self env].
  destruct (auth_server w (posts w) (token_request cfg e))
    as [|code body] eqn:Hout; cbn [outcome_result]; [token_failed|].
  cbn [status_code json].
  destruct (code =? 200) eqn:Hcode; [|token_failed].
  unfold lift. destruct body as [result|]; [|token_failed].
  destruct result as [| | | | | | | |d]; try token_failed.
  cbn [py_get].
  destruct (truthy (dict_get d "success") &&
            bool_decide (is_Some (d !! "data"))); [|token_failed].
  unfold store_token at 1. cbn [self env client_id client_secret base_url
    endpoints token_expires_at].
  match goal with |- context [_decode_token_expiry ?t ?st] =>
    destruct (decode_token_expiry_total t st) as (expires_at & ->) end.
  unfold store_token. cbn [self env client_id client_secret base_url
    endpoints].
  do 2 eexists. split; [reflexivity|]. cbn [self env posts gets log now
    auth_server api_server access_token token_expires_at].
  split; [by repeat split|]. right. eauto.
Qed.

(** When the token endpoint grants a credential, it is cached and
    returned. *)
Lemma request_new_token_granted (s : state) (token : pyval) :
  next_token_is cfg s token ->
  exists s', request_new_token cfg s = (Ok token, s') /\
    access_token (self s') = token /\
    is_Some (token_expires_at (self s')).
Proof.
  intros (d & Hout & Hsucc & Hdata).
  unfold request_new_token, try_except, mbind, requests_post, ret.
  destruct s as [e w]. cbn [self env] in *. rewrite Hout.
  cbn [outcome_result status_code json]. rewrite Z.eqb_refl. unfold lift. cbn [py_get].
  rewrite Hsucc. rewrite bool_decide_eq_true_2 by eauto. cbn [andb].
  unfold store_token at 1. cbn [self env client_id client_secret base_url
    endpoints token_expires_at].
  match goal with |- context [_decode_token_expiry ?t ?st] =>
    destruct (decode_token_expiry_total t st) as (expires_at & ->) end.
  unfold store_token. cbn [self env client_id client_secret base_url
    endpoints].
  unfold dict_get. rewrite Hdata. cbn [default from_option]. unfold id.
  eexists. split; [reflexivity|]. cbn [self access_token token_expires_at].
  eauto.
Qed.

(** The same round trip, with the expiry that is cached. *)
Lemma request_new_token_expiry (s : state) :
  exists r s', request_new_token cfg s = (Ok r, s') /\
    (r = VNone /\ self s' = self s \/
     r = access_token (self s') /\
     token_expires_at (self s') = Some (expiry_at (now (env s)) r)) /\
    (forall token, next_token_is cfg s token ->
       r = token /\ access_token (self s') = token /\
       token_expires_at (self s') = Some (expiry_at (now (env s)) token)).
Proof.
  unfold request_new_token, try_except, mbind, requests_post, ret,
    next_token_is.
  destruct s as [e w]. cbn [self env].
  destruct (auth_server w (posts w) (token_request cfg e))
    as [|code body] eqn:Hout; cbn [outcome_result].
  { do 2 eexists. split; [reflexivity|]. split; [by left|].
    by intros token (d & [=] & _). }
  cbn [status_code json].
  destruct (code =? 200) eqn:Hcode.
  2:{ do 2 eexists. split; [reflexivity|]. split; [by left|].
      intros token (d & [= -> _] & _). done. }
  apply Z.eqb_eq in Hcode. subst code.
  unfold lift. destruct body as [result|].
  2:{ do 2 eexists. split; [reflexivity|]. split; [by left|].
      by intros token (d & [=] & _). }
  destruct result as [| | | | | | | |d];
    try (do 2 eexists; split; [reflexivity|]; split; [by left|];
         by intros token (d' & [=] & _)).
  cbn [py_get].
  destruct (truthy (dict_get d "success") &&
            bool_decide (is_Some (d !! "data"))) eqn:Hgrant.
  2:{ do 2 eexists. split; [reflexivity|]. split; [by left|].
      intros token (d' & [= <-] & Hsucc & Hdata). rewrite Hsucc in Hgrant.
      by rewrite bool_decide_eq_true_2 in Hgrant by eauto. }
  unfold store_token at 1. cbn [self env client_id client_secret base_url
    endpoints token_expires_at].
  rewrite decode_token_expiry_spec. cbn [env now].
  unfold store_token. cbn [self env client_id client_secret base_url
    endpoints].
  do 2 eexists. split; [reflexivity|].
  cbn [self env access_token token_expires_at]. split; [by right|].
  intros token (d' & [= <-] & _ & Hdata). unfold dict_get. rewrite Hdata.
  done.
Qed.

Lemma get_access_token_fresh (s : state) :
  credential_is_fresh cfg s = true ->
  get_access_token cfg false s = (Ok (access_token (self s)), s).
Proof.
  intros Hfresh. unfold get_access_token, mbind.
  by rewrite is_token_expired_spec, Hfresh.
Qed.

Lemma get_access_token_stale (s : state) :
  credential_is_fresh cfg s = false ->
  get_access_token cfg false s = request_new_token cfg s.
Proof.
  intros Hstale. unfold get_access_token, mbind.
  by rewrite is_token_expired_spec, Hstale.
Qed.

End Tokens.

(** C6. With a cached credential whose remaining lifetime exceeds the
    refresh buffer and no forced refresh, [get_access_token] returns the
    cached credential and leaves the network untouched. With no cached
    credential, or one whose remaining lifetime is within the buffer
    (negative included), it makes exactly one round trip to the token
    endpoint; when that round trip grants a credential, the credential is
    returned and cached together with its expiry: the expiry the token
    claims, or one hour from now when it claims none. The next call then
    returns it from the cache, without a round trip, as long as that expiry
    lies beyond the buffer. When the round trip grants nothing, [None] is
    returned and the extractor keeps what it had. *)
Theorem C6_token_acquire `{Libraries} (cfg : Settings) (s : state) :
  (credential_is_fresh cfg s = true ->
   get_access_token cfg false s = (Ok (access_token (self s)), s)) /\
  (credential_is_fresh cfg s = false ->
   exists r s',
     get_access_token cfg false s = (Ok r, s') /\
     one_token_round_trip cfg s s' /\
     (forall token, next_token_is cfg s token ->
        r = token /\ access_token (self s') = token /\
        token_expires_at (self s') = Some (expiry_at (now (env s)) token) /\
        (truthy token = true ->
         misa_crm_token_refresh_buffer cfg <
           expiry_at (now (env s)) token - now (env s) ->
         get_access_token cfg false s' = (Ok token, s'))) /\
     (r = VNone /\ self s' = self s \/
      r = access_token (self s') /\
      token_expires_at (self s') = Some (expiry_at (now (env s)) r))).
Proof.
  split.
  - apply get_access_token_fresh.
  - intros Hstale. rewrite (get_access_token_stale cfg s Hstale).
    destruct (request_new_token_round_trip cfg s)
      as (r & s' & Hrun & Htrip & _).
    destruct (request_new_token_expiry cfg s)
      as (r' & s'' & Hrun' & Hcases & Hgranted).
    rewrite Hrun in Hrun'. injection Hrun' as <- <-.
    exists r, s'. split; [done|]. split; [done|]. split; [|done].
    intros token Hnext.
    destruct (Hgranted token Hnext) as (-> & Htoken & Hexpiry).
    split; [done|]. split; [done|]. split; [done|].
    intros Htruthy Hbeyond. rewrite <- Htoken.
    apply get_access_token_fresh.
    unfold credential_is_fresh, cached_credential.
    rewrite Hexpiry, Htoken, Htruthy.
    destruct Htrip as (_ & _ & _ & -> & _). by apply Z.ltb_lt.
Qed.

Definition expired_state : state :=
  mkState (Samples.sample_extractor (VStr "token-1") (Some 900))
    (Samples.scripted_world []).

(** Tokens that all claim to expire at time 5000. *)
Definition expiring_libraries : Libraries :=
  {| jwt_decode := fun _ => Ok (VDict {["exp" := VInt 5000]});
     datetime_fromtimestamp :=
       fun v => match v with VInt n => Ok n | _ => Raise TypeError end;
     datetime_fromisoformat := Samples.sample_fromisoformat |}.

Lemma C6_token_acquire_witness :
  get_access_token Samples.sample_settings false (Samples.scripted []) =
    (Ok (VStr "token-1"), Samples.scripted []) /\
  exists s',
    get_access_token (H := expiring_libraries) Samples.sample_settings false
      expired_state = (Ok (VStr "token-2"), s') /\
    posts (env s') = 1%nat /\
    token_expires_at (self s') = Some 5000 /\
    get_access_token (H := expiring_libraries) Samples.sample_settings false
      s' = (Ok (VStr "token-2"), s').
Proof.
  split.
  - apply (proj1 (C6_token_acquire Samples.sample_settings
                    (Samples.scripted []))).
    reflexivity.
  - destruct (proj2 (C6_token_acquire (H := expiring_libraries)
                       Samples.sample_settings expired_state)
                eq_refl) as (r & s' & Hrun & Htrip & Hgrant & _).
    destruct (Hgrant (VStr "token-2")) as (-> & _ & Hexpiry & Hcached).
    { eexists. split; [reflexivity|]. split; reflexivity. }
    exists s'. split; [exact Hrun|]. destruct Htrip as (Hposts & _).
    split; [exact Hposts|]. split; [exact Hexpiry|].
    apply Hcached; [reflexivity|]. vm_compute. reflexivity.
Defined.

(** *** Requests with retry *)

Section Retry.
Context `{Libraries} (cfg : Settings).

(** What every step keeps: the two servers. *)
Definition same_servers (s s' : state) : Prop :=
  auth_server (env s') = auth_server (env s) /\
  api_server (env s') = api_server (env s).

Lemma same_servers_refl (s : state) : same_servers s s.
Proof. by split. Qed.

Lemma same_servers_trans (s1 s2 s3 : state) :
  same_servers s1 s2 -> same_servers s2 s3 -> same_servers s1 s3.
Proof. intros [? ?] [? ?]. split; congruence. Qed.

Lemma get_access_token_total (force_refresh : bool) (s : state) :
  exists r s', get_access_token cfg force_refresh s = (Ok r, s') /\
    same_servers s s' /\ gets (env s') = gets (env s).
Proof.
  assert (exists r s', request_new_token cfg s = (Ok r, s') /\
            same_servers s s' /\ gets (env s') = gets (env s)) as Hnew.
  { destruct (request_new_token_round_trip cfg s)
      as (r & s' & Hrun & (_ & Hgets & _ & _ & Hauth & Hapi) & _).
    exists r, s'. by repeat split. }
  destruct force_refresh; [done|].
  destruct (credential_is_fresh cfg s) eqn:Hfresh.
  - rewrite get_access_token_fresh by done.
    do 2 eexists. split; [reflexivity|]. split; [apply same_servers_refl|done].
  - by rewrite get_access_token_stale.
Qed.

Lemma time_sleep_ok (seconds : Z) (s : state) :
  0 <= seconds ->
  time_sleep seconds s = (Ok tt, slept seconds s).
Proof.
  intros Hpos. unfold time_sleep.
  destruct (seconds <? 0) eqn:Hneg; [apply Z.ltb_lt in Hneg; lia|done].
Qed.

Lemma slept_same_servers (seconds : Z) (s : state) :
  same_servers s (slept seconds s).
Proof. by split. Qed.

Lemma requested_same_servers (r : request) (s : state) :
  same_servers s (requested r s).
Proof. by split. Qed.

(** The answer of the data endpoint to the call an attempt makes. *)
Definition answered (s : state) (resp : response) : Prop :=
  exists n req, api_server (env s) n req =
    Response (status_code resp) (json resp).

(** The handler of the [except] clause of an attempt. *)
Definition attempt_handler (attempt : Z) : M attempt_result :=
  if attempt <? api_retry_attempts cfg - 1
  then _ <~ time_sleep (api_retry_delay cfg * (attempt + 1)) ;; ret Continue
  else ret (Return None).

Lemma attempt_handler_ok (attempt : Z) (s : state) :
  0 <= api_retry_delay cfg -> 0 <= attempt ->
  exists r s',
    attempt_handler attempt s = (Ok r, s') /\
    same_servers s s' /\ (r = Continue \/ r = Return None).
Proof.
  intros Hdelay Hattempt. unfold attempt_handler.
  destruct (attempt <? api_retry_attempts cfg - 1).
  - erewrite mbind_ok by (apply time_sleep_ok; lia).
    do 2 eexists. split; [reflexivity|].
    split; [apply slept_same_servers|by left].
  - exists (Return None), s. split; [done|].
    split; [apply same_servers_refl|by right].
Qed.

(** The [try] body of an attempt. *)
Definition attempt_body (attempt : Z) (method url : string)
    (params : gmap string pyval) : M attempt_result :=
  token <~ _get_headers cfg ;;
  response <~ requests_request
    (mkRequest method url params token (api_timeout cfg)) ;;
  if status_code response =? 200 then ret (Return (Some response))
  else if status_code response =? 401 then
    _ <~ get_access_token cfg true ;;
    if attempt <? api_retry_attempts cfg - 1 then
      _ <~ time_sleep (api_retry_delay cfg) ;; ret Continue
    else ret Continue
  else ret (Return None).

Lemma request_attempt_unfold (attempt : Z) (method url : string)
    (params : gmap string pyval) :
  request_attempt cfg attempt method url params =
    try_except (attempt_body attempt method url params)
      (fun _ => attempt_handler attempt).
Proof. reflexivity. Qed.

Lemma get_headers_run (s : state) :
  exists r s', _get_headers cfg s = (r, s') /\ same_servers s s' /\
    gets (env s') = gets (env s).
Proof.
  unfold _get_headers.
  destruct (get_access_token_total false s) as (token & s1 & Htok & Hs1 & Hg).
  rewrite (mbind_ok _ _ _ _ _ Htok).
  destruct (truthy token); do 2 eexists; (split; [reflexivity|done]).
Qed.

(** The body either raises or yields a result; a response is handed back
    only when the data endpoint answered 200. *)
Lemma attempt_body_result (attempt : Z) (method url : string)
    (params : gmap string pyval) (s : state) :
  0 <= api_retry_delay cfg ->
  exists r s',
    attempt_body attempt method url params s = (r, s') /\
    same_servers s s' /\
    forall resp, r = Ok (Return (Some resp)) ->
      status_code resp = 200 /\ answered s resp.
Proof.
  intros Hdelay. unfold attempt_body.
  destruct (get_headers_run s) as ([token|e] & s1 & Hhead & Hs1 & _).
  2:{ rewrite (mbind_raise _ _ _ _ _ Hhead).
      do 2 eexists. split; [reflexivity|]. split; [done|]. by intros resp [=]. }
  rewrite (mbind_ok _ _ _ _ _ Hhead).
  set (req := mkRequest method url params token (api_timeout cfg)).
  pose proof (requested_same_servers req s1) as Hs2.
  pose proof (same_servers_trans _ _ _ Hs1 Hs2) as Hs12.
  destruct (api_server (env s1) (gets (env s1)) req) as [|code body] eqn:Hout.
  { rewrite (mbind_raise _ _ s1 (requested req s1) RequestException)
      by (unfold requests_request; by rewrite Hout).
    do 2 eexists. split; [reflexivity|]. split; [done|]. by intros resp [=]. }
  rewrite (mbind_ok _ _ s1 (requested req s1) (mkResponse code body))
    by (unfold requests_request; by rewrite Hout).
  cbn [status_code].
  destruct (code =? 200) eqn:H200.
  { apply Z.eqb_eq in H200. subst code.
    do 2 eexists. split; [reflexivity|]. split; [done|].
    intros resp [= <-]. split; [done|].
    exists (gets (env s1)), req. cbn [status_code json].
    destruct Hs1 as [_ <-]. exact Hout. }
  destruct (code =? 401).
  2:{ do 2 eexists. split; [reflexivity|]. split; [done|].
      by intros resp [=]. }
  destruct (get_access_token_total true (requested req s1))
    as (t2 & s3 & Hforce & Hs3 & _).
  rewrite (mbind_ok _ _ _ _ _ Hforce).
  pose proof (same_servers_trans _ _ _ Hs12 Hs3) as Hs13.
  destruct (attempt <? api_retry_attempts cfg - 1).
  - rewrite (mbind_ok _ _ _ _ _ (time_sleep_ok _ s3 Hdelay)).
    do 2 eexists. split; [reflexivity|].
    split; [eapply same_servers_trans; [done|apply slept_same_servers]|].
    by intros resp [=].
  - do 2 eexists. split; [reflexivity|]. split; [done|]. by intros resp [=].
Qed.

(** An attempt never raises, and hands back a response only when the data
    endpoint answered 200. *)
Lemma request_attempt_ok (attempt : Z) (method url : string)
    (params : gmap string pyval) (s : state) :
  0 <= api_retry_delay cfg -> 0 <= attempt ->
  exists r s',
    request_attempt cfg attempt method url params s = (Ok r, s') /\
    same_servers s s' /\
    forall resp, r = Return (Some resp) ->
      status_code resp = 200 /\ answered s resp.
Proof.
  intros Hdelay Hattempt. rewrite request_attempt_unfold.
  destruct (attempt_body_result attempt method url params s Hdelay)
    as ([r|e] & s1 & Hbody & Hs1 & Hr).
  - rewrite (try_except_ok _ _ _ _ _ Hbody). exists r, s1.
    split; [done|]. split; [done|]. intros resp ->. by apply Hr.
  - rewrite (try_except_raise _ _ _ _ _ Hbody).
    destruct (attempt_handler_ok attempt s1 Hdelay Hattempt)
      as (r & s' & -> & Hs' & Hres).
    exists r, s'. split; [done|]. split; [by eapply same_servers_trans|].
    intros resp ->. by destruct Hres.
Qed.

Lemma request_attempts_ok (attempts : list Z) (method url : string)
    (params : gmap string pyval) (s : state) :
  0 <= api_retry_delay cfg -> Forall (fun a => 0 <= a) attempts ->
  exists r s',
    request_attempts cfg attempts method url params s = (Ok r, s') /\
    same_servers s s' /\
    forall resp, r = Some resp -> status_code resp = 200 /\ answered s resp.
Proof.
  intros Hdelay Hattempts. revert s.
  induction Hattempts as [|attempt attempts Hattempt _ IH]; intros s.
  - exists None, s. split; [done|]. split; [apply same_servers_refl|].
    by intros resp [=].
  - cbn [request_attempts].
    destruct (request_attempt_ok attempt method url params s Hdelay Hattempt)
      as (r & s1 & Hrun & Hs1 & Hr).
    rewrite (mbind_ok _ _ _ _ _ Hrun).
    destruct r as [resp|].
    + exists resp, s1. split; [done|]. split; [done|].
      intros resp' ->. by apply Hr.
    + destruct (IH s1) as (r & s2 & -> & Hs2 & Hr2).
      exists r, s2. split; [done|]. split; [by eapply same_servers_trans|].
      intros resp Hresp. destruct (Hr2 resp Hresp) as [H200 (n & req & Hans)].
      split; [done|]. exists n, req. destruct Hs1 as [_ <-]. exact Hans.
Qed.

Lemma range_nonneg (n : Z) : Forall (fun a => 0 <= a) (range n).
Proof.
  unfold range. apply Forall_fmap, Forall_forall. intros a _. simpl. lia.
Qed.

(** With a non-negative delay [_make_request_with_retry] never raises; it
    returns a response only when the data endpoint answered 200. *)
Lemma make_request_with_retry_ok (method url : string)
    (params : gmap string pyval) (s : state) :
  0 <= api_retry_delay cfg ->
  exists r s',
    _make_request_with_retry cfg method url params s = (Ok r, s') /\
    same_servers s s' /\
    forall resp, r = Some resp -> status_code resp = 200 /\ answered s resp.
Proof.
  intros Hdelay. apply request_attempts_ok; [done|apply range_nonneg].
Qed.


(** **** Transient failures *)

(** The state after [k] attempts, the first numbered [attempt], that each
    sent [req], met a network failure and backed off. *)
Fixpoint after_failures (attempt : Z) (k : nat) (req : request) (s : state)
  : state :=
  match k with
  | O => s
  | S k =>
      after_failures (attempt + 1) k req
        (slept (api_retry_delay cfg * (attempt + 1)) (requested req s))
  end.

Lemma fresh_earlier (seconds : Z) (req : request) (s : state) :
  0 <= seconds ->
  credential_is_fresh cfg (slept seconds (requested req s)) = true ->
  credential_is_fresh cfg s = true.
Proof.
  intros Hpos. unfold credential_is_fresh, cached_credential.
  cbn [slept requested self env now].
  destruct (token_expires_at (self s)) as [e|]; [|done].
  destruct (truthy (access_token (self s))); [|done].
  rewrite !Z.ltb_lt. lia.
Qed.

Lemma after_failures_fresh (k : nat) (attempt : Z) (req : request)
    (s : state) :
  0 <= api_retry_delay cfg -> 0 <= attempt ->
  credential_is_fresh cfg (after_failures attempt k req s) = true ->
  credential_is_fresh cfg s = true.
Proof.
  intros Hdelay. revert attempt s.
  induction k as [|k IH]; intros attempt s Hattempt Hfresh; [done|].
  cbn [after_failures] in Hfresh. apply IH in Hfresh; [|lia].
  eapply fresh_earlier; [|exact Hfresh]. nia.
Qed.

Lemma get_headers_fresh (s : state) :
  credential_is_fresh cfg s = true ->
  _get_headers cfg s = (Ok (access_token (self s)), s).
Proof.
  intros Hfresh. unfold _get_headers.
  rewrite (mbind_ok _ _ _ _ _ (get_access_token_fresh cfg s Hfresh)).
  unfold credential_is_fresh, cached_credential in Hfresh.
  destruct (token_expires_at (self s)); [|done].
  by destruct (truthy (access_token (self s))).
Qed.

Definition data_request (method url : string) (params : gmap string pyval)
    (s : state) : request :=
  mkRequest method url params (access_token (self s)) (api_timeout cfg).

Lemma attempt_succeeds (attempt : Z) (method url : string)
    (params : gmap string pyval) (s : state) (body : res pyval) :
  credential_is_fresh cfg s = true ->
  api_server (env s) (gets (env s)) (data_request method url params s) =
    Response 200 body ->
  request_attempt cfg attempt method url params s =
    (Ok (Return (Some (mkResponse 200 body))),
     requested (data_request method url params s) s).
Proof.
  intros Hfresh Hout. rewrite request_attempt_unfold.
  apply try_except_ok. unfold attempt_body.
  rewrite (mbind_ok _ _ _ _ _ (get_headers_fresh s Hfresh)).
  fold (data_request method url params s).
  rewrite (mbind_ok _ _ s (requested (data_request method url params s) s)
             (mkResponse 200 body))
    by (unfold requests_request; by rewrite Hout).
  done.
Qed.

Lemma attempt_backs_off (attempt : Z) (method url : string)
    (params : gmap string pyval) (s : state) :
  0 <= api_retry_delay cfg -> 0 <= attempt ->
  attempt < api_retry_attempts cfg - 1 ->
  credential_is_fresh cfg s = true ->
  api_server (env s) (gets (env s)) (data_request method url params s) =
    ConnectionFailed ->
  request_attempt cfg attempt method url params s =
    (Ok Continue,
     slept (api_retry_delay cfg * (attempt + 1))
       (requested (data_request method url params s) s)).
Proof.
  intros Hdelay Hattempt Hlast Hfresh Hout. rewrite request_attempt_unfold.
  erewrite try_except_raise.
  2:{ unfold attempt_body.
      rewrite (mbind_ok _ _ _ _ _ (get_headers_fresh s Hfresh)).
      fold (data_request method url params s).
      apply mbind_raise. unfold requests_request. by rewrite Hout. }
  unfold attempt_handler.
  apply Z.ltb_lt in Hlast. rewrite Hlast.
  erewrite mbind_ok by (apply time_sleep_ok; nia). done.
Qed.

Lemma after_failures_self (k : nat) (attempt : Z) (req : request)
    (s : state) :
  self (after_failures attempt k req s) = self s.
Proof. revert attempt s. induction k as [|k IH]; intros; [done|]. cbn. by rewrite IH. Qed.

(** [k] network failures followed by a 200: the response of attempt [k] is
    returned. *)
Lemma retry_until_success (k : nat) :
  forall (a len : nat) (method url : string) (params : gmap string pyval)
         (s : state) (body : res pyval),
  0 <= api_retry_delay cfg ->
  (k < len)%nat -> Z.of_nat (a + k) < api_retry_attempts cfg ->
  let req := data_request method url params s in
  credential_is_fresh cfg (after_failures (Z.of_nat a) k req s) = true ->
  (forall i, (i < k)%nat ->
     api_server (env s) (gets (env s) + i)%nat req = ConnectionFailed) ->
  api_server (env s) (gets (env s) + k)%nat req = Response 200 body ->
  request_attempts cfg (Z.of_nat <$> seq a len) method url params s =
    (Ok (Some (mkResponse 200 body)),
     requested req (after_failures (Z.of_nat a) k req s)).
Proof.
  induction k as [|k IH];
    intros a len method url params s body Hdelay Hlen Hlast req Hfresh
      Hfail Hsucc.
  - destruct len as [|len]; [lia|]. cbn [seq fmap list_fmap request_attempts].
    cbn [after_failures] in *. rewrite Nat.add_0_r in Hsucc.
    rewrite (mbind_ok _ _ _ _ _
               (attempt_succeeds _ method url params s body Hfresh Hsucc)).
    done.
  - destruct len as [|len]; [lia|]. cbn [seq fmap list_fmap request_attempts].
    assert (credential_is_fresh cfg s = true) as Hfresh0.
    { eapply after_failures_fresh; [done| |exact Hfresh]. lia. }
    rewrite (mbind_ok _ _ _ _ _
               (attempt_backs_off (Z.of_nat a) method url params s Hdelay
                  ltac:(lia) ltac:(lia) Hfresh0
                  ltac:(rewrite <- (Hfail 0%nat) by lia;
                        by rewrite Nat.add_0_r))).
    fold req. cbn [after_failures] in Hfresh |- *.
    set (s1 := slept _ (requested req s)) in *.
    replace (Z.of_nat a + 1) with (Z.of_nat (S a)) in * by lia.
    assert (data_request method url params s1 = req) as Hreq by done.
    specialize (IH (S a) len method url params s1 body Hdelay
                  ltac:(lia) ltac:(lia)).
    cbv zeta in IH. rewrite Hreq in IH. apply IH; [done| |].
    + intros i Hi. cbn. rewrite <- (Hfail (S i)) by lia.
      f_equal. lia.
    + cbn. rewrite <- Hsucc. f_equal. lia.
Qed.

(** **** Authorization failures *)


(** **** Exhausted attempts *)

Definition never_answers_200 (s : state) : Prop :=
  forall n req body, api_server (env s) n req <> Response 200 body.

Lemma make_request_with_retry_exhausted (method url : string)
    (params : gmap string pyval) (s : state) :
  0 <= api_retry_delay cfg -> never_answers_200 s ->
  exists s', _make_request_with_retry cfg method url params s = (Ok None, s')
    /\ same_servers s s'.
Proof.
  intros Hdelay Hnever.
  destruct (make_request_with_retry_ok method url params s Hdelay)
    as ([resp|] & s' & Hrun & Hs' & Hresp); [|by exists s'].
  destruct (Hresp resp eq_refl) as [H200 (n & req & Hans)].
  rewrite H200 in Hans. by apply Hnever in Hans.
Qed.

End Retry.

End ExtractorProofs.

(** ** The calls a request makes *)

Module CallsMade.
Import Extractor ExtractorProofs.

(** The requests sent to the data endpoint, among the logged events. *)
Definition data_calls (events : list event) : list request :=
  omap (fun ev => match ev with Requested r => Some r | _ => None end) events.

Definition is_200 (answer : http_outcome) : bool :=
  match answer with
  | Response code _ => code =? 200
  | ConnectionFailed => false
  end.

(** The calls to the data endpoint made between [s] and [s'], in order,
    each with the answer it got: they are what the log gained, they are
    numbered from the call counter of [s] on, and nothing else reached the
    data endpoint. *)
Definition calls_made (s s' : state) (calls : list (request * http_outcome))
  : Prop :=
  same_servers s s' /\
  gets (env s') = (gets (env s) + length calls)%nat /\
  (exists events, log (env s') = log (env s) ++ events /\
                  data_calls events = calls.*1) /\
  (forall i req answer, calls !! i = Some (req, answer) ->
     api_server (env s) (gets (env s) + i)%nat req = answer).

Lemma data_calls_app (e1 e2 : list event) :
  data_calls (e1 ++ e2) = data_calls e1 ++ data_calls e2.
Proof. apply omap_app. Qed.

Lemma calls_made_refl (s : state) : calls_made s s [].
Proof.
  split; [apply same_servers_refl|]. split; [cbn; lia|]. split.
  - exists []. by rewrite app_nil_r.
  - intros i req answer Hi. by rewrite lookup_nil in Hi.
Qed.

Lemma calls_made_trans (s1 s2 s3 : state)
    (c1 c2 : list (request * http_outcome)) :
  calls_made s1 s2 c1 -> calls_made s2 s3 c2 -> calls_made s1 s3 (c1 ++ c2).
Proof.
  intros (Hs1 & Hg1 & (e1 & Hl1 & Hd1) & Ha1)
         (Hs2 & Hg2 & (e2 & Hl2 & Hd2) & Ha2).
  split; [by eapply same_servers_trans|]. split.
  { rewrite Hg2, Hg1, length_app. lia. }
  split.
  { exists (e1 ++ e2). rewrite Hl2, Hl1, <- app_assoc. split; [done|].
    by rewrite data_calls_app, Hd1, Hd2, fmap_app. }
  intros i req answer Hi. apply lookup_app_Some in Hi as [Hi|[Hlen Hi]].
  - by apply Ha1.
  - apply Ha2 in Hi. destruct Hs1 as [_ Hapi]. rewrite Hapi, Hg1 in Hi.
    rewrite <- Hi. f_equal. lia.
Qed.

(** Steps that do not reach the data endpoint. *)
Definition quiet (s s' : state) : Prop :=
  same_servers s s' /\ gets (env s') = gets (env s) /\
  exists events, log (env s') = log (env s) ++ events /\
                 data_calls events = [].

Lemma quiet_calls_made (s s' : state) : quiet s s' -> calls_made s s' [].
Proof.
  intros (Hs & Hg & He). split; [done|]. split; [cbn; lia|].
  split; [done|]. intros i req answer Hi. by rewrite lookup_nil in Hi.
Qed.

Lemma quiet_refl (s : state) : quiet s s.
Proof.
  split; [apply same_servers_refl|]. split; [done|].
  exists []. by rewrite app_nil_r.
Qed.

Lemma quiet_trans (s1 s2 s3 : state) : quiet s1 s2 -> quiet s2 s3 -> quiet s1 s3.
Proof.
  intros (Hs1 & Hg1 & e1 & Hl1 & Hd1) (Hs2 & Hg2 & e2 & Hl2 & Hd2).
  split; [by eapply same_servers_trans|]. split; [congruence|].
  exists (e1 ++ e2). rewrite Hl2, Hl1, <- app_assoc. split; [done|].
  by rewrite data_calls_app, Hd1, Hd2.
Qed.

Lemma quiet_slept (seconds : Z) (s : state) : quiet s (slept seconds s).
Proof.
  split; [apply slept_same_servers|]. split; [done|].
  by exists [Slept seconds].
Qed.

Lemma calls_made_requested (req : request) (s : state) :
  calls_made s (requested req s)
    [(req, api_server (env s) (gets (env s)) req)].
Proof.
  split; [apply requested_same_servers|]. split; [cbn; lia|]. split.
  - by exists [Requested req].
  - intros [|i] req' answer Hi; [|by destruct i].
    injection Hi as <- <-. by rewrite Nat.add_0_r.
Qed.

Section Calls.
Context `{Libraries} (cfg : Settings).

Lemma quiet_get_access_token (force_refresh : bool) (s : state) :
  exists r s', get_access_token cfg force_refresh s = (Ok r, s') /\ quiet s s'.
Proof.
  assert (exists r s', request_new_token cfg s = (Ok r, s') /\ quiet s s')
    as Hnew.
  { destruct (request_new_token_round_trip cfg s)
      as (r & s' & Hrun & (_ & Hgets & Hlog & _ & Hauth & Hapi) & _).
    exists r, s'. split; [done|]. split; [by split|]. split; [done|].
    by eexists. }
  destruct force_refresh; [done|].
  destruct (credential_is_fresh cfg s) eqn:Hfresh.
  - rewrite get_access_token_fresh by done.
    do 2 eexists. split; [reflexivity|apply quiet_refl].
  - by rewrite get_access_token_stale.
Qed.

Lemma quiet_get_headers (s : state) :
  exists r s', _get_headers cfg s = (r, s') /\ quiet s s'.
Proof.
  unfold _get_headers.
  destruct (quiet_get_access_token false s) as (token & s1 & Htok & Hq).
  rewrite (mbind_ok _ _ _ _ _ Htok).
  destruct (truthy token); do 2 eexists; (split; [reflexivity|done]).
Qed.

Lemma quiet_attempt_handler (attempt : Z) (s : state) :
  0 <= api_retry_delay cfg -> 0 <= attempt ->
  exists r s', attempt_handler cfg attempt s = (Ok r, s') /\ quiet s s' /\
    (r = Continue \/ r = Return None).
Proof.
  intros Hdelay Hattempt. unfold attempt_handler.
  destruct (attempt <? api_retry_attempts cfg - 1).
  - erewrite mbind_ok by (apply time_sleep_ok; lia).
    do 2 eexists. split; [reflexivity|]. split; [apply quiet_slept|by left].
  - exists (Return None), s. split; [done|]. split; [apply quiet_refl|by right].
Qed.

(** The requests of a call: to this URL with these parameters, under some
    token. *)
Definition sent_as (method url : string) (params : gmap string pyval)
    (call : request * http_outcome) : Prop :=
  exists token, call.1 = mkRequest method url params token (api_timeout cfg).

Definition not_200 (call : request * http_outcome) : Prop :=
  is_200 call.2 = false.

(** What an attempt hands on, against the calls it made. *)
Definition attempt_outcome (r : attempt_result)
    (calls : list (request * http_outcome)) : Prop :=
  match r with
  | Return (Some resp) =>
      status_code resp = 200 /\
      exists req, calls = [(req, Response 200 (json resp))]
  | _ => Forall not_200 calls
  end.

Lemma attempt_body_made (attempt : Z) (method url : string)
    (params : gmap string pyval) (s : state) :
  0 <= api_retry_delay cfg ->
  exists r s' calls,
    attempt_body cfg attempt method url params s = (r, s') /\
    calls_made s s' calls /\ (length calls <= 1)%nat /\
    Forall (sent_as method url params) calls /\
    match r with
    | Ok r => attempt_outcome r calls
    | Raise _ => Forall not_200 calls
    end.
Proof.
  intros Hdelay. unfold attempt_body.
  destruct (quiet_get_headers s) as ([token|e] & s1 & Hhead & Hq1).
  2:{ rewrite (mbind_raise _ _ _ _ _ Hhead).
      exists (Raise e), s1, []. split; [done|].
      split; [by apply quiet_calls_made|]. by repeat split; try constructor. }
  rewrite (mbind_ok _ _ _ _ _ Hhead).
  set (req := mkRequest method url params token (api_timeout cfg)).
  pose proof (calls_made_trans _ _ _ _ _ (quiet_calls_made _ _ Hq1)
                (calls_made_requested req s1)) as Hmade.
  cbn [app] in Hmade.
  assert (Forall (sent_as method url params)
            [(req, api_server (env s1) (gets (env s1)) req)]) as Hsent.
  { constructor; [by exists token|constructor]. }
  destruct (api_server (env s1) (gets (env s1)) req) as [|code body] eqn:Hout.
  { rewrite (mbind_raise _ _ s1 (requested req s1) RequestException)
      by (unfold requests_request; by rewrite Hout).
    do 3 eexists. split; [reflexivity|]. split; [exact Hmade|].
    split; [done|]. split; [done|]. by constructor. }
  rewrite (mbind_ok _ _ s1 (requested req s1) (mkResponse code body))
    by (unfold requests_request; by rewrite Hout).
  cbn [status_code].
  destruct (code =? 200) eqn:H200.
  { apply Z.eqb_eq in H200. subst code.
    do 3 eexists. split; [reflexivity|]. split; [exact Hmade|].
    split; [done|]. split; [done|]. split; [done|]. by exists req. }
  assert (Forall not_200 [(req, Response code body)]) as Hnot.
  { constructor; [exact H200|constructor]. }
  destruct (code =? 401).
  2:{ do 3 eexists. split; [reflexivity|]. split; [exact Hmade|].
      by repeat split. }
  destruct (quiet_get_access_token true (requested req s1))
    as (t2 & s3 & Hforce & Hq3).
  rewrite (mbind_ok _ _ _ _ _ Hforce).
  pose proof (calls_made_trans _ _ _ _ _ Hmade (quiet_calls_made _ _ Hq3))
    as Hmade3. rewrite app_nil_r in Hmade3.
  destruct (attempt <? api_retry_attempts cfg - 1).
  - rewrite (mbind_ok _ _ _ _ _ (time_sleep_ok _ s3 Hdelay)).
    do 3 eexists. split; [reflexivity|]. split.
    { pose proof (calls_made_trans _ _ _ _ _ Hmade3
                    (quiet_calls_made _ _ (quiet_slept (api_retry_delay cfg) s3)))
        as Hm. by rewrite app_nil_r in Hm. }
    by repeat split.
  - do 3 eexists. split; [reflexivity|]. split; [exact Hmade3|].
    by repeat split.
Qed.

(** An attempt never raises; it makes at most one call, and hands back a
    response exactly when that call was answered 200. *)
Lemma request_attempt_made (attempt : Z) (method url : string)
    (params : gmap string pyval) (s : state) :
  0 <= api_retry_delay cfg -> 0 <= attempt ->
  exists r s' calls,
    request_attempt cfg attempt method url params s = (Ok r, s') /\
    calls_made s s' calls /\ (length calls <= 1)%nat /\
    Forall (sent_as method url params) calls /\
    attempt_outcome r calls.
Proof.
  intros Hdelay Hattempt. rewrite request_attempt_unfold.
  destruct (attempt_body_made attempt method url params s Hdelay)
    as ([r|e] & s1 & calls & Hbody & Hmade & Hlen & Hsent & Hout).
  - rewrite (try_except_ok _ _ _ _ _ Hbody). by exists r, s1, calls.
  - rewrite (try_except_raise _ _ _ _ _ Hbody).
    destruct (quiet_attempt_handler attempt s1 Hdelay Hattempt)
      as (r & s' & -> & Hq & Hres).
    exists r, s', calls. split; [done|]. split.
    { pose proof (calls_made_trans _ _ _ _ _ Hmade (quiet_calls_made _ _ Hq))
        as Hm. by rewrite app_nil_r in Hm. }
    split; [done|]. split; [done|]. by destruct Hres as [-> | ->].
Qed.

(** What the request hands back, against the calls it made: a response
    exactly when its last call was answered 200. *)
Definition request_outcome (r : option response)
    (calls : list (request * http_outcome)) : Prop :=
  match r with
  | Some resp =>
      status_code resp = 200 /\
      exists prior req,
        calls = prior ++ [(req, Response 200 (json resp))] /\
        Forall not_200 prior
  | None => Forall not_200 calls
  end.

Lemma request_attempts_made (attempts : list Z) (method url : string)
    (params : gmap string pyval) (s : state) :
  0 <= api_retry_delay cfg -> Forall (fun a => 0 <= a) attempts ->
  exists r s' calls,
    request_attempts cfg attempts method url params s = (Ok r, s') /\
    calls_made s s' calls /\ (length calls <= length attempts)%nat /\
    Forall (sent_as method url params) calls /\
    request_outcome r calls.
Proof.
  intros Hdelay Hattempts. revert s.
  induction Hattempts as [|attempt attempts Hattempt _ IH]; intros s.
  - exists None, s, []. split; [done|]. split; [apply calls_made_refl|].
    by repeat split; try constructor.
  - cbn [request_attempts].
    destruct (request_attempt_made attempt method url params s Hdelay
                Hattempt) as (r & s1 & c1 & Hrun & Hm1 & Hl1 & Hs1 & Ho1).
    rewrite (mbind_ok _ _ _ _ _ Hrun).
    destruct r as [[resp|]|].
    + exists (Some resp), s1, c1. split; [done|]. split; [done|].
      split; [cbn; lia|]. split; [done|].
      destruct Ho1 as (H200 & req & ->). split; [done|].
      exists [], req. split; [done|constructor].
    + exists None, s1, c1. split; [done|]. split; [done|].
      split; [cbn; lia|]. by split.
    + destruct (IH s1) as (r & s2 & c2 & -> & Hm2 & Hl2 & Hs2 & Ho2).
      exists r, s2, (c1 ++ c2). split; [done|].
      split; [by eapply calls_made_trans|].
      split; [rewrite length_app; cbn; lia|].
      split; [by apply Forall_app|].
      destruct r as [resp|]; cbn in Ho1, Ho2 |- *.
      * destruct Ho2 as (H200 & prior & req & -> & Hprior).
        split; [done|]. exists (c1 ++ prior), req.
        split; [by rewrite app_assoc|by apply Forall_app].
      * by apply Forall_app.
Qed.

Lemma range_length (n : Z) : length (range n) = Z.to_nat n.
Proof. unfold range. by rewrite length_fmap, length_seq. Qed.

(** With a non-negative delay, [_make_request_with_retry] never raises
    and makes at most the configured number of calls, all to the given URL;
    it hands back a response exactly when the last of them was answered
    200, and [None] exactly when none was. *)
Lemma make_request_with_retry_calls (method url : string)
    (params : gmap string pyval) (s : state) :
  0 <= api_retry_delay cfg ->
  exists r s' calls,
    _make_request_with_retry cfg method url params s = (Ok r, s') /\
    calls_made s s' calls /\
    (length calls <= Z.to_nat (api_retry_attempts cfg))%nat /\
    Forall (sent_as method url params) calls /\
    request_outcome r calls.
Proof.
  intros Hdelay. rewrite <- range_length.
  apply request_attempts_made; [done|apply range_nonneg].
Qed.


End Calls.

End CallsMade.

(** ** The retry policy *)

Module RetryPolicy.
Import Extractor Samples ExtractorProofs CallsMade.







End RetryPolicy.

(** ** Paging *)

Module PagingProofs.
Import Extractor Samples ExtractorProofs.

Section Paging.
Context `{Libraries} (cfg : Settings).

(** The request for one page of an endpoint. *)
Definition page_request (endpoint_name path : string) (page : Z) (s : state)
  : request :=
  data_request cfg "GET" (base_url (self s) +:+ path)
    (request_params_for cfg endpoint_name page (misa_crm_page_size cfg) ∅) s.

(** When no call is answered 200, the page request yields [None]. *)
Lemma extract_endpoint_data_failed (endpoint_name : string) (page : Z)
    (page_size : option Z) (params : gmap string pyval) (s : state) :
  0 <= api_retry_delay cfg -> never_answers_200 s ->
  exists s', extract_endpoint_data cfg endpoint_name page page_size params s
             = (Ok VNone, s') /\ same_servers s s'.
Proof.
  intros Hdelay Hnever. unfold extract_endpoint_data.
  rewrite (mbind_ok _ _ s s (self s)) by done.
  destruct (endpoints (self s) !! endpoint_name) as [path|].
  2:{ exists s. split; [done|apply same_servers_refl]. }
  cbv zeta.
  match goal with |- context [_make_request_with_retry cfg ?m ?u ?p] =>
    destruct (make_request_with_retry_exhausted cfg m u p s Hdelay Hnever)
      as (s' & Hrun & Hs') end.
  rewrite (mbind_ok _ _ _ _ _ Hrun). by exists s'.
Qed.

(** With a fresh credential and at least one attempt configured, a call
    answered 200 yields the decoded body after a single request. *)
Lemma extract_endpoint_data_answered (endpoint_name path : string) (page : Z)
    (s : state) (body : pyval) :
  0 <= api_retry_delay cfg -> 1 <= api_retry_attempts cfg ->
  endpoints (self s) !! endpoint_name = Some path ->
  credential_is_fresh cfg s = true ->
  api_server (env s) (gets (env s))
    (page_request endpoint_name path page s) = Response 200 (Ok body) ->
  extract_endpoint_data cfg endpoint_name page
    (Some (misa_crm_page_size cfg)) ∅ s =
    (Ok body, requested (page_request endpoint_name path page s) s).
Proof.
  intros Hdelay Hattempts Hpath Hfresh Hout. unfold extract_endpoint_data.
  rewrite (mbind_ok _ _ s s (self s)) by done.
  rewrite Hpath. cbv zeta. cbn [default from_option]. unfold id.
  erewrite mbind_ok.
  2:{ unfold _make_request_with_retry, range.
      apply (retry_until_success cfg 0 0 (Z.to_nat (api_retry_attempts cfg))
               _ _ _ s (Ok body)); try done; try lia.
      rewrite Nat.add_0_r. exact Hout. }
  done.
Qed.

(** One iteration of the loop, by cases on the page it fetched. *)
Lemma loop_at_limit (fuel : nat) (endpoint_name : string)
    (max_pages : option Z) (page : Z) (all_data : list pyval) (s : state) :
  limit_reached max_pages page = true ->
  extract_all_loop cfg (S fuel) endpoint_name max_pages page all_data s =
    (Ok (Some all_data), s).
Proof. intros Hlimit. cbn [extract_all_loop]. by rewrite Hlimit. Qed.

Lemma loop_no_data (fuel : nat) (endpoint_name : string)
    (max_pages : option Z) (page : Z) (all_data : list pyval)
    (s s' : state) (result : pyval) :
  limit_reached max_pages page = false ->
  extract_endpoint_data cfg endpoint_name page
    (Some (misa_crm_page_size cfg)) ∅ s = (Ok result, s') ->
  page_has_no_data result = Ok true ->
  extract_all_loop cfg (S fuel) endpoint_name max_pages page all_data s =
    (Ok (Some all_data), s').
Proof.
  intros Hlimit Hfetch Hnone. cbn [extract_all_loop]. rewrite Hlimit.
  rewrite (mbind_ok _ _ _ _ _ Hfetch).
  rewrite (mbind_ok _ _ s' s' true) by (unfold lift; by rewrite Hnone).
  done.
Qed.

Lemma page_with_records (d : gmap string pyval) (l : list pyval) :
  d !! "data" = Some (VList l) -> l <> [] ->
  page_has_no_data (VDict d) = Ok false /\
  subscript_data (VDict d) = Ok (VList l) /\
  batch_items (VList l) = Ok l.
Proof.
  intros Hdata Hl. unfold page_has_no_data, contains_data, subscript_data.
  cbn [truthy]. rewrite Hdata.
  assert (d <> ∅) as Hne.
  { intros ->. by rewrite lookup_empty in Hdata. }
  rewrite bool_decide_eq_false_2 by done. cbn [negb bind].
  rewrite bool_decide_eq_true_2 by eauto. cbn [negb bind truthy].
  by destruct l.
Qed.

Lemma loop_short_page (fuel : nat) (endpoint_name : string)
    (max_pages : option Z) (page : Z) (all_data : list pyval)
    (s s' : state) (d : gmap string pyval) (l : list pyval) :
  limit_reached max_pages page = false ->
  extract_endpoint_data cfg endpoint_name page
    (Some (misa_crm_page_size cfg)) ∅ s = (Ok (VDict d), s') ->
  d !! "data" = Some (VList l) -> l <> [] ->
  Z.of_nat (length l) < misa_crm_page_size cfg ->
  extract_all_loop cfg (S fuel) endpoint_name max_pages page all_data s =
    (Ok (Some (all_data ++ l)), s').
Proof.
  intros Hlimit Hfetch Hdata Hl Hshort. cbn [extract_all_loop]. rewrite Hlimit.
  destruct (page_with_records d l Hdata Hl) as (Hnone & Hsub & Hitems).
  rewrite (mbind_ok _ _ _ _ _ Hfetch).
  rewrite (mbind_ok _ _ s' s' false) by (unfold lift; by rewrite Hnone).
  rewrite (mbind_ok _ _ s' s' (VList l)) by (unfold lift; by rewrite Hsub).
  rewrite (mbind_ok _ _ s' s' l) by (unfold lift; by rewrite Hitems).
  apply Z.ltb_lt in Hshort. by rewrite Hshort.
Qed.

Lemma loop_full_page (fuel : nat) (endpoint_name : string)
    (max_pages : option Z) (page : Z) (all_data : list pyval)
    (s s' : state) (d : gmap string pyval) (l : list pyval) :
  0 <= etl_rate_limit_delay cfg ->
  limit_reached max_pages page = false ->
  extract_endpoint_data cfg endpoint_name page
    (Some (misa_crm_page_size cfg)) ∅ s = (Ok (VDict d), s') ->
  d !! "data" = Some (VList l) -> l <> [] ->
  misa_crm_page_size cfg <= Z.of_nat (length l) ->
  extract_all_loop cfg (S fuel) endpoint_name max_pages page all_data s =
    extract_all_loop cfg fuel endpoint_name max_pages (page + 1)
      (all_data ++ l) (slept (etl_rate_limit_delay cfg) s').
Proof.
  intros Hrate Hlimit Hfetch Hdata Hl Hfull. cbn [extract_all_loop].
  rewrite Hlimit.
  destruct (page_with_records d l Hdata Hl) as (Hnone & Hsub & Hitems).
  rewrite (mbind_ok _ _ _ _ _ Hfetch).
  rewrite (mbind_ok _ _ s' s' false) by (unfold lift; by rewrite Hnone).
  rewrite (mbind_ok _ _ s' s' (VList l)) by (unfold lift; by rewrite Hsub).
  rewrite (mbind_ok _ _ s' s' l) by (unfold lift; by rewrite Hitems).
  apply Z.ltb_ge in Hfull. rewrite Hfull.
  by rewrite (mbind_ok _ _ _ _ _ (time_sleep_ok _ s' Hrate)).
Qed.


(** **** A run over full pages *)

Variables (endpoint_name path : string) (max_pages : option Z).
Variable pages : nat -> list pyval.

(** The state after [n] pages, the first numbered [page], were each
    requested once and followed by the rate-limit pause. *)
Fixpoint after_pages (page : Z) (n : nat) (s : state) : state :=
  match n with
  | O => s
  | S n =>
      after_pages (page + 1) n
        (slept (etl_rate_limit_delay cfg)
           (requested (page_request endpoint_name path page s) s))
  end.

(** Call [i] from now on is answered 200 with page [first + i], a full
    page, and the page limit is not reached there. *)
Definition full_pages_served (first n : nat) (s : state) : Prop :=
  forall i, (i < n)%nat ->
    limit_reached max_pages (Z.of_nat (first + i)) = false /\
    pages (first + i) <> [] /\
    misa_crm_page_size cfg <= Z.of_nat (length (pages (first + i))) /\
    exists d,
      api_server (env s) (gets (env s) + i)%nat
        (page_request endpoint_name path (Z.of_nat (first + i)) s) =
        Response 200 (Ok (VDict d)) /\
      d !! "data" = Some (VList (pages (first + i))).

Lemma after_pages_fresh (n : nat) (page : Z) (s : state) :
  0 <= etl_rate_limit_delay cfg ->
  credential_is_fresh cfg (after_pages page n s) = true ->
  credential_is_fresh cfg s = true.
Proof.
  intros Hrate. revert page s.
  induction n as [|n IH]; intros page s Hfresh; [done|].
  cbn [after_pages] in Hfresh. apply IH in Hfresh.
  by eapply fresh_earlier.
Qed.

Lemma fast_forward (n : nat) :
  forall (first : nat) (all_data : list pyval) (s : state) (fuel : nat),
  0 <= api_retry_delay cfg -> 0 <= etl_rate_limit_delay cfg ->
  1 <= api_retry_attempts cfg ->
  endpoints (self s) !! endpoint_name = Some path ->
  full_pages_served first n s ->
  credential_is_fresh cfg (after_pages (Z.of_nat first) n s) = true ->
  extract_all_loop cfg (n + fuel) endpoint_name max_pages (Z.of_nat first)
    all_data s =
  extract_all_loop cfg fuel endpoint_name max_pages (Z.of_nat (first + n))
    (all_data ++ concat (pages <$> seq first n))
    (after_pages (Z.of_nat first) n s).
Proof.
  induction n as [|n IH];
    intros first all_data s fuel Hdelay Hrate Hattempts Hpath Hserved Hfresh.
  - cbn. by rewrite app_nil_r, Nat.add_0_r.
  - destruct (Hserved 0%nat ltac:(lia)) as (Hlimit & Hne & Hfull & d & Hout & Hd).
    rewrite !Nat.add_0_r in *.
    assert (credential_is_fresh cfg s = true) as Hfresh0
      by (by eapply after_pages_fresh).
    cbn [Nat.add].
    rewrite (loop_full_page (n + fuel) endpoint_name max_pages _ all_data
               s _ d (pages first) Hrate Hlimit
               (extract_endpoint_data_answered endpoint_name path _ s
                  (VDict d) Hdelay Hattempts Hpath Hfresh0 Hout)
               Hd Hne Hfull).
    cbn [after_pages] in Hfresh |- *.
    set (s1 := slept _ (requested _ s)) in *.
    replace (Z.of_nat first + 1) with (Z.of_nat (S first)) in * by lia.
    rewrite (IH (S first) (all_data ++ pages first) s1 fuel); try done.
    + cbn [seq fmap list_fmap concat]. rewrite <- app_assoc.
      by replace (S first + n)%nat with (first + S n)%nat by lia.
    + intros i Hi.
      destruct (Hserved (S i) ltac:(lia)) as (Hl & Hn & Hf & d' & Ho & Hd').
      replace (first + S i)%nat with (S first + i)%nat in * by lia.
      repeat split; try done. exists d'. split; [|done].
      cbn. rewrite <- Ho. f_equal. lia.
Qed.

End Paging.

End PagingProofs.

(** ** Paging, run by run *)

Module PagingRuns.
Import Extractor Samples ExtractorProofs CallsMade PagingProofs.

(** The page limit as the specification words it: reached as soon as the
    page number is at least [max_pages]. *)
Definition limit_reached_as_stated (max_pages : option Z) (page : Z) : bool :=
  match max_pages with
  | Some m => m <=? page
  | None => false
  end.

(** The page size a page request asks the endpoint for. *)
Definition requested_page_size (cfg : Settings) : Z :=
  Z.min (misa_crm_page_size cfg) (misa_crm_max_page_size cfg).

(** The results a page request can return in the words of the
    specification: no result, or an object whose [data], when present, is
    null or the list of the page's records. *)
Definition page_result (result : pyval) : bool :=
  match result with
  | VNone => true
  | VDict d =>
      match d !! "data" with
      | None | Some VNone | Some (VList _) => true
      | Some _ => false
      end
  | _ => false
  end.

(** The records of a page result. *)
Definition records_of (result : pyval) : list pyval :=
  match result with
  | VDict d =>
      match d !! "data" with
      | Some (VList l) => l
      | _ => []
      end
  | _ => []
  end.

(** Every body the data endpoint serves decodes to a page result. *)
Definition serves_page_results (s : state) : Prop :=
  forall n req code body,
    api_server (env s) n req = Response code (Ok body) ->
    page_result body = true.

Lemma serves_page_results_later (s s' : state) :
  same_servers s s' -> serves_page_results s -> serves_page_results s'.
Proof.
  intros [_ Hapi] Hs n req code body. rewrite Hapi. apply Hs.
Qed.

Lemma page_result_cases (result : pyval) :
  page_result result = true ->
  page_has_no_data result = Ok (bool_decide (records_of result = [])) /\
  (records_of result <> [] ->
   subscript_data result = Ok (VList (records_of result)) /\
   batch_items (VList (records_of result)) = Ok (records_of result)).
Proof.
  destruct result as [| | | | | | | |d]; try done.
  unfold page_result, page_has_no_data, contains_data, subscript_data,
    records_of. cbn [truthy].
  destruct (d !! "data") as [data|] eqn:Hdata.
  - assert (d <> ∅) as Hne.
    { intros ->. by rewrite lookup_empty in Hdata. }
    rewrite (bool_decide_eq_false_2 (d = ∅)) by done. cbn [negb bind].
    rewrite bool_decide_eq_true_2 by eauto. cbn [negb bind].
    destruct data as [| | | | | | |l|]; try done.
    destruct l as [|record l]; [done|]. cbn [truthy negb].
    by rewrite bool_decide_eq_false_2.
  - intros _. split; [|done].
    destruct (bool_decide (d = ∅)); cbn [negb bind]; [done|].
    rewrite bool_decide_eq_false_2; [done|]. by intros [? ?].
Qed.

Section Runs.
Context `{Libraries} (cfg : Settings).

(** What a page request returns, against the calls it made: the decoded
    body of its last call when that call was answered 200, and no result
    when none of its calls was. *)
Definition fetched (result : res pyval)
    (calls : list (request * http_outcome)) : Prop :=
  (result = Ok VNone /\ Forall not_200 calls) \/
  (exists prior req,
     calls = prior ++ [(req, Response 200 result)] /\ Forall not_200 prior).

Lemma extract_endpoint_data_made (endpoint_name : string) (page : Z)
    (page_size : option Z) (params : gmap string pyval) (s : state) :
  0 <= api_retry_delay cfg ->
  exists result s' calls,
    extract_endpoint_data cfg endpoint_name page page_size params s =
      (result, s') /\
    calls_made s s' calls /\
    (length calls <= Z.to_nat (api_retry_attempts cfg))%nat /\
    fetched result calls.
Proof.
  intros Hdelay. unfold extract_endpoint_data.
  rewrite (mbind_ok _ _ s s (self s)) by done.
  destruct (endpoints (self s) !! endpoint_name) as [path|].
  2:{ exists (Ok VNone), s, []. split; [done|]. split; [apply calls_made_refl|].
      split; [cbn; lia|]. left. by split; [|constructor]. }
  cbv zeta.
  match goal with |- context [_make_request_with_retry cfg ?m ?u ?p] =>
    destruct (make_request_with_retry_calls cfg m u p s Hdelay)
      as (r & s' & calls & Hrun & Hmade & Hlen & _ & Hout) end.
  rewrite (mbind_ok _ _ _ _ _ Hrun).
  destruct r as [resp|]; cbn in Hout.
  - destruct Hout as (H200 & prior & req & -> & Hprior). rewrite H200.
    change (200 <? 400) with true. cbv iota. unfold lift.
    exists (json resp), s', (prior ++ [(req, Response 200 (json resp))]).
    split; [done|]. split; [done|]. split; [done|]. right. eauto.
  - exists (Ok VNone), s', calls. split; [done|]. split; [done|].
    split; [done|]. by left.
Qed.

(** A decoded result is no result or a body the endpoint served. *)
Lemma fetched_page_result (s s' : state) (result : pyval)
    (calls : list (request * http_outcome)) :
  serves_page_results s -> calls_made s s' calls ->
  fetched (Ok result) calls -> page_result result = true.
Proof.
  intros Hserves (_ & _ & _ & Hanswers) [[[= ->] _]|(prior & req & -> & _)];
    [done|].
  eapply Hserves, (Hanswers (length prior)).
  by rewrite lookup_app_r, Nat.sub_diag.
Qed.

Variables (endpoint_name : string) (max_pages : option Z).

(** The request for a page, as the loop makes it. *)
Definition fetch_page (page : Z) : M pyval :=
  extract_endpoint_data cfg endpoint_name page
    (Some (misa_crm_page_size cfg)) ∅.

(** The runs of the paging loop that the specification describes, from a
    page on: [paging_run page all_data s data s'] when paging from [page]
    with [all_data] gathered ends in state [s'] with [data]. Paging stops
    at the page limit without a request; it stops after a page request
    that returned no result or no records; it stops after a page with
    fewer records than the requested page size, keeping them; and only
    after a page with at least that many records it pauses and goes on
    with the next page. *)
Inductive paging_run (page : Z) (all_data : list pyval) (s : state)
  : list pyval -> state -> Prop :=
| stop_at_limit :
    limit_reached_as_stated max_pages page = true ->
    paging_run page all_data s all_data s
| stop_without_records (result : pyval) (s1 : state) :
    limit_reached_as_stated max_pages page = false ->
    fetch_page page s = (Ok result, s1) ->
    records_of result = [] ->
    paging_run page all_data s all_data s1
| stop_after_short_page (result : pyval) (s1 : state) :
    limit_reached_as_stated max_pages page = false ->
    fetch_page page s = (Ok result, s1) ->
    records_of result <> [] ->
    Z.of_nat (length (records_of result)) < requested_page_size cfg ->
    paging_run page all_data s (all_data ++ records_of result) s1
| go_on_after_full_page (result : pyval) (s1 : state) (data : list pyval)
    (s' : state) :
    limit_reached_as_stated max_pages page = false ->
    fetch_page page s = (Ok result, s1) ->
    records_of result <> [] ->
    requested_page_size cfg <= Z.of_nat (length (records_of result)) ->
    paging_run (page + 1) (all_data ++ records_of result)
      (slept (etl_rate_limit_delay cfg) s1) data s' ->
    paging_run page all_data s data s'.

Hypothesis retry_delay : 0 <= api_retry_delay cfg.
Hypothesis rate_delay : 0 <= etl_rate_limit_delay cfg.
Hypothesis limit_not_zero : max_pages <> Some 0.
Hypothesis size_within_maximum :
  misa_crm_page_size cfg <= misa_crm_max_page_size cfg.

Lemma limit_reached_is_stated (page : Z) :
  limit_reached max_pages page = limit_reached_as_stated max_pages page.
Proof.
  unfold limit_reached, limit_reached_as_stated.
  destruct max_pages as [m|]; [|done].
  destruct (m =? 0) eqn:Hm; [|done].
  apply Z.eqb_eq in Hm. by subst m.
Qed.

Lemma requested_is_configured :
  requested_page_size cfg = misa_crm_page_size cfg.
Proof. unfold requested_page_size. lia. Qed.

(** One iteration of the loop over a page result. *)
Lemma loop_step (fuel : nat) (page : Z) (all_data : list pyval)
    (s s1 : state) (result : pyval) :
  limit_reached_as_stated max_pages page = false ->
  fetch_page page s = (Ok result, s1) ->
  page_result result = true ->
  extract_all_loop cfg (S fuel) endpoint_name max_pages page all_data s =
    if bool_decide (records_of result = []) then (Ok (Some all_data), s1)
    else if Z.of_nat (length (records_of result)) <? requested_page_size cfg
    then (Ok (Some (all_data ++ records_of result)), s1)
    else extract_all_loop cfg fuel endpoint_name max_pages (page + 1)
           (all_data ++ records_of result)
           (slept (etl_rate_limit_delay cfg) s1).
Proof.
  intros Hlimit Hfetch Hresult. cbn [extract_all_loop].
  rewrite limit_reached_is_stated, Hlimit.
  unfold fetch_page in Hfetch. rewrite (mbind_ok _ _ _ _ _ Hfetch).
  destruct (page_result_cases result Hresult) as [Hnone Hsome].
  rewrite (mbind_ok _ _ s1 s1 (bool_decide (records_of result = [])))
    by (unfold lift; by rewrite Hnone).
  destruct (bool_decide (records_of result = [])) eqn:Hempty; [done|].
  apply bool_decide_eq_false in Hempty.
  destruct (Hsome Hempty) as [Hsub Hitems].
  rewrite (mbind_ok _ _ s1 s1 (VList (records_of result)))
    by (unfold lift; by rewrite Hsub).
  rewrite (mbind_ok _ _ s1 s1 (records_of result))
    by (unfold lift; by rewrite Hitems).
  rewrite requested_is_configured.
  destruct (_ <? _); [done|].
  by rewrite (mbind_ok _ _ _ _ _ (time_sleep_ok _ s1 rate_delay)).
Qed.

Lemma fetch_page_result (page : Z) (s s1 : state) (result : pyval) :
  serves_page_results s -> fetch_page page s = (Ok result, s1) ->
  page_result result = true /\ serves_page_results s1.
Proof.
  intros Hserves Hfetch. unfold fetch_page in Hfetch.
  destruct (extract_endpoint_data_made endpoint_name page
              (Some (misa_crm_page_size cfg)) ∅ s retry_delay)
    as (r & s' & calls & Hrun & Hmade & _ & Hfetched).
  rewrite Hfetch in Hrun. injection Hrun as <- <-. split.
  - by eapply fetched_page_result.
  - eapply serves_page_results_later; [|done]. by destruct Hmade.
Qed.

Lemma loop_is_run (fuel : nat) (page : Z) (all_data : list pyval)
    (s s' : state) (data : list pyval) :
  serves_page_results s ->
  extract_all_loop cfg fuel endpoint_name max_pages page all_data s =
    (Ok (Some data), s') ->
  paging_run page all_data s data s'.
Proof.
  revert page all_data s. induction fuel as [|fuel IH];
    intros page all_data s Hserves Hrun; [done|].
  destruct (limit_reached_as_stated max_pages page) eqn:Hlimit.
  { cbn [extract_all_loop] in Hrun.
    rewrite limit_reached_is_stated, Hlimit in Hrun.
    injection Hrun as <- <-. by apply stop_at_limit. }
  destruct (fetch_page page s) as [[result|e] s1] eqn:Hfetch.
  2:{ cbn [extract_all_loop] in Hrun.
      rewrite limit_reached_is_stated, Hlimit in Hrun.
      unfold fetch_page in Hfetch.
      by rewrite (mbind_raise _ _ _ _ _ Hfetch) in Hrun. }
  destruct (fetch_page_result page s s1 result Hserves Hfetch)
    as [Hresult Hserves1].
  rewrite (loop_step fuel page all_data s s1 result Hlimit Hfetch Hresult)
    in Hrun.
  destruct (bool_decide (records_of result = [])) eqn:Hempty.
  { apply bool_decide_eq_true in Hempty. injection Hrun as <- <-.
    by eapply stop_without_records. }
  apply bool_decide_eq_false in Hempty.
  destruct (_ <? _) eqn:Hshort.
  - apply Z.ltb_lt in Hshort. injection Hrun as <- <-.
    by eapply stop_after_short_page.
  - apply Z.ltb_ge in Hshort.
    eapply go_on_after_full_page; try done.
    apply IH; [|done].
    eapply serves_page_results_later; [apply slept_same_servers|done].
Qed.

Lemma run_is_loop (page : Z) (all_data : list pyval) (s s' : state)
    (data : list pyval) :
  serves_page_results s ->
  paging_run page all_data s data s' ->
  exists fuel,
    extract_all_loop cfg fuel endpoint_name max_pages page all_data s =
      (Ok (Some data), s').
Proof.
  intros Hserves Hrun.
  induction Hrun as [page all_data s Hlimit
                    |page all_data s result s1 Hlimit Hfetch Hnone
                    |page all_data s result s1 Hlimit Hfetch Hsome Hshort
                    |page all_data s result s1 data s' Hlimit Hfetch Hsome
                       Hfull Hrest IH].
  - exists 1%nat. cbn [extract_all_loop].
    by rewrite limit_reached_is_stated, Hlimit.
  - exists 1%nat.
    destruct (fetch_page_result page s s1 result Hserves Hfetch) as [Hr _].
    rewrite (loop_step 0 page all_data s s1 result Hlimit Hfetch Hr).
    by rewrite bool_decide_eq_true_2.
  - exists 1%nat.
    destruct (fetch_page_result page s s1 result Hserves Hfetch) as [Hr _].
    rewrite (loop_step 0 page all_data s s1 result Hlimit Hfetch Hr).
    rewrite bool_decide_eq_false_2 by done.
    apply Z.ltb_lt in Hshort. by rewrite Hshort.
  - destruct (fetch_page_result page s s1 result Hserves Hfetch)
      as [Hr Hserves1].
    destruct IH as (fuel & Hloop).
    { eapply serves_page_results_later; [apply slept_same_servers|done]. }
    exists (S fuel).
    rewrite (loop_step fuel page all_data s s1 result Hlimit Hfetch Hr).
    rewrite bool_decide_eq_false_2 by done.
    apply Z.ltb_ge in Hfull. by rewrite Hfull.
Qed.

(** The only exception of a run is the one of a body that does not
    decode: the last call made was answered 200 with it. *)
Lemma loop_raises (fuel : nat) (page : Z) (all_data : list pyval)
    (s s' : state) (e : exn) :
  serves_page_results s ->
  extract_all_loop cfg fuel endpoint_name max_pages page all_data s =
    (Raise e, s') ->
  exists calls prior req,
    calls_made s s' calls /\
    calls = prior ++ [(req, Response 200 (Raise e))].
Proof.
  revert page all_data s. induction fuel as [|fuel IH];
    intros page all_data s Hserves Hrun; [done|].
  destruct (limit_reached_as_stated max_pages page) eqn:Hlimit.
  { cbn [extract_all_loop] in Hrun.
    by rewrite limit_reached_is_stated, Hlimit in Hrun. }
  destruct (extract_endpoint_data_made endpoint_name page
              (Some (misa_crm_page_size cfg)) ∅ s retry_delay)
    as (r & s1 & calls & Hfetch & Hmade & _ & Hfetched).
  destruct r as [result|e1].
  2:{ cbn [extract_all_loop] in Hrun.
      rewrite limit_reached_is_stated, Hlimit in Hrun.
      rewrite (mbind_raise _ _ _ _ _ Hfetch) in Hrun.
      injection Hrun as <- <-.
      destruct Hfetched as [[[=] _]|(prior & req & -> & _)].
      by exists (prior ++ [(req, Response 200 (Raise e1))]), prior, req. }
  destruct (fetch_page_result page s s1 result Hserves Hfetch)
    as [Hresult Hserves1].
  rewrite (loop_step fuel page all_data s s1 result Hlimit Hfetch Hresult)
    in Hrun.
  destruct (bool_decide (records_of result = [])); [done|].
  destruct (_ <? _); [done|].
  apply IH in Hrun as (calls2 & prior & req & Hmade2 & ->).
  2:{ eapply serves_page_results_later; [apply slept_same_servers|done]. }
  exists (calls ++ prior ++ [(req, Response 200 (Raise e))]),
    (calls ++ prior), req.
  split; [|by rewrite app_assoc].
  eapply calls_made_trans; [exact Hmade|].
  pose proof (calls_made_trans _ _ _ _ _
                (quiet_calls_made _ _
                   (quiet_slept (etl_rate_limit_delay cfg) s1)) Hmade2)
    as Hm. exact Hm.
Qed.

End Runs.

(** A deployment whose page size exceeds the maximum page size. *)
Definition capped_settings : Settings :=
  {| api_timeout := 30; api_retry_attempts := 3; api_retry_delay := 5;
     misa_crm_page_size := 200; misa_crm_max_page_size := 100;
     misa_crm_incremental_lookback_hours := 24;
     misa_crm_token_refresh_buffer := 300;
     etl_rate_limit_delay := 1 |}.

(** C3, as first stated, fails in three ways. When the only page delivered
    is a full one (50 records for a page size of 50) and every further call
    fails, the loop stops after page 0 and three failed calls for page 1,
    although no empty page, no short page and no page limit was met. A page
    limit of 0 is reached at page 0, yet pages 0 and 1 are requested. And
    with a page size of 200 above the maximum page size of 100, the
    requests ask for 100 records and the loop stops after the first page of
    100 records, which is not short of what was requested. *)
Lemma C3_stops_outside_the_stated_conditions :
  let failed := extract_all_data_from_endpoint sample_settings 5 "customers"
                  None (scripted [data_response 50]) in
  let zero := extract_all_data_from_endpoint sample_settings 5 "customers"
                (Some 0) (scripted [data_response 50; data_response 0]) in
  let capped := extract_all_data_from_endpoint capped_settings 5 "customers"
                  None (scripted [data_response 100; data_response 100]) in
  (record_count failed = Some 50%nat /\ gets_after failed = 4%nat /\
   misa_crm_page_size sample_settings = 50) /\
  (limit_reached_as_stated (Some 0) 0 = true /\
   record_count zero = Some 50%nat /\ gets_after zero = 2%nat) /\
  (requested_page_size capped_settings = 100 /\
   record_count capped = Some 100%nat /\ gets_after capped = 1%nat).
Proof. vm_compute. repeat split. Qed.

(** C3, amended. Take non-negative delays, a page limit that is absent or
    not 0, a page size within the maximum page size, and a data endpoint
    whose bodies decode to page results (no result, or an object whose
    [data] is absent, null or a list of records). Then the runs of
    [extract_all_data_from_endpoint] that return are exactly the runs the
    specification describes: paging stops at the configured page limit
    without a request, after a page request that returned no result (its
    attempts failed) or a page without records, and after a page with fewer
    records than the requested page size, whose records are kept; it goes
    on to the next page, after the rate-limit pause, exactly after a page
    with at least that many records. The result is the records of the
    pages received, in order. And a run raises only the error of a body
    that does not decode: the last call it made was answered 200 with that
    body. *)
Theorem C3_paging_stops `{Libraries} (cfg : Settings)
    (endpoint_name : string) (max_pages : option Z) (s : state) :
  0 <= api_retry_delay cfg -> 0 <= etl_rate_limit_delay cfg ->
  max_pages <> Some 0 ->
  misa_crm_page_size cfg <= misa_crm_max_page_size cfg ->
  serves_page_results s ->
  (forall data s',
     (exists fuel,
        extract_all_data_from_endpoint cfg fuel endpoint_name max_pages s =
          (Ok (Some data), s')) <->
     paging_run cfg endpoint_name max_pages 0 [] s data s') /\
  (forall fuel e s',
     extract_all_data_from_endpoint cfg fuel endpoint_name max_pages s =
       (Raise e, s') ->
     exists calls prior req,
       calls_made s s' calls /\
       calls = prior ++ [(req, Response 200 (Raise e))]).
Proof.
  intros Hdelay Hrate Hlimit Hsize Hserves. split.
  - intros data s'. split.
    + intros (fuel & Hrun). by eapply loop_is_run.
    + by apply run_is_loop.
  - intros fuel e s' Hrun. by eapply loop_raises.
Qed.

Lemma scripted_serves_page_results (sizes : list nat) :
  serves_page_results (scripted (data_response <$> sizes)).
Proof.
  intros n req code body. cbn. rewrite list_lookup_fmap.
  destruct (sizes !! n) as [size|]; cbn; [|done].
  by intros [= <- <-].
Qed.

(** The scenario of the specification: pages of 50 and 10 records with a
    page size of 50 give 60 records after two requests, and no third page
    is requested. *)
Lemma C3_paging_stops_witness :
  exists s',
    paging_run sample_settings "customers" None 0 []
      (scripted [data_response 50; data_response 10])
      (replicate 60 (VDict {["id" := VInt 1]})) s' /\
    gets (env s') = 2%nat.
Proof.
  destruct (C3_paging_stops sample_settings "customers" None
              (scripted [data_response 50; data_response 10]))
    as [Hruns _].
  - cbn; lia.
  - cbn; lia.
  - done.
  - cbn; lia.
  - apply (scripted_serves_page_results [50; 10]%nat).
  - eexists. split.
    + apply Hruns. exists 5%nat. vm_compute. reflexivity.
    + reflexivity.
Defined.

(** *** Failures that outlast the retries *)

Definition unreachable : state := scripted [].

Definition no_records : state := scripted [data_response 0].

(** C8, as first stated, fails: when every call to the data endpoint
    fails, the extraction returns the empty list without raising, exactly
    as it does for an endpoint that reports no records; and when the calls
    fail after a first full page, it returns that page's records without
    raising. *)
Lemma C8_failure_is_swallowed :
  (extract_all_data_from_endpoint sample_settings 5 "customers" None
     unreachable).1 = Ok (Some []) /\
  (extract_all_data_from_endpoint sample_settings 5 "customers" None
     no_records).1 = Ok (Some []) /\
  record_count
    (extract_all_data_from_endpoint sample_settings 5 "customers" None
       (scripted [data_response 50])) = Some 50%nat.
Proof. vm_compute. repeat split. Qed.

(** C8, amended. With a non-negative retry delay, take the request for a
    page, at any point of the paging loop, and the calls to the data
    endpoint it makes: at most the configured number of attempts. When
    none of these calls is answered 200, whatever the failures are, the
    page request returns [None] and the paging loop stops there: the
    extraction returns the records gathered from the earlier pages,
    possibly none, and does not raise. *)
Theorem C8_persistent_failure_ends_paging `{Libraries} (cfg : Settings)
    (fuel : nat) (endpoint_name : string) (max_pages : option Z) (page : Z)
    (all_data : list pyval) (s : state) :
  0 <= api_retry_delay cfg ->
  exists result s' calls,
    extract_endpoint_data cfg endpoint_name page
      (Some (misa_crm_page_size cfg)) ∅ s = (result, s') /\
    calls_made s s' calls /\
    (length calls <= Z.to_nat (api_retry_attempts cfg))%nat /\
    (Forall not_200 calls ->
     result = Ok VNone /\
     (limit_reached max_pages page = false ->
      extract_all_loop cfg (S fuel) endpoint_name max_pages page all_data s =
        (Ok (Some all_data), s'))).
Proof.
  intros Hdelay.
  destruct (extract_endpoint_data_made cfg endpoint_name page
              (Some (misa_crm_page_size cfg)) ∅ s Hdelay)
    as (result & s' & calls & Hfetch & Hmade & Hlen & Hfetched).
  exists result, s', calls. split; [done|]. split; [done|]. split; [done|].
  intros Hfailed.
  assert (result = Ok VNone) as ->.
  { destruct Hfetched as [[-> _]|(prior & req & -> & _)]; [done|].
    apply Forall_app in Hfailed as [_ Hlast].
    by apply Forall_cons in Hlast as [Hlast _]. }
  split; [done|]. intros Hlimit. by eapply loop_no_data.
Qed.

(** The state of the paging loop after a first page of 50 records. *)
Definition after_first_page : state :=
  slept 1 (requested (page_request sample_settings "customers" "/Customers"
                        0 (scripted [data_response 50]))
             (scripted [data_response 50])).

(** A first page of 50 records, then no call is answered: the three
    attempts for page 1 fail and the 50 records are returned. *)
Lemma C8_persistent_failure_ends_paging_witness :
  0 <= api_retry_delay sample_settings /\
  extract_all_data_from_endpoint sample_settings 5 "customers" None
    (scripted [data_response 50]) =
  extract_all_loop sample_settings 4 "customers" None 1
    (replicate 50 (VDict {["id" := VInt 1]})) after_first_page /\
  exists s',
    extract_all_loop sample_settings 4 "customers" None 1
      (replicate 50 (VDict {["id" := VInt 1]})) after_first_page =
      (Ok (Some (replicate 50 (VDict {["id" := VInt 1]}))), s') /\
    gets (env s') = 4%nat.
Proof.
  assert (0 <= api_retry_delay sample_settings) as Hdelay by (cbn; lia).
  split; [exact Hdelay|]. split; [vm_compute; reflexivity|].
  destruct (C8_persistent_failure_ends_paging sample_settings 3 "customers"
              None 1 (replicate 50 (VDict {["id" := VInt 1]}))
              after_first_page Hdelay)
    as (result & s' & calls & Hfetch & Hmade & Hlen & Hstop).
  exists s'.
  assert (Forall not_200 calls) as Hfailed.
  { destruct Hmade as (_ & _ & _ & Hanswers).
    apply Forall_lookup_2. intros i [req answer] Hi.
    apply Hanswers in Hi. unfold not_200. cbn [snd]. by rewrite <- Hi. }
  destruct (Hstop Hfailed) as [-> Hloop]. split; [by apply Hloop|].
  clear -Hfetch.
  assert (s' = (extract_endpoint_data sample_settings "customers" 1
                  (Some (misa_crm_page_size sample_settings)) ∅
                  after_first_page).2) as -> by (by rewrite Hfetch).
  vm_compute. reflexivity.
Defined.

End PagingRuns.

(** ** Incremental extraction *)

Module IncrementalProofs.
Import Extractor Samples ExtractorProofs.

(** A record last modified on 1 January 2000, the timestamp written with
    the UTC designator, and the same record with a plain timestamp. *)
Definition old_record_utc : pyval :=
  VDict (<["id" := VInt 1]>
           {["modified_date" := VStr "2000-01-01T00:00:00Z"]}).

Definition old_record_plain : pyval :=
  VDict (<["id" := VInt 1]>
           {["modified_date" := VStr "2000-01-01T00:00:00"]}).

(** The clock reads 14 November 2023; the data endpoint delivers one page
    holding the given records. *)
Definition serving (l : list pyval) : state :=
  mkState (sample_extractor (VStr "token-1") (Some 1800000000))
    (mkWorld 1700000000 (fun _ _ => token_response)
       (fun _ _ => Response 200 (Ok (VDict {["data" := VList l]}))) 0 0 []).

(** A timestamp that carries a UTC offset is kept whatever the cutoff:
    comparing it with the offset-less cutoff raises, and the handler
    includes the record. *)
Lemma keep_record_aware `{Libraries} (cutoff : Z) (d : gmap string pyval)
    (s : string) (t offset : Z) :
  d !! "modified_date" = Some (VStr s) -> s <> EmptyString ->
  datetime_fromisoformat (replace_Z s) = Ok (mkDatetime t (Some offset)) ->
  keep_record (mkDatetime cutoff None) (VDict d) = Ok true.
Proof.
  intros Hd Hs Hparse. unfold keep_record. cbn [py_get bind].
  unfold dict_get. rewrite Hd. cbn [default from_option]. unfold id.
  cbn [truthy]. destruct s as [|c s]; [done|]. cbn [String.eqb negb].
  by rewrite Hparse.
Qed.

(** A plain timestamp is compared with the cutoff. *)
Lemma keep_record_naive `{Libraries} (cutoff : Z) (d : gmap string pyval)
    (s : string) (t : Z) :
  d !! "modified_date" = Some (VStr s) -> s <> EmptyString ->
  datetime_fromisoformat (replace_Z s) = Ok (mkDatetime t None) ->
  keep_record (mkDatetime cutoff None) (VDict d) = Ok (cutoff <=? t).
Proof.
  intros Hd Hs Hparse. unfold keep_record. cbn [py_get bind].
  unfold dict_get. rewrite Hd. cbn [default from_option]. unfold id.
  cbn [truthy]. destruct s as [|c s]; [done|]. cbn [String.eqb negb].
  by rewrite Hparse.
Qed.

(** A record without a modification timestamp, or with one that does not
    parse, is kept. *)
Lemma keep_record_fail_open `{Libraries} (cutoff : datetime)
    (d : gmap string pyval) :
  (truthy (dict_get d "modified_date") = false \/
   exists s e, d !! "modified_date" = Some (VStr s) /\
     datetime_fromisoformat (replace_Z s) = Raise e) ->
  keep_record cutoff (VDict d) = Ok true.
Proof.
  unfold keep_record. cbn [py_get bind]. intros [Hfalsy|(s & e & Hd & Hparse)].
  - by rewrite Hfalsy.
  - unfold dict_get. rewrite Hd. cbn [default from_option]. unfold id.
    destruct (truthy (VStr s)); [|done]. by rewrite Hparse.
Qed.

(** **** The filter over the extracted records *)

Section Filter.
Context `{Libraries} (cfg : Settings).

(** With a positive page limit the paging loop ends within the limit:
    fuel beyond the pages left is never used up. *)
Lemma extract_all_loop_bounded (fuel : nat) :
  forall (endpoint_name : string) (m page : Z) (all_data : list pyval)
         (s : state),
  0 < m -> (Z.to_nat (m - page) < fuel)%nat ->
  (extract_all_loop cfg fuel endpoint_name (Some m) page all_data s).1
    <> Ok None.
Proof.
  induction fuel as [|fuel IH]; intros endpoint_name m page all_data s Hm Hfuel;
    [lia|].
  cbn [extract_all_loop].
  destruct (limit_reached (Some m) page) eqn:Hlimit; [done|].
  assert (page < m) as Hpage.
  { cbn [limit_reached] in Hlimit. apply andb_false_iff in Hlimit.
    destruct Hlimit as [Hzero|Hle].
    - apply negb_false_iff, Z.eqb_eq in Hzero. lia.
    - apply Z.leb_gt in Hle. lia. }
  unfold mbind.
  destruct (extract_endpoint_data cfg endpoint_name page _ ∅ s)
    as [[result|e] s1]; [|done].
  unfold lift. destruct (page_has_no_data result) as [[|]|]; [done| |done].
  destruct (subscript_data result) as [batch_data|]; [|done].
  destruct (batch_items batch_data) as [items|]; [|done].
  destruct (Z.of_nat (length items) <? misa_crm_page_size cfg); [done|].
  destruct (time_sleep (etl_rate_limit_delay cfg) s1) as [[[]|] s2]; [|done].
  apply IH; [done|lia].
Qed.

(** A record is kept when its check answers true. *)
Definition kept_by (cutoff_time : datetime) (record : pyval) : bool :=
  match keep_record cutoff_time record with
  | Ok true => true
  | _ => false
  end.

(** On dictionaries the loop over the records is a filter. *)
Lemma filter_records_spec (cutoff_time : datetime) (all_data : list pyval) :
  Forall (fun record => MisaTransformer.is_dict record = true) all_data ->
  forall filtered_data,
  filter_records cutoff_time all_data filtered_data =
    Ok (filtered_data ++ List.filter (kept_by cutoff_time) all_data).
Proof.
  induction 1 as [|record rest Hdict _ IH]; intros filtered_data.
  - cbn. by rewrite app_nil_r.
  - destruct record as [| | | | | | | |d]; try discriminate.
    cbn [filter_records List.filter]. unfold kept_by at 1.
    assert (exists b, keep_record cutoff_time (VDict d) = Ok b) as [b Hb].
    { unfold keep_record. cbn [py_get bind].
      destruct (truthy (dict_get d "modified_date")); [|eauto].
      destruct (dict_get d "modified_date"); eauto.
      destruct (datetime_fromisoformat (replace_Z s)) as [dt|]; [|eauto].
      cbn [bind]. destruct (datetime_ge dt cutoff_time); eauto. }
    rewrite Hb. cbn [bind]. destruct b; rewrite IH; [|done].
    by rewrite <- app_assoc.
Qed.

(** The incremental extraction asks for at most ten pages, so eleven
    units of fuel always give its outcome. *)
Lemma extract_incremental_data_outcome (endpoint_name : string)
    (lookback_hours : option Z) (s : state) :
  (extract_incremental_data cfg 11 endpoint_name lookback_hours s).1
    <> Ok None.
Proof.
  unfold extract_incremental_data, extract_all_data_from_endpoint, mbind.
  pose proof (extract_all_loop_bounded 11 endpoint_name 10 0 [] s
                ltac:(lia) ltac:(cbn; lia)) as Hbounded.
  destruct (extract_all_loop cfg 11 endpoint_name (Some 10) 0 [] s)
    as [[[all_data|]|e] s1]; cbn [fst] in *; [|done|done].
  destruct all_data as [|record all_data]; [done|].
  unfold datetime_now, lift.
  by destruct (filter_records _ _ _).
Qed.

End Filter.

(** C5 at the failing input: with a look-back of 24 hours, the record
    modified in 2000 and stamped with the UTC designator is returned,
    while the same record with a plain timestamp is filtered out. *)
Lemma C5_utc_timestamp_escapes_filter :
  (extract_incremental_data sample_settings 11 "customers" (Some 24)
     (serving [old_record_utc])).1 = Ok (Some [old_record_utc]) /\
  (extract_incremental_data sample_settings 11 "customers" (Some 24)
     (serving [old_record_plain])).1 = Ok (Some []) /\
  datetime_fromisoformat (replace_Z "2000-01-01T00:00:00Z") =
    Ok (mkDatetime 946684800 (Some 0)) /\
  946684800 < 1700000000 - 24 * 3600.
Proof. vm_compute. repeat split. Qed.

End IncrementalProofs.

(** ** Loading *)

Module LoadersProofs.
Import Loaders.

(** A database that keeps, per table, the rows written to it; a table
    named [locked] rejects every write. *)
Definition tables : Type := gmap string (list row).

Definition write_rows (table : string) (rs : list row) (db : tables)
  : res unit * tables :=
  if String.eqb table "locked" then (Raise DatabaseError, db)
  else (Ok tt, <[table := default [] (db !! table) ++ rs]> db).

#[export] Instance sample_database : Database tables :=
  {| engine_ready := fun _ => true;
     initialize := fun db => (true, db);
     to_sql := fun df table _ _ _ db => write_rows table (rows df) db;
     execute := fun _ db => (Ok tt, db);
     pyodbc_connect := fun db => (Ok tt, db);
     pyodbc_table_columns := fun _ _ db => (Ok [], db);
     pyodbc_executemany := fun _ _ _ _ db => (Ok tt, db) |}.

#[export] Instance sample_frame_ops : FrameOps :=
  {| astype_str := fun v => match v with VStr s => s | _ => "None"%string end;
     any_negative := fun _ => Ok false |}.

Definition sample_loader_settings : Settings :=
  {| staging_schema := "staging"; staging_table_orders := "orders";
     misa_crm_etl_batch_size := 1000;
     table_mappings := {["customers" := "staging.misa_customers"%string]} |}.

(** C10. Given a frame without rows, both loaders return [True] at once
    and leave the database as it was: no statement reaches it. *)
Theorem C10_empty_load_is_noop {DB : Type} `{Database DB} `{FrameOps}
    (settings : Settings) (df : DataFrame) (db : DB) :
  rows df = [] ->
  (forall load_mode validate_before_load,
     load_orders settings df load_mode validate_before_load db = (true, db)) /\
  load_incremental_orders settings df db = (true, db) /\
  (forall endpoint if_exists,
     load_dataframe_to_staging settings df endpoint if_exists db = (true, db)).
Proof.
  intros Hrows.
  assert (empty df = true) as Hempty.
  { unfold empty. by rewrite bool_decide_eq_true_2. }
  unfold load_orders, load_incremental_orders, load_dataframe_to_staging.
  by rewrite Hempty.
Qed.

Lemma C10_empty_load_is_noop_witness :
  load_orders sample_loader_settings (mkDataFrame {["order_id"]} [])
    "append" true (∅ : tables) = (true, ∅) /\
  load_dataframe_to_staging sample_loader_settings DataFrame_new
    "customers" "append" (∅ : tables) = (true, ∅).
Proof.
  split.
  - apply (proj1 (C10_empty_load_is_noop sample_loader_settings
                    (mkDataFrame {["order_id"]} []) ∅ eq_refl)).
  - apply (proj2 (proj2 (C10_empty_load_is_noop sample_loader_settings
                           DataFrame_new ∅ eq_refl))).
Defined.


End LoadersProofs.

(** ** Validation before loading *)

Module Validation.
Import LoadersProofs.

(** An order that came without an order id, as the API may deliver it. *)
Definition orders_without_id : list pyval :=
  [VDict {["order_status" := VStr "UNPAID"]}].

Definition frame_without_id : DataFrame :=
  TikTokTransformer.transform_orders_to_dataframe
    (H := Flattening.sample_builtins) (VStr "batch-1") 0 orders_without_id.

(** The transformer's validation looks at null order ids only to log
    them: a frame with rows, the two required columns and hashable order
    ids is accepted. *)
Lemma validate_dataframe_accepts (df : DataFrame) :
  empty df = false ->
  has_column df "order_id" = true -> has_column df "etl_batch_id" = true ->
  forallb hashable (series df "order_id") = true ->
  TikTokTransformer.validate_dataframe df = true.
Proof.
  intros Hempty Hid Hbatch Hhash. unfold TikTokTransformer.validate_dataframe.
  rewrite Hempty. cbn [filter list_filter].
  rewrite !decide_False by (rewrite ?Hid, ?Hbatch; done).
  by rewrite Hhash.
Qed.

(** C4 at the failing input: the frame built from an order without an
    order id has one row, whose order id is null; the transformer's
    [validate_dataframe] returns [True] on it, while the loader's
    [_validate_dataframe] returns [False]. *)
Lemma C4_null_order_id_passes_transformer_validation :
  series frame_without_id "order_id" = [VNone] /\
  isnull_sum frame_without_id "order_id" = 1%nat /\
  TikTokTransformer.validate_dataframe frame_without_id = true /\
  Loaders._validate_dataframe frame_without_id = false.
Proof. vm_compute. repeat split. Qed.

End Validation.

(** ** The cycle over the endpoints *)

Module OrchestratorProofs.
Import Orchestrator.



Section Isolation.
Context {S : Type} `{Components S}.






End Isolation.



Section Cycle.
Context {S : Type} `{Components S}.








End Cycle.


End OrchestratorProofs.

(** ** Failure isolation across endpoints *)

Module CycleProperties.
Import Orchestrator OrchestratorProofs.

(** Stand-in components that log their calls: extracting sale orders
    raises, customers yield two records that load, products yield one
    record whose load is refused, the other endpoints have no data. *)
Definition sample_frame (n : nat) : DataFrame :=
  mkDataFrame {["id"%string]} (replicate n {["id"%string := VInt 1]}).

Definition sample_extract (endpoint_name : string) : list string -> res (list pyval) * list string :=
  fun calls =>
    let calls := calls ++ ["extract " +:+ endpoint_name] in
    if String.eqb endpoint_name "sale_orders"
    then (Raise JSONDecodeError, calls)
    else if String.eqb endpoint_name "customers"
    then (Ok [VDict ∅; VDict ∅], calls)
    else if String.eqb endpoint_name "products"
    then (Ok [VDict ∅], calls)
    else (Ok [], calls).

#[export] Instance sample_components : Components (list string) :=
  {| clock := fun _ => 0;
     misa_extractor_set := fun _ => true;
     initialize_components := fun calls => (true, calls);
     extract_all_data_from_endpoint := fun endpoint_name _ =>
       sample_extract endpoint_name;
     transform_sale_orders_flattened := fun raw calls =>
       (Ok (sample_frame (length raw)), calls);
     transform_by_name := fun _ raw calls =>
       (Ok (sample_frame (length raw)), calls);
     load_dataframe_to_staging := fun _ table calls =>
       (Ok (negb (String.eqb table "products")), calls ++ ["load " +:+ table]);
     extract_recent_orders := fun _ calls => (Ok [], calls);
     transform_orders_to_dataframe := fun raw calls =>
       (Ok (sample_frame (length raw)), calls);
     load_incremental_orders := fun _ calls => (Ok true, calls);
     quality_connect := fun calls => (Ok tt, calls);
     quality_count := fun _ calls => (Ok 1, calls);
     record_cycle_metrics := fun _ calls => (Ok VNone, calls) |}.




(** C9. When the load of a MISA endpoint returns [False], whatever made
    the loader give up, the endpoint is recorded with status
    [duplicate_skipped] and no loaded records, and the loop goes on with
    the remaining endpoints. The only statuses the loop records are
    [no_data], [success], [duplicate_skipped] and [error]: none is
    specific to a failed load. *)
Theorem C9_load_failure_recorded_as_duplicate {S : Type} `{Components S}
    (e : endpoint) (rest : list endpoint)
    (results : gmap string endpoint_result) (s s1 s2 s3 : S)
    (raw_data : list pyval) (df : DataFrame) :
  extract_all_data_from_endpoint (name e) MISA_MAX_PAGES_PER_CYCLE s =
    (Ok raw_data, s1) ->
  raw_data <> [] ->
  (if String.eqb (name e) "sale_orders"
   then transform_sale_orders_flattened raw_data
   else transform_by_name ("transform_" +:+ name e) raw_data) s1 =
    (Ok df, s2) ->
  load_dataframe_to_staging df (table e) s2 = (Ok false, s3) ->
  process_endpoints (e :: rest) results s =
    process_endpoints rest
      (<[name e := mkResult "duplicate_skipped" 0 (Some (length raw_data))
                     (Some (len df)) None]> results) s3 /\
  (forall e' results' s',
     exists r,
       (process_endpoint e' results' s').1 = <[name e' := r]> results' /\
       status r ∈ ["no_data"; "success"; "duplicate_skipped"; "error"]%string).
Proof.
  intros Hextract Hraw Htransform Hload. split.
  - cbn [process_endpoints]. unfold process_endpoint, endpoint_pipeline.
    rewrite (mbind_ok _ _ _ _ _ Hextract).
    destruct raw_data as [|record raw_data]; [done|].
    rewrite (mbind_ok _ _ _ _ _ Htransform).
    by rewrite (mbind_ok _ _ _ _ _ Hload).
  - intros e' results' s'. unfold process_endpoint.
    destruct (endpoint_pipeline e' s') as [[r|ex] s''] eqn:Hrun.
    2:{ exists (error_result ex). split; [done|]. cbn. set_solver. }
    exists r. split; [done|]. revert Hrun. unfold endpoint_pipeline, mbind.
    destruct (extract_all_data_from_endpoint _ _ s') as [[raw|] t1]; [|done].
    destruct raw as [|record raw].
    { intros [= <- _]. cbn. set_solver. }
    destruct ((if String.eqb (name e') "sale_orders"
               then transform_sale_orders_flattened (record :: raw)
               else transform_by_name ("transform_" +:+ name e')
                      (record :: raw)) t1) as [[df'|] t2]; [|done].
    destruct (load_dataframe_to_staging df' (table e') t2) as [[[|]|] t3];
      [| |done]; intros [= <- _]; cbn; set_solver.
Qed.

Lemma C9_load_failure_recorded_as_duplicate_witness :
  (process_endpoints [mkEndpoint "products" "products" 5] ∅ []).1
    !! "products" =
    Some (mkResult "duplicate_skipped" 0 (Some 1%nat) (Some 1%nat) None).
Proof.
  destruct (C9_load_failure_recorded_as_duplicate (H := sample_components)
              (mkEndpoint "products" "products" 5) [] ∅
              [] ["extract products"%string] ["extract products"%string]
              ["extract products"; "load products"]%string
              [VDict ∅] (sample_frame 1)) as [Hrun _];
    [reflexivity|done|reflexivity|reflexivity|].
  rewrite Hrun. cbn [process_endpoints fst]. apply lookup_insert_eq.
Defined.

End CycleProperties.

(** ** Dictionaries in insertion order *)

Module OrderedDictFacts.
Import OrderedDict.

Lemma od_insert_fresh {A} (key : string) (v : A) (d : list (string * A)) :
  key ∉ d.*1 -> od_insert key v d = d ++ [(key, v)].
Proof.
  induction d as [|[k x] d IH]; intros Hfresh; [done|].
  rewrite fmap_cons, not_elem_of_cons in Hfresh. destruct Hfresh as [Hne Hd].
  cbn. cbn in Hne. destruct (String.eqb k key) eqn:Heq.
  - apply String.eqb_eq in Heq. congruence.
  - by rewrite IH.
Qed.

End OrderedDictFacts.

Module LoaderProperties.
Import Loaders.

(** *** Table names *)

Fixpoint dot_free (s : string) : bool :=
  match s with
  | EmptyString => true
  | String c rest => negb (Ascii.eqb c "."%char) && dot_free rest
  end.

Lemma append_assoc (a b c : string) : (a +:+ b) +:+ c = a +:+ (b +:+ c).
Proof.
  induction a as [|x a IH]; [done|].
  change (String x ((a +:+ b) +:+ c) = String x (a +:+ (b +:+ c))).
  by rewrite IH.
Qed.

Lemma append_empty_r (a : string) : a +:+ "" = a.
Proof.
  induction a as [|x a IH]; [done|].
  change (String x (a +:+ "") = String x a). by rewrite IH.
Qed.

Lemma split_dot_dot_free (s current : string) :
  dot_free s = true -> split_dot s current = [current +:+ s].
Proof.
  revert current. induction s as [|c s IH]; intros current Hfree.
  - simpl. by rewrite append_empty_r.
  - simpl in *. apply andb_true_iff in Hfree as [Hc Hs].
    apply negb_true_iff in Hc. rewrite Hc, IH by done.
    by rewrite append_assoc.
Qed.

Lemma split_dot_append (s t current : string) :
  dot_free s = true ->
  split_dot (s +:+ "." +:+ t) current = (current +:+ s) :: split_dot t "".
Proof.
  revert current. induction s as [|c s IH]; intros current Hfree.
  - simpl. by rewrite append_empty_r.
  - simpl in *. apply andb_true_iff in Hfree as [Hc Hs].
    apply negb_true_iff in Hc. rewrite Hc, IH by done.
    by rewrite append_assoc.
Qed.

Lemma split_dot_nonempty (s current : string) : split_dot s current <> [].
Proof.
  revert current. induction s as [|c s IH]; intros current; [done|].
  simpl. by destruct (Ascii.eqb c ".").
Qed.

(** A single part: there was no dot. *)
Lemma split_dot_one (s current b : string) :
  split_dot s current = [b] -> dot_free s = true /\ b = current +:+ s.
Proof.
  revert current. induction s as [|c s IH]; intros current Hsplit.
  - simpl in *. injection Hsplit as <-. by rewrite append_empty_r.
  - simpl in *. destruct (Ascii.eqb c ".") eqn:Hc.
    + injection Hsplit as _ Hrest. by apply split_dot_nonempty in Hrest.
    + destruct (IH _ Hsplit) as [Hfree ->]. split; [done|].
      by rewrite append_assoc.
Qed.

(** Exactly two parts: there was exactly one dot. *)
Lemma split_dot_two (s current a b : string) :
  split_dot s current = [a; b] ->
  exists s1, dot_free s1 = true /\ dot_free b = true /\
    s = s1 +:+ "." +:+ b /\ a = current +:+ s1.
Proof.
  revert current. induction s as [|c s IH]; intros current Hsplit; [done|].
  simpl in Hsplit. destruct (Ascii.eqb c ".") eqn:Hc.
  - apply Ascii.eqb_eq in Hc. subst c. injection Hsplit as <- Hrest.
    apply split_dot_one in Hrest as [Hfree ->].
    exists ""%string. by rewrite append_empty_r.
  - destruct (IH _ Hsplit) as (s1 & Hs1 & Hb & -> & ->).
    exists (String c s1). simpl. rewrite Hc. repeat split; try done.
    by rewrite append_assoc.
Qed.

(** A name of the form schema.table is taken apart into its two halves and
    a name without a dot is put into the schema [staging]; these are the
    only two outcomes: any other name, one with two dots say, is kept
    whole as a table of [staging]. *)
Theorem get_table_info_round_trip (schema table : string) :
  dot_free schema = true -> dot_free table = true ->
  _get_table_info (schema +:+ "." +:+ table) = (schema, table) /\
  _get_table_info table = ("staging"%string, table) /\
  forall name,
    _get_table_info name = ("staging"%string, name) \/
    exists schema' table',
      dot_free schema' = true /\ dot_free table' = true /\
      name = schema' +:+ "." +:+ table' /\
      _get_table_info name = (schema', table').
Proof.
  intros Hschema Htable. unfold _get_table_info. split; [|split].
  - rewrite split_dot_append by done.
    by rewrite (split_dot_dot_free table "" Htable).
  - by rewrite (split_dot_dot_free table "" Htable).
  - intros name.
    destruct (split_dot name "") as [|a [|b [|c parts]]] eqn:Hsplit;
      [by left|by left| |by left].
    right. apply split_dot_two in Hsplit as (s1 & Hs1 & Hb & -> & ->).
    by exists s1, b.
Qed.

Lemma get_table_info_round_trip_witness :
  _get_table_info "staging.misa_customers" =
    ("staging"%string, "misa_customers"%string) /\
  _get_table_info "misa_customers" =
    ("staging"%string, "misa_customers"%string).
Proof.
  destruct (get_table_info_round_trip "staging" "misa_customers"
              eq_refl eq_refl) as (Hsplit & Hplain & _).
  split; [exact Hsplit|exact Hplain].
Defined.

End LoaderProperties.

Module PrepareProperties.
Import Loaders.

(** *** Preparing a frame for the load *)

Lemma substring_length (n : nat) (s : string) :
  (String.length (String.substring 0 n s) <= n)%nat.
Proof.
  revert s. induction n as [|n IH]; intros s.
  - by destruct s.
  - destruct s as [|c s]; simpl; [lia|]. specialize (IH s). lia.
Qed.

(** Every row holds, under [col], a string of at most [n] characters. *)
Definition bounded_text (col : string) (n : nat) (rs : list row) : Prop :=
  Forall (fun r : row => exists s, r !! col = Some (VStr s) /\
                            (String.length s <= n)%nat) rs.

Section Prepare.
Context `{FrameOps}.

(** One step of the loop over [string_columns]. *)
Definition cut_column (df : DataFrame) (entry : string * nat) : DataFrame :=
  let '(col, max_length) := entry in
  if has_column df col
  then set_series df col
         ((fun v => VStr (String.substring 0 max_length (astype_str v)))
            <$> series df col)
  else df.

Lemma cut_column_shape (df : DataFrame) (entry : string * nat) :
  columns (cut_column df entry) = columns df /\
  length (rows (cut_column df entry)) = length (rows df).
Proof.
  destruct entry as [col n]. unfold cut_column, has_column.
  destruct (bool_decide (col ∈ columns df)) eqn:Hcol; [|done].
  apply bool_decide_eq_true in Hcol. cbn [set_series columns rows]. split.
  - apply subseteq_union_1_L, singleton_subseteq_l. exact Hcol.
  - rewrite length_zip_with, length_fmap. unfold series.
    rewrite length_fmap. lia.
Qed.

Lemma cut_column_same (df : DataFrame) (col : string) (n : nat) :
  has_column df col = true ->
  bounded_text col n (rows (cut_column df (col, n))).
Proof.
  intros Hcol. unfold cut_column. rewrite Hcol. cbn [set_series rows].
  unfold series, bounded_text.
  induction (rows df) as [|r rs IH]; [constructor|].
  cbn. constructor; [|exact IH].
  eexists. rewrite lookup_insert_eq. split; [done|apply substring_length].
Qed.

Lemma cut_column_other (df : DataFrame) (entry : string * nat)
    (col : string) (n : nat) :
  entry.1 <> col ->
  bounded_text col n (rows df) ->
  bounded_text col n (rows (cut_column df entry)).
Proof.
  destruct entry as [col' n']. cbn [fst]. intros Hne Hb. unfold cut_column.
  destruct (has_column df col'); [|done]. cbn [set_series rows].
  unfold bounded_text in *. revert Hb.
  generalize ((fun v => VStr (String.substring 0 n' (astype_str v)))
                <$> series df col') as values.
  induction (rows df) as [|r rs IH]; intros values Hb; [constructor|].
  destruct values as [|v values]; [constructor|].
  apply Forall_cons in Hb as [(s & Hs & Hlen) Hb].
  cbn. constructor; [|by apply IH].
  exists s. by rewrite lookup_insert_ne.
Qed.

Lemma cut_columns_keep (entries : list (string * nat)) (df : DataFrame)
    (col : string) (n : nat) :
  col ∉ entries.*1 ->
  bounded_text col n (rows df) ->
  bounded_text col n (rows (foldl cut_column df entries)).
Proof.
  revert df. induction entries as [|entry entries IH]; intros df Hnotin Hb;
    [done|].
  cbn [foldl]. rewrite fmap_cons, not_elem_of_cons in Hnotin.
  destruct Hnotin as [Hne Hnotin].
  apply IH; [done|]. by apply cut_column_other.
Qed.

Lemma cut_columns_shape (entries : list (string * nat)) (df : DataFrame) :
  columns (foldl cut_column df entries) = columns df /\
  length (rows (foldl cut_column df entries)) = length (rows df).
Proof.
  revert df. induction entries as [|entry entries IH]; intros df; [done|].
  cbn [foldl]. destruct (IH (cut_column df entry)) as [-> ->].
  apply cut_column_shape.
Qed.

Lemma cut_columns_bounded (entries : list (string * nat)) (df : DataFrame)
    (col : string) (n : nat) :
  NoDup entries.*1 -> (col, n) ∈ entries -> has_column df col = true ->
  bounded_text col n (rows (foldl cut_column df entries)).
Proof.
  revert df. induction entries as [|entry entries IH];
    intros df Hnodup Hin Hcol; [by apply elem_of_nil in Hin|].
  rewrite fmap_cons in Hnodup. apply NoDup_cons in Hnodup as [Hnotin Hnodup].
  cbn [foldl]. apply elem_of_cons in Hin as [<-|Hin].
  - apply cut_columns_keep; [done|]. by apply cut_column_same.
  - apply IH; [done|done|].
    unfold has_column in *. by rewrite (proj1 (cut_column_shape df entry)).
Qed.

Lemma prepare_unfold (df : DataFrame) :
  _prepare_dataframe_for_load df =
    let df_prepared := foldl cut_column df string_columns in
    mkDataFrame (columns df_prepared)
      ((fun r : row => (fun v => if isna v then VNone else v) <$> r)
         <$> rows df_prepared).
Proof. reflexivity. Qed.

End Prepare.

(** The frame handed to the database has the rows and the columns of the
    frame it was prepared from, and every cell of a column listed in
    [string_columns] is a string no longer than the length listed for the
    column. *)
Theorem prepare_dataframe_for_load_bounds `{FrameOps} (df : DataFrame) :
  len (_prepare_dataframe_for_load df) = len df /\
  columns (_prepare_dataframe_for_load df) = columns df /\
  forall col max_length,
    (col, max_length) ∈ string_columns -> has_column df col = true ->
    Forall (fun v => exists s, v = VStr s /\
                       (String.length s <= max_length)%nat)
      (series (_prepare_dataframe_for_load df) col).
Proof.
  rewrite prepare_unfold. cbv zeta.
  pose proof (cut_columns_shape string_columns df) as [Hcols Hlen].
  assert (forall col n, (col, n) ∈ string_columns ->
            has_column df col = true ->
            bounded_text col n (rows (foldl cut_column df string_columns)))
    as Hbounded.
  { intros col n. apply cut_columns_bounded.
    apply (bool_decide_unpack _). by vm_compute. }
  revert Hcols Hlen Hbounded.
  generalize (foldl cut_column df string_columns) as df_prepared.
  intros df_prepared Hcols Hlen Hbounded. split; [|split].
  - unfold len. cbn [rows]. rewrite length_fmap. exact Hlen.
  - cbn [columns]. exact Hcols.
  - intros col n Hin Hcol. unfold series. cbn [rows].
    rewrite <- list_fmap_compose. apply Forall_fmap.
    eapply Forall_impl; [exact (Hbounded col n Hin Hcol)|].
    intros r (s & Hs & Hlen'). exists s. split; [|exact Hlen'].
    cbn. unfold cell. rewrite lookup_fmap, Hs. reflexivity.
Qed.

End PrepareProperties.

Module LoadGuards.
Import Loaders LoadersProofs.

(** *** What the staging loader refuses *)

Definition required_columns : list string :=
  ["order_id"; "etl_batch_id"; "etl_created_at"; "etl_updated_at"].






End LoadGuards.

Module MisaLoaderProofs.
Import Loaders OrderedDict OrderedDictFacts MisaLoader.

(** What the loop records for one frame. *)
Definition counted (item : string * DataFrame) (entry : string * nat) : Prop :=
  entry.1 = item.1 /\
  (entry.2 = 0%nat \/ entry.2 = len item.2) /\
  (empty item.2 = true -> entry.2 = 0%nat).

Section WithDatabase.
Context {DB : Type} `{Database DB} `{FrameOps} `{Queries DB}
  (settings : Settings).

Lemma load_endpoints_counts (truncate_first : bool)
    (items : list (string * DataFrame)) :
  forall (loaded_counts : list (string * nat)) (db : DB),
  NoDup (loaded_counts.*1 ++ items.*1) ->
  exists new,
    (load_endpoints settings truncate_first items loaded_counts db).1 =
      loaded_counts ++ new /\
    Forall2 counted items new /\
    (Forall (fun item => empty item.2 = true) items ->
     (load_endpoints settings truncate_first items loaded_counts db).2 = db).
Proof.
  induction items as [|[endpoint df] items IH]; intros loaded_counts db Hnodup.
  - exists []. cbn. by rewrite app_nil_r.
  - rewrite fmap_cons in Hnodup. cbn [fst] in Hnodup.
    assert (endpoint ∉ loaded_counts.*1) as Hfresh.
    { apply NoDup_app in Hnodup as (_ & Hdisj & _).
      intros Hin. apply (Hdisj _ Hin). by left. }
    assert (forall n, NoDup ((loaded_counts ++ [(endpoint, n)]).*1 ++ items.*1))
      as Hnodup'.
    { intros n. rewrite fmap_app, <- app_assoc. exact Hnodup. }
    cbn [load_endpoints]. unfold load_endpoint.
    destruct (empty df) eqn:Hempty.
    + rewrite od_insert_fresh by done.
      destruct (IH (loaded_counts ++ [(endpoint, 0%nat)]) db (Hnodup' _))
        as (new & Hrun & Hnew & Hdb).
      exists ((endpoint, 0%nat) :: new). rewrite Hrun, <- app_assoc.
      split; [done|]. split.
      * constructor; [|done]. split; [done|]. split; [by left|done].
      * intros Hall. apply Forall_cons in Hall as [_ Hall]. by apply Hdb.
    + set (db1 := if truncate_first
                  then (truncate_table settings endpoint db).2 else db).
      destruct (load_dataframe_to_staging settings df endpoint "append" db1)
        as [success db2].
      rewrite od_insert_fresh by done.
      destruct (IH (loaded_counts ++
                      [(endpoint, if success then len df else 0%nat)]) db2
                  (Hnodup' _)) as (new & Hrun & Hnew & _).
      eexists (_ :: new). rewrite Hrun, <- app_assoc.
      split; [done|]. split.
      * constructor; [|done]. split; [done|]. cbn [snd].
        split; [destruct success; auto|]. by rewrite Hempty.
      * intros Hall. apply Forall_cons in Hall as [Hdf _]. cbn in Hdf.
        congruence.
Qed.

Lemma counted_sum (items : list (string * DataFrame))
    (counts : list (string * nat)) :
  Forall2 counted items counts ->
  (sum_list counts.*2 <= sum_list ((fun item => len item.2) <$> items))%nat.
Proof.
  induction 1 as [|item entry items counts (_ & Hn & _) _ IH]; [done|].
  cbn. destruct Hn as [-> | ->]; lia.
Qed.


End WithDatabase.

(** *** What a passed validation says of the tables *)


Section Checks.
Context {DB : Type} `{Queries DB}.





End Checks.

End MisaLoaderProofs.

Module MisaLoaderProperties.
Import Loaders LoadersProofs MisaLoader MisaLoaderProofs.

(** Queries that find five rows, the newest written ten seconds ago. *)
#[export] Instance sample_queries : Queries tables :=
  {| select_count := fun _ db => (Ok 5, db);
     select_max_etl_created_at := fun _ db => (Ok (Some 990), db);
     datetime_now := fun _ => 1000 |}.

Definition sample_rows (n : nat) : DataFrame :=
  mkDataFrame {["id"%string]} (replicate n {["id"%string := VInt 1]}).

(** [load_all_data_to_staging] records one count per frame, in the order
    of the frames: the number of rows of the frame or 0, and 0 for a frame
    without rows; so the counts add up to no more than the rows handed in.
    When no frame has rows the database is not touched, whether or not
    truncation was asked for. *)
Theorem load_all_data_to_staging_counts {DB : Type} `{Database DB}
    `{FrameOps} (settings : Settings)
    (transformed_data : list (string * DataFrame)) (truncate_first : bool)
    (db : DB) :
  NoDup transformed_data.*1 ->
  let result :=
    load_all_data_to_staging settings transformed_data truncate_first db in
  Forall2 counted transformed_data result.1 /\
  (sum_list result.1.*2 <=
   sum_list ((fun item => len item.2) <$> transformed_data))%nat /\
  (Forall (fun item => empty item.2 = true) transformed_data ->
   result.2 = db).
Proof.
  intros Hnodup. cbv zeta. unfold load_all_data_to_staging.
  destruct (load_endpoints_counts settings truncate_first transformed_data
              [] db Hnodup) as (new & Hrun & Hnew & Hdb).
  rewrite Hrun. cbn [app].
  split; [done|]. split; [by apply counted_sum|done].
Qed.

Lemma load_all_data_to_staging_counts_witness :
  (load_all_data_to_staging sample_loader_settings
     [("customers"%string, sample_rows 2);
      ("contacts"%string, sample_rows 3);
      ("stocks"%string, DataFrame_new)] true (∅ : tables)).1 =
    [("customers"%string, 2%nat); ("contacts"%string, 0%nat);
     ("stocks"%string, 0%nat)] /\
  Forall2 counted
    [("customers"%string, sample_rows 2);
     ("contacts"%string, sample_rows 3);
     ("stocks"%string, DataFrame_new)]
    [("customers"%string, 2%nat); ("contacts"%string, 0%nat);
     ("stocks"%string, 0%nat)].
Proof.
  assert (NoDup [("customers"%string, sample_rows 2);
                 ("contacts"%string, sample_rows 3);
                 ("stocks"%string, DataFrame_new)].*1) as Hnodup.
  { apply (bool_decide_unpack _). by vm_compute. }
  pose proof (load_all_data_to_staging_counts sample_loader_settings _ true
                (∅ : tables) Hnodup) as (Hcounted & _).
  split; [reflexivity|exact Hcounted].
Defined.



(** *** The pyodbc fallback *)









End MisaLoaderProperties.

Module ExtractorProperties.
Import Extractor Samples ExtractorProofs OrderedDict OrderedDictFacts
  HealthCheck.

(** *** Endpoint names that are not configured *)

Section Unknown.
Context `{Libraries} (cfg : Settings).

Lemma extract_endpoint_data_unknown (endpoint_name : string) (page : Z)
    (page_size : option Z) (params : gmap string pyval) (s : state) :
  endpoints (self s) !! endpoint_name = None ->
  extract_endpoint_data cfg endpoint_name page page_size params s =
    (Ok VNone, s).
Proof.
  intros Hnone. unfold extract_endpoint_data.
  rewrite (mbind_ok _ _ s s (self s)) by done. by rewrite Hnone.
Qed.

Lemma extract_all_unknown (fuel : nat) (endpoint_name : string)
    (max_pages : option Z) (s : state) :
  endpoints (self s) !! endpoint_name = None ->
  extract_all_data_from_endpoint cfg (S fuel) endpoint_name max_pages s =
    (Ok (Some []), s).
Proof.
  intros Hnone. unfold extract_all_data_from_endpoint.
  destruct (limit_reached max_pages 0) eqn:Hlimit.
  - by apply PagingProofs.loop_at_limit.
  - apply (PagingProofs.loop_no_data cfg fuel endpoint_name max_pages 0 []
             s s VNone Hlimit);
      [by apply extract_endpoint_data_unknown|reflexivity].
Qed.

End Unknown.

(** An endpoint name outside the configured ones is no error: the page
    request returns [None] and both extractions return the empty list,
    without a call to the token endpoint or to a data endpoint and without
    any other change of state; the health check reports such an endpoint
    as unhealthy. *)
Theorem unknown_endpoint_is_silently_empty `{Libraries} (cfg : Settings)
    (endpoint_name : string) (s : state) :
  endpoints (self s) !! endpoint_name = None ->
  (forall page page_size params,
     extract_endpoint_data cfg endpoint_name page page_size params s =
       (Ok VNone, s)) /\
  (forall fuel max_pages,
     extract_all_data_from_endpoint cfg (S fuel) endpoint_name max_pages s =
       (Ok (Some []), s)) /\
  (forall fuel lookback_hours,
     extract_incremental_data cfg (S fuel) endpoint_name lookback_hours s =
       (Ok (Some []), s)) /\
  check_endpoint cfg endpoint_name s = (Unhealthy, s).
Proof.
  intros Hnone. split; [|split; [|split]].
  - intros. by apply extract_endpoint_data_unknown.
  - intros. by apply extract_all_unknown.
  - intros. unfold extract_incremental_data.
    by rewrite (mbind_ok _ _ _ _ _
                  (extract_all_unknown cfg fuel endpoint_name (Some 10) s
                     Hnone)).
  - unfold check_endpoint.
    by rewrite (mbind_ok _ _ _ _ _
                  (extract_endpoint_data_unknown cfg endpoint_name 0 (Some 1)
                     ∅ s Hnone)).
Qed.

Lemma unknown_endpoint_is_silently_empty_witness :
  extract_all_data_from_endpoint sample_settings 3 "orders" None
    (scripted [data_response 5]) = (Ok (Some []), scripted [data_response 5]).
Proof.
  destruct (unknown_endpoint_is_silently_empty sample_settings "orders"
              (scripted [data_response 5]) eq_refl) as (_ & Hall & _).
  apply Hall.
Defined.

End ExtractorProperties.

Module TokenRefused.
Import Extractor Samples ExtractorProofs HealthCheck.

(** *** A token endpoint that grants nothing *)

(** Whether an answer of the token endpoint carries a credential. *)
Definition grants (o : http_outcome) : bool :=
  match o with
  | Response code (Ok (VDict d)) =>
      (code =? 200) && truthy (dict_get d "success") &&
      bool_decide (is_Some (d !! "data"))
  | _ => false
  end.

Definition never_grants (s : state) : Prop :=
  forall n req, grants (auth_server (env s) n req) = false.

Section Refused.
Context `{Libraries} (cfg : Settings).

Lemma request_new_token_refused (s : state) :
  grants (auth_server (env s) (posts (env s)) (token_request cfg (self s)))
    = false ->
  request_new_token cfg s =
    (Ok VNone, posted (token_request cfg (self s)) s).
Proof.
  intros Hrefused. unfold request_new_token, try_except, mbind,
    requests_post, ret.
  destruct (auth_server (env s) (posts (env s)) (token_request cfg (self s)))
    as [|code body]; cbn [outcome_result]; [done|].
  cbn [status_code json]. cbn [grants] in Hrefused.
  destruct (code =? 200); [|done].
  unfold lift. destruct body as [result|]; [|done].
  destruct result as [| | | | | | | |d]; try done.
  cbn [py_get]. cbn [andb] in Hrefused. by rewrite Hrefused.
Qed.

Lemma stale_posted (r : request) (s : state) :
  credential_is_fresh cfg (posted r s) = credential_is_fresh cfg s.
Proof. done. Qed.

Lemma stale_slept (seconds : Z) (s : state) :
  0 <= seconds ->
  credential_is_fresh cfg s = false ->
  credential_is_fresh cfg (slept seconds s) = false.
Proof.
  intros Hpos. unfold credential_is_fresh, cached_credential.
  cbn [slept self env now].
  destruct (token_expires_at (self s)) as [e|]; [|done].
  destruct (truthy (access_token (self s))); [|done].
  rewrite !Z.ltb_ge. lia.
Qed.

(** Without a usable credential [_get_headers] raises after one call to
    the token endpoint. *)
Lemma get_headers_refused (s : state) :
  credential_is_fresh cfg s = false -> never_grants s ->
  _get_headers cfg s =
    (Raise ValueError, posted (token_request cfg (self s)) s).
Proof.
  intros Hstale Hnever. unfold _get_headers.
  erewrite mbind_ok.
  2:{ rewrite get_access_token_stale by done.
      apply request_new_token_refused, Hnever. }
  done.
Qed.

(** The state after the attempts numbered [a], ..., [a + k - 1] each asked
    for a token in vain and backed off. *)
Fixpoint after_refusals (a : Z) (k : nat) (s : state) : state :=
  match k with
  | O => s
  | S k =>
      let s := posted (token_request cfg (self s)) s in
      after_refusals (a + 1) k
        (if a <? api_retry_attempts cfg - 1
         then slept (api_retry_delay cfg * (a + 1)) s else s)
  end.

Lemma after_refusals_counts (k : nat) (a : Z) (s : state) :
  gets (env (after_refusals a k s)) = gets (env s) /\
  posts (env (after_refusals a k s)) = (posts (env s) + k)%nat /\
  self (after_refusals a k s) = self s.
Proof.
  revert a s. induction k as [|k IH]; intros a s.
  - cbn. by rewrite Nat.add_0_r.
  - cbn [after_refusals].
    destruct (IH (a + 1)
                (if a <? api_retry_attempts cfg - 1
                 then slept (api_retry_delay cfg * (a + 1))
                        (posted (token_request cfg (self s)) s)
                 else posted (token_request cfg (self s)) s))
      as (-> & -> & ->).
    destruct (a <? api_retry_attempts cfg - 1); cbn; repeat split; lia.
Qed.

Lemma attempt_refused (attempt : Z) (method url : string)
    (params : gmap string pyval) (s : state) :
  0 <= api_retry_delay cfg -> 0 <= attempt ->
  credential_is_fresh cfg s = false -> never_grants s ->
  request_attempt cfg attempt method url params s =
    (Ok (if attempt <? api_retry_attempts cfg - 1
         then Continue else Return None),
     after_refusals attempt 1 s).
Proof.
  intros Hdelay Hattempt Hstale Hnever. rewrite request_attempt_unfold.
  erewrite try_except_raise.
  2:{ unfold attempt_body. apply mbind_raise.
      by apply get_headers_refused. }
  unfold attempt_handler. cbn [after_refusals].
  destruct (attempt <? api_retry_attempts cfg - 1); [|done].
  erewrite mbind_ok by (apply time_sleep_ok; nia). done.
Qed.

Lemma after_refusals_stale (a : Z) (s : state) :
  0 <= api_retry_delay cfg -> 0 <= a ->
  credential_is_fresh cfg s = false -> never_grants s ->
  credential_is_fresh cfg (after_refusals a 1 s) = false /\
  never_grants (after_refusals a 1 s).
Proof.
  intros Hdelay Ha Hstale Hnever. cbn [after_refusals].
  destruct (a <? api_retry_attempts cfg - 1); split; try done.
  apply stale_slept; [nia|done].
Qed.

Lemma attempts_refused (len : nat) :
  forall (a : nat) (method url : string) (params : gmap string pyval)
         (s : state),
  0 <= api_retry_delay cfg ->
  Z.of_nat (a + len) = Z.max 0 (api_retry_attempts cfg) ->
  credential_is_fresh cfg s = false -> never_grants s ->
  request_attempts cfg (Z.of_nat <$> seq a len) method url params s =
    (Ok None, after_refusals (Z.of_nat a) len s).
Proof.
  induction len as [|len IH];
    intros a method url params s Hdelay Hlast Hstale Hnever; [done|].
  cbn [seq fmap list_fmap request_attempts].
  rewrite (mbind_ok _ _ _ _ _
             (attempt_refused (Z.of_nat a) method url params s Hdelay
                ltac:(lia) Hstale Hnever)).
  destruct (after_refusals_stale (Z.of_nat a) s Hdelay ltac:(lia) Hstale
              Hnever) as [Hstale' Hnever'].
  destruct (Z.of_nat a <? api_retry_attempts cfg - 1) eqn:Hmore.
  - replace (Z.of_nat a + 1) with (Z.of_nat (S a)) in * by lia.
    rewrite (IH (S a)); try done; [|lia].
    cbn [after_refusals]. rewrite Hmore.
    by replace (Z.of_nat a + 1) with (Z.of_nat (S a)) by lia.
  - apply Z.ltb_ge in Hmore. destruct len as [|len]; [|lia].
    done.
Qed.

End Refused.

(** While the token endpoint grants nothing and no fresh credential is
    cached, a request with retry never reaches the data endpoint: every
    attempt asks the token endpoint once, and the request returns [None].
    An extraction then returns the empty list, as it does for an endpoint
    without records. *)
Theorem no_credential_no_data_request `{Libraries} (cfg : Settings)
    (s : state) :
  0 <= api_retry_delay cfg ->
  credential_is_fresh cfg s = false -> never_grants s ->
  (forall method url params,
     exists s',
       _make_request_with_retry cfg method url params s = (Ok None, s') /\
       gets (env s') = gets (env s) /\
       posts (env s') =
         (posts (env s) + Z.to_nat (api_retry_attempts cfg))%nat /\
       self s' = self s) /\
  (forall fuel endpoint_name max_pages,
     exists s',
       extract_all_data_from_endpoint cfg (S fuel) endpoint_name max_pages s
         = (Ok (Some []), s') /\
       gets (env s') = gets (env s)).
Proof.
  intros Hdelay Hstale Hnever.
  assert (forall method url params,
            exists s',
              _make_request_with_retry cfg method url params s = (Ok None, s')
              /\ gets (env s') = gets (env s) /\
              posts (env s') =
                (posts (env s) + Z.to_nat (api_retry_attempts cfg))%nat /\
              self s' = self s) as Hretry.
  { intros method url params. unfold _make_request_with_retry, range.
    rewrite (attempts_refused cfg (Z.to_nat (api_retry_attempts cfg)) 0
               method url params s Hdelay ltac:(lia) Hstale Hnever).
    eexists. split; [reflexivity|]. apply after_refusals_counts. }
  split; [exact Hretry|].
  intros fuel endpoint_name max_pages. unfold extract_all_data_from_endpoint.
  destruct (limit_reached max_pages 0) eqn:Hlimit.
  { exists s. split; [|done]. by apply PagingProofs.loop_at_limit. }
  assert (exists s', extract_endpoint_data cfg endpoint_name 0
                       (Some (misa_crm_page_size cfg)) ∅ s = (Ok VNone, s') /\
                     gets (env s') = gets (env s)) as (s' & Hfetch & Hgets).
  { unfold extract_endpoint_data.
    rewrite (mbind_ok _ _ s s (self s)) by done.
    destruct (endpoints (self s) !! endpoint_name) as [path|];
      [|by exists s].
    cbv zeta.
    match goal with |- context [_make_request_with_retry cfg ?m ?u ?p] =>
      destruct (Hretry m u p) as (s' & Hrun & Hgets & _) end.
    rewrite (mbind_ok _ _ _ _ _ Hrun). by exists s'. }
  exists s'. split; [|done].
  by apply (PagingProofs.loop_no_data cfg fuel endpoint_name max_pages 0 []
              s s' VNone Hlimit).
Qed.

(** The token endpoint is down and nothing is cached. *)
Definition locked_out : state :=
  mkState (sample_extractor VNone None)
    (mkWorld 1000 (fun _ _ => ConnectionFailed)
       (fun _ _ => data_response 5) 0 0 []).

Lemma no_credential_no_data_request_witness :
  exists s',
    extract_all_data_from_endpoint sample_settings 3 "customers" None
      locked_out = (Ok (Some []), s') /\
    gets (env s') = 0%nat.
Proof.
  destruct (no_credential_no_data_request sample_settings locked_out)
    as [_ Hall].
  - cbn. lia.
  - reflexivity.
  - intros n req. reflexivity.
  - apply Hall.
Defined.

End TokenRefused.

Module RequestBounds.
Import Extractor Samples ExtractorProofs HealthCheck.

(** *** How many calls an extraction makes *)

(** From [s] to [s'] at most [g] calls went to the data endpoints and at
    most [p] to the token endpoint. *)
Definition calls_within (g p : nat) (s s' : state) : Prop :=
  (gets (env s) <= gets (env s') <= gets (env s) + g)%nat /\
  (posts (env s) <= posts (env s') <= posts (env s) + p)%nat.

Lemma calls_within_refl (s : state) : calls_within 0 0 s s.
Proof. unfold calls_within. lia. Qed.

Lemma calls_within_trans (g1 p1 g2 p2 : nat) (s1 s2 s3 : state) :
  calls_within g1 p1 s1 s2 -> calls_within g2 p2 s2 s3 ->
  calls_within (g1 + g2) (p1 + p2) s1 s3.
Proof. unfold calls_within. lia. Qed.

Lemma calls_within_weaken (g p g' p' : nat) (s s' : state) :
  (g <= g')%nat -> (p <= p')%nat ->
  calls_within g p s s' -> calls_within g' p' s s'.
Proof. unfold calls_within. lia. Qed.

Section Bounds.
Context `{Libraries} (cfg : Settings).

Lemma time_sleep_calls (seconds : Z) (s : state) :
  calls_within 0 0 s (time_sleep seconds s).2.
Proof.
  unfold time_sleep, calls_within. destruct (seconds <? 0); cbn; lia.
Qed.

Lemma get_access_token_calls (force_refresh : bool) (s : state) :
  calls_within 0 1 s (get_access_token cfg force_refresh s).2.
Proof.
  assert (calls_within 0 1 s (request_new_token cfg s).2) as Hnew.
  { destruct (request_new_token_round_trip cfg s)
      as (r & s' & -> & (Hposts & Hgets & _) & _).
    unfold calls_within. cbn [snd]. lia. }
  destruct force_refresh; [done|].
  destruct (credential_is_fresh cfg s) eqn:Hfresh.
  - rewrite get_access_token_fresh by done.
    eapply calls_within_weaken; [| |apply calls_within_refl]; lia.
  - by rewrite get_access_token_stale.
Qed.

Lemma get_headers_calls (s : state) :
  calls_within 0 1 s (_get_headers cfg s).2.
Proof.
  unfold _get_headers, mbind.
  pose proof (get_access_token_calls false s) as Hcalls.
  destruct (get_access_token cfg false s) as [[token|e] s1]; [|done].
  by destruct (truthy token).
Qed.

Lemma attempt_handler_calls (attempt : Z) (s : state) :
  calls_within 0 0 s (attempt_handler cfg attempt s).2.
Proof.
  unfold attempt_handler. destruct (attempt <? api_retry_attempts cfg - 1);
    [|apply calls_within_refl].
  unfold mbind. pose proof (time_sleep_calls (api_retry_delay cfg * (attempt + 1)) s) as Hs.
  by destruct (time_sleep _ s) as [[[]|e] s1].
Qed.

Lemma attempt_body_calls (attempt : Z) (method url : string)
    (params : gmap string pyval) (s : state) :
  calls_within 1 2 s (attempt_body cfg attempt method url params s).2.
Proof.
  unfold attempt_body, mbind.
  pose proof (get_headers_calls s) as Hhead.
  destruct (_get_headers cfg s) as [[token|e] s1]; cbn [snd] in *.
  2:{ eapply calls_within_weaken; [| |exact Hhead]; lia. }
  set (req := mkRequest method url params token (api_timeout cfg)).
  assert (calls_within 1 1 s (requested req s1)) as Hreq.
  { unfold calls_within in *. cbn. lia. }
  unfold requests_request.
  destruct (outcome_result (api_server (env s1) (gets (env s1)) req))
    as [response|e]; cbn [snd].
  2:{ eapply calls_within_weaken; [| |exact Hreq]; lia. }
  destruct (status_code response =? 200); cbn [ret snd].
  { eapply calls_within_weaken; [| |exact Hreq]; lia. }
  destruct (status_code response =? 401); cbn [ret snd].
  2:{ eapply calls_within_weaken; [| |exact Hreq]; lia. }
  pose proof (get_access_token_calls true (requested req s1)) as Hforce.
  destruct (get_access_token cfg true (requested req s1)) as [[t2|e] s3];
    cbn [snd] in *.
  2:{ apply (calls_within_trans 1 1 0 1 _ _ _ Hreq Hforce). }
  pose proof (calls_within_trans 1 1 0 1 _ _ _ Hreq Hforce) as H13.
  destruct (attempt <? api_retry_attempts cfg - 1); [|done].
  pose proof (time_sleep_calls (api_retry_delay cfg) s3) as Hsleep.
  destruct (time_sleep (api_retry_delay cfg) s3) as [[[]|e] s4];
    cbn [snd] in *;
    apply (calls_within_trans 1 2 0 0 _ _ _ H13 Hsleep).
Qed.

Lemma request_attempt_calls (attempt : Z) (method url : string)
    (params : gmap string pyval) (s : state) :
  calls_within 1 2 s (request_attempt cfg attempt method url params s).2.
Proof.
  rewrite request_attempt_unfold. unfold try_except.
  pose proof (attempt_body_calls attempt method url params s) as Hbody.
  destruct (attempt_body cfg attempt method url params s) as [[r|e] s1];
    [done|].
  cbn [snd] in Hbody.
  apply (calls_within_trans 1 2 0 0 _ _ _ Hbody),
    attempt_handler_calls.
Qed.

Lemma request_attempts_calls (attempts : list Z) (method url : string)
    (params : gmap string pyval) (s : state) :
  calls_within (length attempts) (2 * length attempts) s
    (request_attempts cfg attempts method url params s).2.
Proof.
  revert s. induction attempts as [|attempt attempts IH]; intros s.
  - apply calls_within_refl.
  - cbn [request_attempts length]. unfold mbind.
    pose proof (request_attempt_calls attempt method url params s) as Hone.
    destruct (request_attempt cfg attempt method url params s)
      as [[r|e] s1]; cbn [snd] in *.
    2:{ eapply calls_within_weaken; [| |exact Hone]; lia. }
    destruct r as [resp|].
    + cbn [ret snd]. eapply calls_within_weaken; [| |exact Hone]; lia.
    + eapply calls_within_weaken;
        [| |apply (calls_within_trans _ _ _ _ _ _ _ Hone (IH s1))]; lia.
Qed.

(** The number of attempts configured. *)
Definition attempts : nat := Z.to_nat (api_retry_attempts cfg).

Lemma extract_endpoint_data_calls (endpoint_name : string) (page : Z)
    (page_size : option Z) (params : gmap string pyval) (s : state) :
  calls_within attempts (2 * attempts) s
    (extract_endpoint_data cfg endpoint_name page page_size params s).2.
Proof.
  unfold extract_endpoint_data.
  rewrite (mbind_ok _ _ s s (self s)) by done.
  destruct (endpoints (self s) !! endpoint_name) as [path|].
  2:{ eapply calls_within_weaken; [| |apply calls_within_refl]; lia. }
  cbv zeta. unfold mbind, _make_request_with_retry.
  match goal with |- context [request_attempts cfg ?a ?m ?u ?p s] =>
    pose proof (request_attempts_calls a m u p s) as Hcalls;
    destruct (request_attempts cfg a m u p s) as [[r|e] s1] end;
    cbn [snd] in *.
  all: unfold range in Hcalls;
    rewrite length_fmap, length_seq in Hcalls; fold attempts in Hcalls.
  2:{ done. }
  destruct r as [r|]; [|done].
  by destruct (status_code r <? 400).
Qed.

Lemma extract_all_loop_calls (fuel : nat) :
  forall (endpoint_name : string) (m page : Z) (all_data : list pyval)
         (s : state),
  0 < m ->
  let k := Z.to_nat (m - page) in
  calls_within (k * attempts) (2 * (k * attempts)) s
    (extract_all_loop cfg fuel endpoint_name (Some m) page all_data s).2.
Proof.
  induction fuel as [|fuel IH]; intros endpoint_name m page all_data s Hm k.
  { eapply calls_within_weaken; [| |apply calls_within_refl]; lia. }
  cbn [extract_all_loop].
  destruct (limit_reached (Some m) page) eqn:Hlimit.
  { eapply calls_within_weaken; [| |apply calls_within_refl]; lia. }
  assert (page < m) as Hpage.
  { cbn [limit_reached] in Hlimit. apply andb_false_iff in Hlimit.
    destruct Hlimit as [Hzero|Hle].
    - apply negb_false_iff, Z.eqb_eq in Hzero. lia.
    - apply Z.leb_gt in Hle. lia. }
  assert (k = S (Z.to_nat (m - (page + 1)))) as Hk by (unfold k; lia).
  unfold mbind.
  pose proof (extract_endpoint_data_calls endpoint_name page
                (Some (misa_crm_page_size cfg)) ∅ s) as Hpage_calls.
  destruct (extract_endpoint_data cfg endpoint_name page _ ∅ s)
    as [[result|e] s1]; cbn [snd] in *.
  2:{ eapply calls_within_weaken; [| |exact Hpage_calls]; nia. }
  assert (calls_within (k * attempts) (2 * (k * attempts)) s s1) as Hdone.
  { eapply calls_within_weaken; [| |exact Hpage_calls]; nia. }
  unfold lift. destruct (page_has_no_data result) as [[|]|]; [done| |done].
  destruct (subscript_data result) as [batch_data|]; [|done].
  destruct (batch_items batch_data) as [items|]; [|done].
  destruct (Z.of_nat (length items) <? misa_crm_page_size cfg); [done|].
  pose proof (time_sleep_calls (etl_rate_limit_delay cfg) s1) as Hsleep.
  destruct (time_sleep (etl_rate_limit_delay cfg) s1) as [[[]|e] s2];
    cbn [snd] in *.
  2:{ eapply calls_within_weaken;
        [| |apply (calls_within_trans _ _ _ _ _ _ _ Hpage_calls Hsleep)];
        nia. }
  pose proof (IH endpoint_name m (page + 1) (all_data ++ items) s2 Hm)
    as Hrest. cbv zeta in Hrest.
  eapply calls_within_weaken;
    [| |apply (calls_within_trans _ _ _ _ _ _ _
                 (calls_within_trans _ _ _ _ _ _ _ Hpage_calls Hsleep)
                 Hrest)]; nia.
Qed.

End Bounds.

(** With a page limit of [m] pages, [m] positive, an extraction ends
    within [m] rounds of the loop, so that [m + 1] units of fuel give its
    outcome, and whatever the servers answer it makes at most [m] times
    the configured number of attempts calls to the data endpoint and at
    most twice as many calls to the token endpoint. *)
Theorem page_limit_bounds_calls `{Libraries} (cfg : Settings) (fuel : nat)
    (endpoint_name : string) (m : Z) (s : state) :
  0 < m ->
  let run := extract_all_data_from_endpoint cfg fuel endpoint_name (Some m) s in
  ((Z.to_nat m < fuel)%nat -> run.1 <> Ok None) /\
  calls_within (Z.to_nat m * attempts cfg) (2 * (Z.to_nat m * attempts cfg))
    s run.2.
Proof.
  intros Hm run. split.
  - intros Hfuel.
    apply (IncrementalProofs.extract_all_loop_bounded cfg fuel endpoint_name
             m 0 [] s Hm).
    by rewrite Z.sub_0_r.
  - pose proof (extract_all_loop_calls cfg fuel endpoint_name m 0 [] s Hm)
      as Hcalls.
    cbv zeta in Hcalls. by rewrite Z.sub_0_r in Hcalls.
Qed.

(** A data endpoint that answers 401 to every call. *)
Definition unauthorized_api : state :=
  mkState (sample_extractor (VStr "token-1") (Some 1000000))
    (mkWorld 1000 (fun _ _ => token_response)
       (fun _ _ => Response 401 (Ok VNone)) 0 0 []).

(** With the limits of the production cycle, two pages and three
    attempts. *)
Lemma page_limit_bounds_calls_witness :
  (gets_after
     (extract_all_data_from_endpoint sample_settings 3 "customers"
        (Some 2%Z) unauthorized_api) <= 6)%nat.
Proof.
  destruct (page_limit_bounds_calls sample_settings 3 "customers" 2
              unauthorized_api ltac:(lia))
    as [_ [[_ Hgets] _]].
  exact Hgets.
Defined.

End RequestBounds.

Module HealthCheckProofs.
Import Extractor Samples EffectsFacts ExtractorProofs CallsMade PagingRuns
  OrderedDict OrderedDictFacts HealthCheck.

(** *** The health check *)

(** The extractor keeps its address and its endpoints. *)
Definition same_address (s s' : state) : Prop :=
  base_url (self s') = base_url (self s) /\
  endpoints (self s') = endpoints (self s).

Lemma same_address_refl (s : state) : same_address s s.
Proof. by split. Qed.

Lemma same_address_trans (s1 s2 s3 : state) :
  same_address s1 s2 -> same_address s2 s3 -> same_address s1 s3.
Proof. intros [? ?] [? ?]. split; congruence. Qed.

(** The calls of a probe of [endpoint_name]: GET requests to the
    endpoint's address, for page 0 with a page size of 1. *)
Definition probe_call `{Libraries} (cfg : Settings) (e : extractor)
    (endpoint_name : string) (call : request * http_outcome) : Prop :=
  exists path,
    endpoints e !! endpoint_name = Some path /\
    sent_as cfg "GET" (base_url e +:+ path)
      (request_params_for cfg endpoint_name 0 1 ∅) call.

(** The last of the calls was answered 200 with a body that is truthy and
    has a [data] entry. *)
Definition answered_with_data (calls : list (request * http_outcome))
  : Prop :=
  exists prior req body,
    calls = prior ++ [(req, Response 200 (Ok body))] /\
    truthy body = true /\ contains_data body = Ok true.

(** A probe against the calls it made: at most the configured number of
    attempts, all to the endpoint probed; the endpoint is reported healthy
    exactly when the last call was answered 200 with data, and unhealthy
    when no call was answered 200. *)
Definition probe `{Libraries} (cfg : Settings) (e : extractor)
    (entry : string * endpoint_health)
    (calls : list (request * http_outcome)) : Prop :=
  (length calls <= Z.to_nat (api_retry_attempts cfg))%nat /\
  Forall (probe_call cfg e entry.1) calls /\
  (entry.2 = Healthy <-> answered_with_data calls) /\
  (Forall not_200 calls -> entry.2 = Unhealthy).

Section Health.
Context `{Libraries} (cfg : Settings).

Lemma request_new_token_address (s : state) :
  same_address s (request_new_token cfg s).2.
Proof.
  unfold request_new_token, try_except, mbind, requests_post, ret.
  destruct s as [e w]. cbn [self env].
  destruct (auth_server w (posts w) (token_request cfg e))
    as [|code body]; cbn [outcome_result]; [done|].
  cbn [status_code json].
  destruct (code =? 200); [|done].
  unfold lift. destruct body as [result|]; [|done].
  destruct result as [| | | | | | | |d]; try done.
  cbn [py_get].
  destruct (truthy (dict_get d "success") &&
            bool_decide (is_Some (d !! "data"))); [|done].
  unfold store_token at 1. cbn [self env client_id client_secret base_url
    endpoints token_expires_at].
  match goal with |- context [_decode_token_expiry ?t ?st] =>
    destruct (decode_token_expiry_total t st) as (expires_at & ->) end.
  done.
Qed.

Lemma get_access_token_address (force_refresh : bool) (s : state) :
  same_address s (get_access_token cfg force_refresh s).2.
Proof.
  destruct force_refresh; [apply request_new_token_address|].
  destruct (credential_is_fresh cfg s) eqn:Hfresh.
  - by rewrite get_access_token_fresh.
  - rewrite get_access_token_stale by done. apply request_new_token_address.
Qed.

Lemma request_attempt_address (attempt : Z) (method url : string)
    (params : gmap string pyval) (s : state) :
  same_address s (request_attempt cfg attempt method url params s).2.
Proof.
  unfold request_attempt, try_except, mbind, _get_headers, mbind, ret, throw,
    requests_request, time_sleep.
  pose proof (get_access_token_address false s) as H1.
  destruct (get_access_token cfg false s) as [[token|e] s1];
    cbn [fst snd] in H1.
  2:{ by repeat case_match; simplify_eq. }
  destruct (truthy token).
  2:{ by repeat case_match; simplify_eq. }
  destruct (api_server (env s1) (gets (env s1)) _) as [|code body];
    cbn [outcome_result].
  { by repeat case_match; simplify_eq. }
  cbn [status_code]. destruct (code =? 200); [done|].
  destruct (code =? 401); [|done].
  match goal with |- context [get_access_token cfg true ?st] =>
    pose proof (get_access_token_address true st) as H2;
    destruct (get_access_token cfg true st) as [[t2|e2] s2] end;
    cbn [fst snd] in H2.
  all: assert (same_address s s2) as H3
    by (eapply same_address_trans; [exact H1|exact H2]).
  all: by repeat case_match; simplify_eq.
Qed.

Lemma request_attempts_address (attempts : list Z) (method url : string)
    (params : gmap string pyval) :
  forall s,
    same_address s (request_attempts cfg attempts method url params s).2.
Proof.
  induction attempts as [|attempt attempts IH]; intros s; [done|].
  cbn [request_attempts]. unfold mbind.
  pose proof (request_attempt_address attempt method url params s) as H1.
  destruct (request_attempt cfg attempt method url params s)
    as [[[resp|]|e] s1]; cbn [fst snd] in H1; try done.
  eapply same_address_trans; [exact H1|apply IH].
Qed.

(** A page request against the calls it made and where it sent them. *)
Lemma extract_endpoint_data_sent (endpoint_name : string) (page : Z)
    (page_size : option Z) (params : gmap string pyval) (s : state) :
  0 <= api_retry_delay cfg ->
  exists result s' calls,
    extract_endpoint_data cfg endpoint_name page page_size params s =
      (result, s') /\
    calls_made s s' calls /\ same_address s s' /\
    (length calls <= Z.to_nat (api_retry_attempts cfg))%nat /\
    fetched result calls /\
    Forall (fun call => exists path,
              endpoints (self s) !! endpoint_name = Some path /\
              sent_as cfg "GET" (base_url (self s) +:+ path)
                (request_params_for cfg endpoint_name page
                   (default (misa_crm_page_size cfg) page_size) params) call)
      calls.
Proof.
  intros Hdelay. unfold extract_endpoint_data.
  rewrite (mbind_ok _ _ s s (self s)) by done.
  destruct (endpoints (self s) !! endpoint_name) as [path|].
  2:{ exists (Ok VNone), s, []. split; [done|]. split; [apply calls_made_refl|].
      split; [apply same_address_refl|]. split; [cbn; lia|].
      split; [|constructor]. left. by split; [|constructor]. }
  cbv zeta.
  match goal with |- context [_make_request_with_retry cfg ?m ?u ?p] =>
    pose proof (request_attempts_address (range (api_retry_attempts cfg))
                  m u p s) as Haddr;
    destruct (make_request_with_retry_calls cfg m u p s Hdelay)
      as (r & s' & calls & Hrun & Hmade & Hlen & Hsent & Hout) end.
  unfold _make_request_with_retry in Hrun. rewrite Hrun in Haddr.
  cbn [snd] in Haddr.
  change (request_attempts cfg (range (api_retry_attempts cfg)))
    with (_make_request_with_retry cfg) in Hrun.
  rewrite (mbind_ok _ _ _ _ _ Hrun).
  assert (Forall (fun call => exists path0,
              Some path = Some path0 /\
              sent_as cfg "GET" (base_url (self s) +:+ path0)
                (request_params_for cfg endpoint_name page
                   (default (misa_crm_page_size cfg) page_size) params) call)
            calls) as Hprobe.
  { eapply Forall_impl; [exact Hsent|]. intros call Hcall. by exists path. }
  destruct r as [resp|]; cbn in Hout.
  - destruct Hout as (H200 & prior & req & -> & Hprior). rewrite H200.
    change (200 <? 400) with true. cbv iota. unfold lift.
    exists (json resp), s', (prior ++ [(req, Response 200 (json resp))]).
    split; [done|]. split; [done|]. split; [done|]. split; [done|].
    split; [|done]. right. eauto.
  - exists (Ok VNone), s', calls. split; [done|]. split; [done|].
    split; [done|]. split; [done|]. split; [|done]. by left.
Qed.

Lemma not_200_last (prior : list (request * http_outcome)) (req : request)
    (body : res pyval) :
  ~ Forall not_200 (prior ++ [(req, Response 200 body)]).
Proof.
  intros Hall. apply Forall_app in Hall as [_ Hlast].
  by apply Forall_cons in Hlast as [Hlast _].
Qed.

Lemma check_endpoint_probe (endpoint_name : string) (s : state) :
  0 <= api_retry_delay cfg ->
  exists h s' calls,
    check_endpoint cfg endpoint_name s = (h, s') /\
    calls_made s s' calls /\ same_address s s' /\
    probe cfg (self s) (endpoint_name, h) calls.
Proof.
  intros Hdelay. unfold check_endpoint, mbind.
  destruct (extract_endpoint_data_sent endpoint_name 0 (Some 1) ∅ s Hdelay)
    as (r & s' & calls & -> & Hmade & Haddr & Hlen & Hfetched & Hsent).
  cbn [default from_option id] in Hsent.
  assert (forall h,
            (h = Healthy <-> answered_with_data calls) ->
            (Forall not_200 calls -> h = Unhealthy) ->
            exists h0 s0 calls0,
              (h, s') = (h0, s0) /\ calls_made s s0 calls0 /\
              same_address s s0 /\
              probe cfg (self s) (endpoint_name, h0) calls0) as Hdone.
  { intros h Hh Hnot. exists h, s', calls. split; [done|]. split; [done|].
    split; [done|]. split; [exact Hlen|]. split; [exact Hsent|]. by split. }
  destruct r as [result|e].
  2:{ apply Hdone.
      - split; [done|]. intros (prior & req & body & -> & _).
        destruct Hfetched as [[? _]|(prior' & req' & Heq & _)]; [done|].
        apply app_inj_tail in Heq as [_ Heq]. by simplify_eq.
      - intros Hall. destruct Hfetched as [[? _]|(prior' & req' & -> & _)];
          [done|]. by apply not_200_last in Hall. }
  assert (forall body, answered_with_data calls ->
            fetched (Ok body) calls ->
            truthy body = true /\ contains_data body = Ok true) as Hsame.
  { intros body (prior & req & body' & -> & Ht & Hc)
      [[_ Hall]|(prior' & req' & Heq & _)].
    - by apply not_200_last in Hall.
    - apply app_inj_tail in Heq as [_ Heq]. simplify_eq. by split. }
  assert (Forall not_200 calls -> result = VNone) as Hnone.
  { intros Hall. destruct Hfetched as [[[= ->] _]|(prior' & req' & -> & _)];
      [done|]. by apply not_200_last in Hall. }
  destruct (truthy result) eqn:Htruthy.
  2:{ apply Hdone; [|done]. split; [done|]. intros Hans.
      destruct (Hsame _ Hans Hfetched) as [Ht _]. congruence. }
  unfold lift.
  destruct (contains_data result) as [[|]|e] eqn:Hhas; cbn [ret fst snd];
    apply Hdone.
  - split; [|done]. intros _.
    destruct Hfetched as [[[= ->] _]|(prior & req & -> & _)]; [done|].
    by exists prior, req, result.
  - intros Hall. by rewrite (Hnone Hall) in Htruthy.
  - split; [done|]. intros Hans.
    destruct (Hsame _ Hans Hfetched) as [_ Hc]. congruence.
  - done.
  - split; [done|]. intros Hans.
    destruct (Hsame _ Hans Hfetched) as [_ Hc]. congruence.
  - intros Hall. by rewrite (Hnone Hall) in Htruthy.
Qed.

Lemma probe_address (s s' : state) (entry : string * endpoint_health)
    (calls : list (request * http_outcome)) :
  same_address s s' -> probe cfg (self s') entry calls ->
  probe cfg (self s) entry calls.
Proof.
  intros [Hbase Hends]. unfold probe, probe_call. by rewrite Hbase, Hends.
Qed.

Lemma check_endpoints_probes (names : list string) :
  forall (status : list (string * endpoint_health)) (s : state),
  0 <= api_retry_delay cfg ->
  NoDup (status.*1 ++ names) ->
  exists new s' probes,
    check_endpoints cfg names status s = (status ++ new, s') /\
    new.*1 = names /\
    calls_made s s' (concat probes) /\ same_address s s' /\
    Forall2 (probe cfg (self s)) new probes.
Proof.
  induction names as [|name names IH]; intros status s Hdelay Hnodup.
  - exists [], s, []. cbn. rewrite app_nil_r.
    split; [done|]. split; [done|]. split; [apply calls_made_refl|].
    split; [apply same_address_refl|constructor].
  - cbn [check_endpoints].
    destruct (check_endpoint_probe name s Hdelay)
      as (h & s1 & calls & -> & Hmade1 & Haddr1 & Hprobe).
    assert (name ∉ status.*1) as Hfresh.
    { apply NoDup_app in Hnodup as (_ & Hdisj & _).
      intros Hin. apply (Hdisj _ Hin). by left. }
    rewrite od_insert_fresh by done.
    destruct (IH (status ++ [(name, h)]) s1 Hdelay) as
      (new & s2 & probes & -> & Hkeys & Hmade2 & Haddr2 & Hprobes).
    { by rewrite fmap_app, <- app_assoc. }
    exists ((name, h) :: new), s2, (calls :: probes).
    rewrite <- app_assoc. split; [done|].
    split; [by rewrite fmap_cons, Hkeys|].
    split; [by eapply calls_made_trans|].
    split; [by eapply same_address_trans|].
    constructor; [done|].
    eapply Forall2_impl; [exact Hprobes|].
    intros entry c. by apply probe_address.
Qed.

End Health.

(** The names of the endpoints a report lists as not healthy. *)
Definition unhealthy_endpoints (h : health_status) : list string :=
  (filter (fun kv => is_healthy kv.2 = false) (endpoints_status h)).*1.

(** The health check either finds no usable token, and then reports token
    and overall status [unhealthy] without a call to a data endpoint, or
    probes the five endpoints in their order and reports [healthy] when
    none of them is unhealthy and [degraded] with their names otherwise.
    The calls made to the data endpoints are those of the five probes, one
    probe after the other: each probe sends at most the configured number
    of GET requests to its endpoint's address, for page 0 with page size
    1, and its endpoint is listed as healthy exactly when the last of
    these calls was answered 200 with a truthy body that has a [data]
    entry. *)
Theorem health_check_report `{Libraries} (cfg : Settings) (s : state) :
  0 <= api_retry_delay cfg ->
  let h := (health_check cfg s).1 in
  let s' := (health_check cfg s).2 in
  timestamp h = now (env s) /\
  (token_status h = TokenUnhealthy /\ overall_status h = OverallUnhealthy /\
   endpoints_status h = [] /\ calls_made s s' [] \/
   token_status h = TokenHealthy /\
   (endpoints_status h).*1 = endpoint_names /\
   (unhealthy_endpoints h = [] /\ overall_status h = OverallHealthy \/
    unhealthy_endpoints h <> [] /\
    overall_status h = Degraded (unhealthy_endpoints h)) /\
   exists probes,
     calls_made s s' (concat probes) /\
     Forall2 (probe cfg (self s)) (endpoints_status h) probes).
Proof.
  intros Hdelay. cbv zeta. unfold health_check.
  destruct (quiet_get_access_token cfg false s) as (token & s1 & Hrun & Hq).
  pose proof (get_access_token_address cfg false s) as Haddr.
  rewrite Hrun in Haddr |- *. cbn [snd] in Haddr.
  destruct (truthy token).
  2:{ split; [done|]. left. split; [done|]. split; [done|]. split; [done|].
      by apply quiet_calls_made. }
  destruct (check_endpoints_probes cfg endpoint_names [] s1 Hdelay)
    as (new & s2 & probes & -> & Hkeys & Hmade & Haddr2 & Hprobes).
  { apply (bool_decide_unpack _). by vm_compute. }
  cbn [fst snd app]. split; [done|]. right. unfold unhealthy_endpoints.
  cbn [token_status endpoints_status overall_status].
  split; [done|]. split; [done|]. split.
  - destruct ((filter _ new).*1); [by left|by right].
  - exists probes. split.
    + exact (calls_made_trans _ _ _ _ _ (quiet_calls_made _ _ Hq) Hmade).
    + eapply Forall2_impl; [exact Hprobes|].
      intros entry c. by apply probe_address.
Qed.

(** The first two probes are answered, the others not: each of the last
    three probes makes three calls that fail. *)
Lemma health_check_report_witness :
  let run := health_check sample_settings
               (scripted [data_response 1; data_response 1]) in
  overall_status run.1 = Degraded ["contacts"; "stocks"; "products"] /\
  gets (env run.2) = 11%nat /\
  exists probes,
    calls_made (scripted [data_response 1; data_response 1]) run.2
      (concat probes) /\
    Forall2 (probe sample_settings
               (self (scripted [data_response 1; data_response 1])))
      (endpoints_status run.1) probes.
Proof.
  cbv zeta.
  destruct (health_check_report sample_settings
              (scripted [data_response 1; data_response 1]) ltac:(cbn; lia))
    as [_ [(Htoken & _)|(_ & _ & _ & Hprobes)]].
  - vm_compute in Htoken. discriminate.
  - split; [vm_compute; reflexivity|]. split; [vm_compute; reflexivity|].
    exact Hprobes.
Defined.

End HealthCheckProofs.

Module MisaEndpointsProofs.
Import MisaTransformer MisaTransformerProofs MisaEndpoints.

(** A record and the row the frame holds for it: stamped with the batch
    and the source, and equal to the record on every column that is
    neither converted nor ETL metadata. *)
Definition kept (converted : list string) (batch_id : pyval)
    (record final : row) : Prop :=
  final !! "etl_batch_id" = Some batch_id /\
  final !! "etl_source" = Some (VStr "misa_crm_api") /\
  same_except (converted ++ etl_columns) record final.

Lemma add_etl_metadata_source (batch_id : pyval) (now : Z) (df : DataFrame) :
  Forall (fun r => r !! "etl_source" = Some (VStr "misa_crm_api"))
    (rows (_add_etl_metadata batch_id now df)).
Proof.
  unfold _add_etl_metadata, set_scalar. cbn [rows].
  rewrite Forall_fmap. apply Forall_forall. intros r _. cbn.
  by rewrite lookup_insert_eq.
Qed.

Section Transform.
Context `{Conversions} `{FrameConstructor} `{SeriesOps}.

Lemma convert_and_stamp_rows (numeric date boolean : list string)
    (batch_id : pyval) (now : Z) (df : DataFrame) :
  Forall2 (kept (numeric ++ date ++ boolean) batch_id) (rows df)
    (rows (convert_and_stamp numeric date boolean batch_id now df)).
Proof.
  unfold convert_and_stamp.
  match goal with |- Forall2 _ _ (rows (_add_etl_metadata _ _ ?d)) =>
    set (df3 := d) end.
  assert (Forall2 (same_except (numeric ++ date ++ boolean)) (rows df)
            (rows df3)) as Hconv.
  { unfold df3.
    eapply same_except_trans;
      [apply (convert_columns_rows to_numeric_coerce),
         to_numeric_coerce_length|].
    eapply same_except_trans;
      [apply (convert_columns_rows to_datetime_coerce),
         to_datetime_coerce_length|].
    apply convert_columns_rows, astype_bool_ignore_length. }
  pose proof (add_etl_metadata_rows batch_id now df3) as Hetl.
  pose proof (add_etl_metadata_source batch_id now df3) as Hsrc.
  revert Hconv Hetl Hsrc.
  generalize (rows (_add_etl_metadata batch_id now df3)) as rs3.
  generalize (rows df3) as rs2. generalize (rows df) as rs1.
  intros rs1 rs2 rs3 H12. revert rs3.
  induction H12 as [|r1 r2 rs1 rs2 Hr _ IH]; intros rs3 H23 Hsrc;
    inversion H23 as [|? r3 ? rs3' [Hb Hr3] H23']; subst; [constructor|].
  apply Forall_cons in Hsrc as [Hs Hsrc].
  constructor; [|by apply IH].
  split; [done|]. split; [done|].
  intros c Hc. rewrite not_elem_of_app in Hc.
  destruct Hc as [Hc1 Hc2]. rewrite (Hr3 c Hc2). by apply Hr.
Qed.


(** Whatever the input, a frame that a transformation returns has the
    batch id in every row. *)
Definition batch_stamped (batch_id : pyval) (df : DataFrame) : Prop :=
  Forall (fun r => r !! "etl_batch_id" = Some batch_id) (rows df).

Lemma convert_and_stamp_batch (numeric date boolean : list string)
    (batch_id : pyval) (now : Z) (df : DataFrame) :
  batch_stamped batch_id
    (convert_and_stamp numeric date boolean batch_id now df).
Proof.
  pose proof (convert_and_stamp_rows numeric date boolean batch_id now df)
    as Hrows.
  unfold batch_stamped. revert Hrows.
  generalize (rows (convert_and_stamp numeric date boolean batch_id now df)).
  generalize (rows df).
  induction 1 as [|r r' rs rs' (Hb & _) _ IH]; constructor; done.
Qed.

Lemma simple_transform_batch (numeric date boolean : list string)
    (batch_id : pyval) (now : Z) (data : list pyval) (df : DataFrame) :
  match data with
  | [] => Ok DataFrame_new
  | _ =>
      df <- DataFrame_of_list data ;;
      Ok (convert_and_stamp numeric date boolean batch_id now df)
  end = Ok df ->
  batch_stamped batch_id df.
Proof.
  destruct data as [|record data].
  - intros [= <-]. constructor.
  - destruct (DataFrame_of_list (record :: data)) as [df0|]; [|done].
    intros [= <-]. apply convert_and_stamp_batch.
Qed.

End Transform.

(** Every row the flattening loop emits has its item count. *)
Lemma item_row_counted (main : gmap string pyval) (n : nat) (item : pyval)
    (r : row) :
  item_row main n item = Ok r -> is_Some (r !! "total_items_in_order").
Proof.
  destruct item; try done. intros [= <-]. by rewrite lookup_insert_eq.
Qed.

Lemma for_each_Forall {A B} (f : A -> res B) (P : B -> Prop) (xs : list A)
    (ys : list B) :
  (forall x y, f x = Ok y -> P y) ->
  for_each f xs = Ok ys -> Forall P ys.
Proof.
  intros Hf. revert ys. induction xs as [|x xs IH]; intros ys.
  - intros [= <-]. constructor.
  - cbn [for_each]. destruct (f x) as [y|] eqn:Hy; [|done]. cbn [bind].
    destruct (for_each f xs) as [ys'|]; [|done]. cbn [bind].
    intros [= <-]. constructor; [by eapply Hf|by apply IH].
Qed.

Lemma flatten_order_counted (order : pyval) (g : list row) :
  flatten_order order = Ok g ->
  Forall (fun r => is_Some (r !! "total_items_in_order")) g.
Proof.
  destruct order as [| | | | | | | |o]; try done. cbn [flatten_order].
  destruct (truthy _).
  - destruct (dict_get_default o _ _); try done.
    apply for_each_Forall. intros x y. apply item_row_counted.
  - intros [= <-]. constructor; [|constructor].
    unfold no_item_row. by rewrite lookup_insert_eq.
Qed.

Lemma flatten_orders_counted (orders : list pyval) (acc rs : list row) :
  Forall (fun r => is_Some (r !! "total_items_in_order")) acc ->
  flatten_orders orders acc = Ok rs ->
  Forall (fun r => is_Some (r !! "total_items_in_order")) rs.
Proof.
  revert acc. induction orders as [|order orders IH]; intros acc Hacc.
  - by intros [= <-].
  - cbn [flatten_orders]. destruct (flatten_order order) as [g|] eqn:Hg;
      [|done]. cbn [bind]. apply IH. apply Forall_app. split; [done|].
    by apply (flatten_order_counted order).
Qed.

Lemma transform_sale_orders_batch `{Conversions} (batch_id : pyval)
    (now : Z) (data : list pyval) (df : DataFrame) :
  transform_sale_orders_flattened batch_id now data = Ok df ->
  batch_stamped batch_id df.
Proof.
  unfold transform_sale_orders_flattened.
  destruct data as [|order data]; [intros [= <-]; constructor|].
  destruct (flatten_orders (order :: data) []) as [rs|] eqn:Hflat;
    [|discriminate].
  cbn [bind].
  pose proof (flatten_orders_counted _ _ _ (Forall_nil_2 _) Hflat) as Hrs.
  destruct (empty (DataFrame_from_records rs)) eqn:Hempty.
  - intros Heq. injection Heq as <-. destruct rs as [|r rs]; [constructor|].
    rewrite (from_records_not_empty (r :: rs) "total_items_in_order") in Hempty;
      [discriminate|discriminate|exact Hrs].
  - match goal with |- Ok (_add_etl_metadata _ _ ?d) = _ -> _ =>
      generalize d end.
    intros df5 Heq. injection Heq as <-.
    pose proof (add_etl_metadata_rows batch_id now df5) as Hetl.
    unfold batch_stamped. revert Hetl.
    generalize (rows (_add_etl_metadata batch_id now df5)).
    generalize (rows df5).
    induction 1 as [|r r' rs1 rs2 [Hb _] _ IH]; constructor;
      [exact Hb|exact IH].
Qed.

End MisaEndpointsProofs.

Module MisaEndpointsProperties.
Import MisaTransformer MisaTransformerProofs MisaEndpoints
  MisaEndpointsProofs.

(** The column conversions keep the values; [pd.DataFrame] and [nunique]
    are defined on dictionaries and identifiers only. *)
Definition plain_conversions : Conversions :=
  {| to_numeric_coerce := id; to_datetime_coerce := id;
     astype_bool_ignore := id;
     to_numeric_coerce_length := fun _ => eq_refl;
     to_datetime_coerce_length := fun _ => eq_refl;
     astype_bool_ignore_length := fun _ => eq_refl |}.

(** The dictionaries of a list, when all its elements are dictionaries. *)
Fixpoint dicts_of (data : list pyval) : option (list row) :=
  match data with
  | [] => Some []
  | VDict d :: rest => cons d <$> dicts_of rest
  | _ => None
  end.

Lemma dicts_of_dicts (records : list row) :
  dicts_of (VDict <$> records) = Some records.
Proof.
  induction records as [|r records IH]; [done|].
  cbn. by rewrite IH.
Qed.

Definition sample_constructor : FrameConstructor.
Proof.
  refine {| DataFrame_of_list := fun data =>
              match dicts_of data with
              | Some records => Ok (DataFrame_from_records records)
              | None => Raise ValueError
              end |}.
  intros records. by rewrite dicts_of_dicts.
Defined.

Definition sample_series_ops : SeriesOps.
Proof.
  refine {| nunique := fun values =>
              match mapM id_key (filter (fun v => isna v = false) values) with
              | Some keys => Ok (length (remove_dups keys))
              | None => Raise TypeError
              end |}.
  intros values keys Hkeys. by rewrite Hkeys.
Defined.



End MisaEndpointsProperties.

Module FlattenedValidation.
Import MisaTransformer MisaTransformerProofs MisaEndpoints
  MisaEndpointsProofs MisaEndpointsProperties.

(** *** Orders the validation is written for *)

(** An item with an id that is not null. *)
Definition item_identified (item : pyval) : bool :=
  match item with
  | VDict i =>
      match i !! "id" with
      | Some v => negb (isna v)
      | None => false
      end
  | _ => false
  end.

(** The id of an order, when it is an integer or a string. *)
Definition order_key (order : pyval) : option (Z + string) :=
  match order with
  | VDict o => o !! "id" ≫= id_key
  | _ => None
  end.

(** An order with such an id whose items, a list when present, all have
    an id. *)
Definition identified (order : pyval) : bool :=
  match order with
  | VDict o =>
      bool_decide (is_Some (order_key order)) &&
      match o !! "sale_order_product_mappings" with
      | None => true
      | Some (VList items) => forallb item_identified items
      | Some _ => false
      end
  | _ => false
  end.

Definition cells (col : string) (rs : list row) : list pyval :=
  (fun r => cell r col) <$> rs.

Definition not_null (vs : list pyval) : list pyval :=
  filter (fun v => isna v = false) vs.

Lemma not_null_app (l1 l2 : list pyval) :
  not_null (l1 ++ l2) = not_null l1 ++ not_null l2.
Proof. apply filter_app. Qed.

Lemma not_null_all (vs : list pyval) :
  Forall (fun v => isna v = false) vs -> not_null vs = vs.
Proof.
  induction 1 as [|v vs Hv _ IH]; [reflexivity|].
  unfold not_null in *. rewrite filter_cons, decide_True by exact Hv.
  by rewrite IH.
Qed.

Lemma not_null_all_eq (vs : list pyval) :
  Forall (fun v => isna v = false) vs ->
  filter (fun v => isna v = false) vs = vs.
Proof. apply not_null_all. Qed.

Lemma not_null_none (vs : list pyval) :
  Forall (fun v => isna v = true) vs -> not_null vs = [].
Proof.
  induction 1 as [|v vs Hv _ IH]; [reflexivity|].
  unfold not_null in *. rewrite filter_cons, decide_False; [exact IH|].
  rewrite Hv. discriminate.
Qed.

Lemma identified_well_formed (order : pyval) :
  identified order = true -> well_formed_order order = true.
Proof.
  destruct order as [| | | | | | | |o]; try discriminate.
  cbn [identified well_formed_order]. intros Hid.
  apply andb_true_iff in Hid as [_ Hitems].
  destruct (o !! "sale_order_product_mappings") as [[| | | | | | |items|]|];
    try discriminate; try reflexivity.
  induction items as [|item items IH]; [reflexivity|].
  cbn [forallb] in *. apply andb_true_iff in Hitems as [Hitem Hitems].
  rewrite IH by exact Hitems. by destruct item.
Qed.

Lemma null_fields_lookup (fields : list string) (field : string) :
  forall r : row,
  field ∈ fields \/ r !! ("item_" +:+ field) = Some VNone ->
  foldl (fun r f => <["item_" +:+ f := VNone]> r) r fields
    !! ("item_" +:+ field) = Some VNone.
Proof.
  induction fields as [|f fields IH]; intros r Hin.
  - destruct Hin as [Hin|Hr]; [by apply elem_of_nil in Hin|exact Hr].
  - cbn [foldl]. apply IH.
    destruct (decide (f = field)) as [->|Hne].
    + right. apply lookup_insert_eq.
    + destruct Hin as [Hin|Hr].
      * left. apply elem_of_cons in Hin as [->|Hin]; [congruence|exact Hin].
      * right. rewrite lookup_insert_ne; [exact Hr|].
        intros Heq. by apply append_inj_r in Heq.
Qed.

Lemma no_item_row_item_id (main : gmap string pyval) :
  no_item_row main !! "item_id" = Some VNone.
Proof.
  unfold no_item_row.
  rewrite lookup_insert_ne by discriminate.
  rewrite lookup_insert_ne by discriminate.
  apply (null_fields_lookup item_fields "id"). left.
  unfold item_fields. by left.
Qed.

(** What the rows of one identified order hold in the two id columns. *)
Definition id_columns (order : pyval) (k : Z + string) (g : list row)
  : Prop :=
  g <> [] /\
  (exists v, id_key v = Some k /\
     Forall (fun r : row => r !! "order_id" = Some v) g) /\
  Forall (fun r : row => is_Some (r !! "item_id")) g /\
  length (not_null (cells "item_id" g)) = length (children order).

Lemma child_rows_item_id (n : nat) (items : list pyval) (g : list row) :
  forallb item_identified items = true ->
  Forall2 (child_row n) items g ->
  Forall (fun r : row => is_Some (r !! "item_id")) g /\
  Forall (fun v => isna v = false) (cells "item_id" g).
Proof.
  intros Hitems Hrows. revert Hitems.
  induction Hrows as [|item r items g Hrow _ IH]; intros Hitems.
  - split; constructor.
  - cbn [forallb] in Hitems. apply andb_true_iff in Hitems as [Hitem Hitems].
    destruct (IH Hitems) as [Hsome Hnn].
    destruct Hrow as [(i & -> & Hfields) _]. cbn [item_identified] in Hitem.
    destruct (i !! "id") as [v|] eqn:Hv; [|discriminate].
    pose proof (Hfields "id"%string v Hv) as Hr.
    change ("item_" +:+ "id")%string with "item_id"%string in Hr.
    split.
    + constructor; [by rewrite Hr|exact Hsome].
    + unfold cells. rewrite fmap_cons. constructor; [|exact Hnn].
      unfold cell. rewrite Hr. cbn. by apply negb_true_iff.
Qed.

Lemma flatten_order_ids (order : pyval) :
  identified order = true ->
  exists g k,
    flatten_order order = Ok g /\ rows_of_record order g /\
    order_key order = Some k /\ id_columns order k g.
Proof.
  intros Hid.
  destruct (flatten_order_spec order (identified_well_formed order Hid))
    as (g & Hflat & Hspec).
  pose proof Hspec as (o & -> & Hlen & Hparent & Hchildren).
  cbn [identified] in Hid. apply andb_true_iff in Hid as [Hkey Hitems].
  apply bool_decide_eq_true in Hkey as [k Hkey].
  exists g, k. split; [exact Hflat|]. split; [exact Hspec|].
  split; [exact Hkey|].
  cbn [order_key] in Hkey.
  destruct (o !! "id") as [v|] eqn:Hv; [|discriminate]. cbn in Hkey.
  assert (g <> []) as Hne.
  { intros ->. cbn in Hlen. lia. }
  split; [exact Hne|]. split.
  { exists v. split; [exact Hkey|].
    eapply Forall_impl; [exact Hparent|]. intros r Hr.
    apply (Hr "id"%string v); [discriminate|exact Hv]. }
  destruct (children (VDict o)) as [|item items] eqn:Hch.
  - (* no items: one row, built by [no_item_row] *)
    assert (g = [no_item_row (order_main o)]) as ->.
    { revert Hflat. cbn [flatten_order]. unfold dict_get_default.
      cbn [children] in Hch.
      destruct (o !! "sale_order_product_mappings")
        as [[| | | | | | |items|]|]; try discriminate; cbn [default truthy];
        try (intros Heq; by injection Heq as <-).
      subst items. intros Heq. by injection Heq as <-. }
    split.
    + constructor; [|constructor]. by rewrite no_item_row_item_id.
    + unfold cells. cbn [fmap list_fmap]. unfold cell.
      rewrite no_item_row_item_id. reflexivity.
  - assert (forallb item_identified (item :: items) = true) as Hall.
    { cbn [children] in Hch.
      destruct (o !! "sale_order_product_mappings")
        as [[| | | | | | |items'|]|]; try discriminate.
      by subst items'. }
    destruct (child_rows_item_id _ _ _ Hall Hchildren) as [Hsome Hnn].
    split; [exact Hsome|].
    rewrite (not_null_all _ Hnn). unfold cells. rewrite length_fmap.
    symmetry. by eapply Forall2_length.
Qed.

Lemma flatten_orders_ids (orders : list pyval) :
  Forall (fun o => identified o = true) orders ->
  exists groups keys,
    Forall2 (fun o g => flatten_order o = Ok g) orders groups /\
    mapM order_key orders = Some keys /\
    Forall3 id_columns orders keys groups.
Proof.
  induction 1 as [|order orders Hid _ (groups & keys & Hflat & Hkeys & Hids)].
  - exists [], []. repeat split; constructor.
  - destruct (flatten_order_ids order Hid) as (g & k & Hg & _ & Hk & Hcols).
    exists (g :: groups), (k :: keys). split; [by constructor|].
    split; [|by constructor].
    cbn [mapM]. rewrite Hk. cbn. rewrite Hkeys. reflexivity.
Qed.

Lemma flatten_orders_concat (orders : list pyval) (groups : list (list row)) :
  Forall2 (fun o g => flatten_order o = Ok g) orders groups ->
  forall acc, flatten_orders orders acc = Ok (acc ++ concat groups).
Proof.
  induction 1 as [|order g orders groups Hg _ IH]; intros acc.
  - cbn. by rewrite app_nil_r.
  - cbn [flatten_orders concat]. rewrite Hg. cbn [bind].
    rewrite IH. by rewrite app_assoc.
Qed.

(** The two id columns over all emitted rows. *)
Lemma id_columns_concat (orders : list pyval) (keys : list (Z + string))
    (groups : list (list row)) :
  Forall3 id_columns orders keys groups ->
  (orders <> [] -> concat groups <> []) /\
  Forall (fun r : row => is_Some (r !! "order_id") /\
                         is_Some (r !! "item_id")) (concat groups) /\
  (exists ks,
     Forall2 (fun v k => id_key v = Some k)
       (cells "order_id" (concat groups)) ks /\
     forall k, k ∈ ks <-> k ∈ keys) /\
  length (not_null (cells "item_id" (concat groups))) =
    sum_list ((fun o => length (children o)) <$> orders).
Proof.
  induction 1 as [|order k g orders keys groups
                    (Hne & (v & Hv & Hoid) & Hiid & Hcount) _
                    (_ & Hsome & (ks & Hks & Hin) & Hsum)].
  - split; [done|]. split; [constructor|]. split; [|reflexivity].
    exists []. split; [constructor|]. done.
  - cbn [concat]. split.
    { intros _ Happ. apply app_eq_nil in Happ as [Hg _]. by apply Hne. }
    split.
    { apply Forall_app. split; [|exact Hsome].
      apply Forall_forall. intros r Hr. split.
      - rewrite Forall_forall in Hoid. by rewrite (Hoid r Hr).
      - rewrite Forall_forall in Hiid. by apply Hiid. }
    split.
    { exists (replicate (length g) k ++ ks). split.
      - unfold cells. rewrite fmap_app. apply Forall2_app; [|exact Hks].
        clear -Hv Hoid. induction Hoid as [|r g Hr _ IH]; [constructor|].
        cbn. constructor; [|exact IH]. unfold cell. by rewrite Hr.
      - intros k'. rewrite elem_of_app, elem_of_cons, <- Hin.
        split; intros [Hk|Hk]; auto.
        + left. by apply elem_of_replicate in Hk as [-> _].
        + left. apply elem_of_replicate. split; [done|].
          destruct g; [done|]. cbn. lia. }
    unfold cells. rewrite fmap_app, not_null_app, length_app.
    rewrite fmap_cons. cbn [sum_list]. f_equal; [exact Hcount|exact Hsum].
Qed.

(** The loop over the original orders counts their items. *)
Lemma count_items_identified (orders : list pyval) :
  Forall (fun o => identified o = true) orders ->
  forall total multiple without,
  exists multiple' without',
    count_items orders total multiple without =
      Ok ((total + sum_list ((fun o => length (children o)) <$> orders))%nat,
          multiple', without').
Proof.
  induction 1 as [|order orders Hid _ IH]; intros total multiple without.
  - exists multiple, without. cbn. by rewrite Nat.add_0_r.
  - destruct order as [| | | | | | | |o]; try discriminate.
    cbn [identified] in Hid. apply andb_true_iff in Hid as [_ Hitems].
    cbn [count_items py_get_default bind]. unfold dict_get_default.
    cbn [children fmap list_fmap sum_list].
    destruct (o !! "sale_order_product_mappings")
      as [[| | | | | | |items|]|]; try discriminate;
      cbn [default from_option]; unfold id; cbn [py_len bind length].
    + match goal with |- context [count_items orders ?t ?m ?w] =>
        destruct (IH t m w) as (m' & w' & ->) end.
      exists m', w'. by rewrite Nat.add_assoc.
    + match goal with |- context [count_items orders ?t ?m ?w] =>
        destruct (IH t m w) as (m' & w' & ->) end.
      exists m', w'. by rewrite Nat.add_assoc.
Qed.

(** *** Columns of the frame *)

Lemma from_records_column (rs : list row) (r : row) (col : string) :
  r ∈ rs -> is_Some (r !! col) -> col ∈ columns (DataFrame_from_records rs).
Proof.
  intros Hr Hcol. unfold DataFrame_from_records. cbn [columns].
  apply elem_of_union_list. exists (dom r). split.
  - apply list_elem_of_fmap. by exists r.
  - by apply elem_of_dom.
Qed.

Lemma convert_columns_column (conv : list pyval -> list pyval)
    (cols : list string) (col : string) :
  forall df, col ∈ columns df -> col ∈ columns (convert_columns conv cols df).
Proof.
  unfold convert_columns.
  induction cols as [|c cols IH]; intros df Hcol; [exact Hcol|].
  cbn [foldl]. apply IH. destruct (has_column df c); [|exact Hcol].
  cbn [set_series columns]. apply elem_of_union. by right.
Qed.

Lemma add_etl_metadata_column (batch_id : pyval) (now : Z) (df : DataFrame)
    (col : string) :
  col ∈ columns df -> col ∈ columns (_add_etl_metadata batch_id now df).
Proof.
  intros Hcol. unfold _add_etl_metadata, set_scalar. cbn [columns].
  repeat (apply elem_of_union; right). exact Hcol.
Qed.

Lemma convert_columns_len (conv : list pyval -> list pyval)
    (cols : list string) (df : DataFrame) :
  (forall s, length (conv s) = length s) ->
  length (rows (convert_columns conv cols df)) = length (rows df).
Proof.
  intros Hconv. symmetry. eapply Forall2_length.
  by apply convert_columns_rows.
Qed.

Lemma add_etl_metadata_len (batch_id : pyval) (now : Z) (df : DataFrame) :
  length (rows (_add_etl_metadata batch_id now df)) = length (rows df).
Proof. symmetry. eapply Forall2_length, add_etl_metadata_rows. Qed.

Lemma stamped_cells (batch_id : pyval) (col : string) (rs rs' : list row) :
  col ∉ (converted_columns ++ etl_columns) ->
  Forall2 (stamped batch_id) rs rs' -> cells col rs' = cells col rs.
Proof.
  intros Hcol. induction 1 as [|r r' rs rs' [_ Hsame] _ IH]; [reflexivity|].
  unfold cells in *. rewrite !fmap_cons, IH. f_equal.
  unfold cell. by rewrite (Hsame col Hcol).
Qed.

Lemma id_columns_not_converted :
  ("order_id"%string ∉ converted_columns ++ etl_columns) /\
  ("item_id"%string ∉ converted_columns ++ etl_columns).
Proof.
  split; apply (bool_decide_unpack _); vm_compute; exact I.
Qed.

Section Validation.
Context `{Conversions} `{SeriesOps}.

(** The frame the transformation returns for orders that flatten into
    [emitted]. *)
Lemma transform_sale_orders_frame (batch_id : pyval) (now : Z)
    (orders : list pyval) (emitted : list row) :
  orders <> [] -> emitted <> [] ->
  flatten_orders orders [] = Ok emitted ->
  Forall (fun r : row => is_Some (r !! "order_id") /\
                         is_Some (r !! "item_id")) emitted ->
  exists df,
    transform_sale_orders_flattened batch_id now orders = Ok df /\
    empty df = false /\
    has_column df "order_id" = true /\ has_column df "item_id" = true.
Proof.
  intros Horders Hemitted Hflat Hcols.
  assert (empty (DataFrame_from_records emitted) = false) as Hempty.
  { apply (from_records_not_empty _ "order_id"); [exact Hemitted|].
    eapply Forall_impl; [exact Hcols|]. by intros r [Hr _]. }
  assert (forall col,
            Forall (fun r : row => is_Some (r !! col)) emitted ->
            col ∈ columns (DataFrame_from_records emitted)) as Hfrom.
  { intros col Hcol. destruct emitted as [|r emitted]; [done|].
    apply Forall_cons in Hcol as [Hr _].
    apply (from_records_column _ r); [by left|exact Hr]. }
  unfold transform_sale_orders_flattened.
  destruct orders as [|order orders]; [done|].
  rewrite Hflat. cbn [bind]. rewrite Hempty.
  revert Hfrom Hempty. generalize (DataFrame_from_records emitted) as df0.
  intros df0 Hfrom Hempty.
  eexists. split; [reflexivity|].
  assert (forall col,
            col ∈ columns df0 ->
            col ∈ columns
              (_add_etl_metadata batch_id now
                 (convert_columns astype_bool_ignore boolean_columns
                    (convert_columns to_datetime_coerce item_date_columns
                       (convert_columns to_datetime_coerce order_date_columns
                          (convert_columns to_numeric_coerce
                             item_numeric_columns
                             (convert_columns to_numeric_coerce
                                order_numeric_columns df0)))))))
    as Hkeep.
  { intros col Hcol.
    by apply add_etl_metadata_column, convert_columns_column,
      convert_columns_column, convert_columns_column,
      convert_columns_column, convert_columns_column. }
  assert (length (rows
            (_add_etl_metadata batch_id now
               (convert_columns astype_bool_ignore boolean_columns
                  (convert_columns to_datetime_coerce item_date_columns
                     (convert_columns to_datetime_coerce order_date_columns
                        (convert_columns to_numeric_coerce
                           item_numeric_columns
                           (convert_columns to_numeric_coerce
                              order_numeric_columns df0))))))) =
          length (rows df0)) as Hlen.
  { rewrite add_etl_metadata_len.
    rewrite (convert_columns_len astype_bool_ignore)
      by apply astype_bool_ignore_length.
    rewrite !(convert_columns_len to_datetime_coerce)
      by apply to_datetime_coerce_length.
    rewrite !(convert_columns_len to_numeric_coerce)
      by apply to_numeric_coerce_length.
    reflexivity. }
  revert Hkeep Hlen.
  match goal with |- context [rows ?d] => generalize d as df end.
  intros df Hkeep Hlen.
  assert ("order_id"%string ∈ columns df) as Hoid.
  { apply Hkeep, Hfrom. eapply Forall_impl; [exact Hcols|].
    by intros r [Hr _]. }
  assert ("item_id"%string ∈ columns df) as Hiid.
  { apply Hkeep, Hfrom. eapply Forall_impl; [exact Hcols|].
    by intros r [_ Hr]. }
  split; [|split].
  - unfold empty in *. apply orb_false_iff in Hempty as [Hrows _].
    apply bool_decide_eq_false in Hrows.
    apply orb_false_iff. split; apply bool_decide_eq_false.
    + intros Hnil. apply Hrows. apply length_zero_iff_nil.
      rewrite <- Hlen, Hnil. reflexivity.
    + intros Hnone. rewrite Hnone in Hoid. by apply not_elem_of_empty in Hoid.
  - unfold has_column. by apply bool_decide_eq_true.
  - unfold has_column. by apply bool_decide_eq_true.
Qed.

End Validation.

End FlattenedValidation.

Module TransformAll.
Import MisaTransformer MisaTransformerProofs MisaEndpoints
  MisaEndpointsProofs MisaEndpointsProperties.

(** The endpoints [transform_all_endpoints] looks for, each with the key
    its frame is stored under. *)
Definition endpoint_outputs : list (string * string) :=
  [("customers", "customers"); ("sale_orders", "sale_orders_flattened");
   ("contacts", "contacts"); ("stocks", "stocks");
   ("products", "products")]%string.

(** What holds of [transformed_data] after the steps for [steps]. *)
Definition transformed (raw_data : gmap string (list pyval))
    (batch_id : pyval) (steps : list (string * string))
    (transformed_data : gmap string DataFrame) : Prop :=
  (forall out,
     is_Some (transformed_data !! out) <->
     exists key record records,
       (key, out) ∈ steps /\ raw_data !! key = Some (record :: records)) /\
  (forall out df,
     transformed_data !! out = Some df -> batch_stamped batch_id df).

Lemma transformed_step (raw_data : gmap string (list pyval))
    (batch_id : pyval) (steps : list (string * string)) (key out : string)
    (transform : list pyval -> res DataFrame)
    (transformed_data transformed_data' : gmap string DataFrame) :
  (forall data df, transform data = Ok df -> batch_stamped batch_id df) ->
  transformed raw_data batch_id steps transformed_data ->
  transform_if_present key out transform raw_data transformed_data =
    Ok transformed_data' ->
  transformed raw_data batch_id (steps ++ [(key, out)]) transformed_data'.
Proof.
  intros Htransform [Hkeys Hbatch]. unfold transform_if_present.
  destruct (raw_data !! key) as [[|record records]|] eqn:Hraw.
  1,3: intros [= <-]; split; [|exact Hbatch]; intros out'; rewrite Hkeys;
    split; intros (k & r & rs & Hin & Hk);
    [exists k, r, rs; split; [apply elem_of_app; by left|exact Hk]
    |apply elem_of_app in Hin as [Hin|Hin];
      [by exists k, r, rs
      |apply list_elem_of_singleton in Hin; injection Hin as -> ->;
       congruence]].
  destruct (transform (record :: records)) as [df|] eqn:Hdf; [|discriminate].
  cbn [bind]. intros [= <-]. split.
  - intros out'. destruct (decide (out' = out)) as [->|Hne].
    + rewrite lookup_insert_eq. split; [|by eauto].
      intros _. exists key, record, records. split; [|exact Hraw].
      apply elem_of_app. right. by apply list_elem_of_singleton.
    + rewrite lookup_insert_ne by done. rewrite Hkeys.
      split; intros (k & r & rs & Hin & Hk).
      * exists k, r, rs. split; [apply elem_of_app; by left|exact Hk].
      * apply elem_of_app in Hin as [Hin|Hin]; [by exists k, r, rs|].
        apply list_elem_of_singleton in Hin. injection Hin as -> ->.
        congruence.
  - intros out' df'. destruct (decide (out' = out)) as [->|Hne].
    + rewrite lookup_insert_eq. intros [= <-]. by eapply Htransform.
    + rewrite lookup_insert_ne by done. apply Hbatch.
Qed.

(** [transform_all_endpoints], when it returns, has stored a frame for
    exactly those of the five endpoints that [raw_data] holds a non-empty
    list for, the sale orders under the key [sale_orders_flattened] and
    the others under their own name; keys of [raw_data] other than the
    five are ignored. Every row of every frame carries the batch id of
    the call. *)
Theorem transform_all_endpoints_result `{Conversions} `{FrameConstructor}
    (now : string -> Z) (raw_data : gmap string (list pyval))
    (batch_id : pyval) (transformed_data : gmap string DataFrame) :
  transform_all_endpoints now raw_data batch_id = Ok transformed_data ->
  (forall out,
     is_Some (transformed_data !! out) <->
     exists key record records,
       (key, out) ∈ endpoint_outputs /\
       raw_data !! key = Some (record :: records)) /\
  (forall out df,
     transformed_data !! out = Some df -> batch_stamped batch_id df).
Proof.
  unfold transform_all_endpoints.
  assert (transformed raw_data batch_id [] ∅) as H0'.
  { split.
    - intros out. rewrite lookup_empty. split; [by intros []|].
      intros (k & r & rs & Hin & _). by apply elem_of_nil in Hin.
    - intros out df. by rewrite lookup_empty. }
  destruct (transform_if_present "customers" _ _ raw_data ∅)
    as [t1|] eqn:H1; [|discriminate]. cbn [bind].
  eapply (transformed_step raw_data batch_id) in H1;
    [|intros data df; apply simple_transform_batch|exact H0'].
  destruct (transform_if_present "sale_orders" _ _ raw_data t1)
    as [t2|] eqn:H2; [|discriminate]. cbn [bind].
  eapply (transformed_step raw_data batch_id) in H2;
    [|intros data df; apply transform_sale_orders_batch|exact H1].
  destruct (transform_if_present "contacts" _ _ raw_data t2)
    as [t3|] eqn:H3; [|discriminate]. cbn [bind].
  eapply (transformed_step raw_data batch_id) in H3;
    [|intros data df; apply simple_transform_batch|exact H2].
  destruct (transform_if_present "stocks" _ _ raw_data t3)
    as [t4|] eqn:H4; [|discriminate]. cbn [bind].
  eapply (transformed_step raw_data batch_id) in H4;
    [|intros data df; apply simple_transform_batch|exact H3].
  intros H5.
  eapply (transformed_step raw_data batch_id) in H5;
    [|intros data df; apply simple_transform_batch|exact H4].
  exact H5.
Qed.

(** Two customers, no sale orders, and an endpoint the transformer does
    not know. *)
Definition sample_raw_data : gmap string (list pyval) :=
  <["customers" := [VDict {["id" := VInt 1]}; VDict {["id" := VInt 2]}]]>
    (<["sale_orders" := []]> (<["invoices" := [VDict ∅]]> ∅)).

Lemma transform_all_endpoints_result_witness :
  exists transformed_data,
    transform_all_endpoints (H := plain_conversions)
      (H0 := sample_constructor) (fun _ => 0) sample_raw_data
      (VStr "batch-1") = Ok transformed_data /\
    is_Some (transformed_data !! "customers") /\
    (forall out df,
       transformed_data !! out = Some df ->
       batch_stamped (VStr "batch-1") df).
Proof.
  destruct (transform_all_endpoints (H := plain_conversions)
              (H0 := sample_constructor) (fun _ => 0) sample_raw_data
              (VStr "batch-1")) as [transformed_data|] eqn:Hrun;
    [|vm_compute in Hrun; discriminate].
  exists transformed_data. split; [reflexivity|].
  destruct (transform_all_endpoints_result (H := plain_conversions)
              (H0 := sample_constructor) _ _ _ _ Hrun) as [Hkeys Hbatch].
  split; [|exact Hbatch].
  apply Hkeys. eexists "customers"%string, _, _.
  split; [by left|reflexivity].
Defined.

End TransformAll.

Module FlattenedValidationProperties.
Import MisaTransformer MisaTransformerProofs MisaEndpoints
  MisaEndpointsProofs MisaEndpointsProperties FlattenedValidation.

(** For a non-empty list of orders whose ids are integers or strings and
    pairwise distinct, and whose items, where an order has any, are a list
    of dictionaries with an id that is not null, the validation accepts
    the frame the flattening returns: it counts as many distinct orders
    as there are orders and as many item rows as there are items. An
    order whose item collection is null is accepted by the flattening,
    which emits its single row without items, but makes the counting loop
    of the validation raise a [TypeError]. *)
Theorem flattened_orders_pass_validation `{Conversions} `{SeriesOps}
    (batch_id : pyval) (now : Z) (orders : list pyval)
    (keys : list (Z + string)) :
  orders <> [] ->
  Forall (fun o => identified o = true) orders ->
  mapM order_key orders = Some keys -> NoDup keys ->
  (exists df r,
     transform_sale_orders_flattened batch_id now orders = Ok df /\
     validate_flattened_data df orders = Ok r /\
     validation_passed r = true /\
     total_original_orders r = length orders /\
     unique_orders_in_flattened r = length orders /\
     total_flattened_rows r = len df /\
     total_items_original r =
       sum_list ((fun o => length (children o)) <$> orders) /\
     total_items_flattened r = total_items_original r) /\
  (forall (o : gmap string pyval) rest total multiple without,
     o !! "sale_order_product_mappings" = Some VNone ->
     flatten_order (VDict o) = Ok [no_item_row (order_main o)] /\
     count_items (VDict o :: rest) total multiple without = Raise TypeError).
Proof.
  intros Horders Hid Hkeys Hnodup. split.
  2:{ intros o rest total multiple without Hnull. split.
      - cbn [flatten_order]. unfold dict_get_default. by rewrite Hnull.
      - cbn [count_items py_get_default bind]. unfold dict_get_default.
        by rewrite Hnull. }
  destruct (flatten_orders_ids orders Hid)
    as (groups & keys' & Hgroups & Hkeys' & Hids).
  rewrite Hkeys in Hkeys'. injection Hkeys' as <-.
  pose proof (flatten_orders_concat orders groups Hgroups []) as Hflat.
  rewrite app_nil_l in Hflat.
  destruct (id_columns_concat orders keys groups Hids)
    as (Hne & Hcols & (ks & Hks & Hin) & Hitems).
  specialize (Hne Horders).
  destruct (transform_sale_orders_frame batch_id now orders (concat groups)
              Horders Hne Hflat Hcols)
    as (df & Hdf & Hempty & Hoid & Hiid).
  (* the rows of the frame against the emitted rows *)
  assert (Forall2 (stamped batch_id) (concat groups) (rows df)) as Hst.
  { destruct (transform_sale_orders_flattened_spec batch_id now orders
                (Forall_impl _ _ _ Hid identified_well_formed))
      as (groups' & df' & Hflat' & _ & Hdf' & Hst).
    rewrite Hflat in Hflat'. injection Hflat' as ->.
    rewrite Hdf in Hdf'. by injection Hdf' as ->. }
  destruct id_columns_not_converted as [Hoc Hic].
  pose proof (stamped_cells batch_id "order_id" _ _ Hoc Hst) as Horder_cells.
  pose proof (stamped_cells batch_id "item_id" _ _ Hic Hst) as Hitem_cells.
  assert (nunique (series df "order_id") = Ok (length orders)) as Hunique.
  { change (series df "order_id") with (cells "order_id" (rows df)).
    rewrite Horder_cells.
    rewrite (nunique_ids _ ks).
    - f_equal. rewrite (length_mapM _ _ _ Hkeys).
      apply Permutation_length, NoDup_Permutation;
        [apply NoDup_remove_dups|exact Hnodup|].
      intros k. by rewrite elem_of_remove_dups.
    - apply mapM_Some.
      rewrite (not_null_all_eq (cells "order_id" (concat groups))).
      + exact Hks.
      + clear -Hks. induction Hks as [|v k vs ks' Hv _ IH]; constructor;
          [|exact IH].
        by destruct v. }
  destruct (count_items_identified orders Hid 0%nat 0%nat 0%nat)
    as (multiple & without & Hcount).
  exists df. eexists. split; [exact Hdf|].
  unfold validate_flattened_data, column.
  rewrite Hempty, Hoid, Hiid. cbn [bind]. rewrite Hunique. cbn [bind].
  rewrite Hcount. cbn [bind].
  change (series df "item_id") with (cells "item_id" (rows df)).
  rewrite Hitem_cells. fold (not_null (cells "item_id" (concat groups))).
  rewrite Hitems, Nat.add_0_l, !Nat.eqb_refl.
  split; [reflexivity|]. by repeat split.
Qed.

(** One order with two items, one without items. *)
Definition identified_orders : list pyval :=
  [VDict (<["id" := VInt 7]>
          (<["sale_order_product_mappings" :=
               VList [VDict {["id" := VInt 1]}; VDict {["id" := VInt 2]}]]> ∅));
   VDict {["id" := VStr "A-8"]}].

Lemma flattened_orders_pass_validation_witness :
  exists df r,
    transform_sale_orders_flattened (H := plain_conversions) (VStr "batch-1")
      0 identified_orders = Ok df /\
    validate_flattened_data (H1 := sample_series_ops) df identified_orders
      = Ok r /\
    validation_passed r = true /\ total_items_original r = 2%nat.
Proof.
  assert (NoDup [inl 7; inr "A-8"%string] ) as Hnodup.
  { apply (bool_decide_unpack _). by vm_compute. }
  destruct (flattened_orders_pass_validation (H := plain_conversions)
              (H0 := sample_series_ops) (VStr "batch-1") 0 identified_orders
              [inl 7; inr "A-8"%string]
              ltac:(discriminate)
              ltac:(repeat constructor) eq_refl Hnodup)
    as [(df & r & Hdf & Hr & Hpass & _ & _ & _ & Hitems & _) _].
  exists df, r. split; [exact Hdf|]. split; [exact Hr|].
  split; [exact Hpass|exact Hitems].
Defined.

End FlattenedValidationProperties.
